(** * Dollar Debasement Dashboard: a shallow embedding of [src/main.py]

    The script is a straight-line pandas program.  Its data are pandas
    frames with one timestamp column ([date]) and float64 columns; its
    operations are the pandas calls of the script ([concat],
    [drop_duplicates], [sort_values], column assignment, [dropna], boolean
    filtering, [resample('YE').mean()] / [.last()], [iloc[0]]), and its
    control flow is a sequence of blocks in which an uncaught exception
    ends the run.

    Numbers are IEEE-754 binary64 values (Rocq's primitive floats), so that
    NaN, the infinities and rounding behave as in numpy. *)

From Stdlib Require Import ZArith List Bool Lia String Permutation Sorted.
From Stdlib Require Import Floats.
Import ListNotations.
Open Scope string_scope.
Open Scope list_scope.

(* ================================================================= *)
(** ** Exceptions and the result monad *)

(** The exceptions the modelled pandas calls raise.  [TypeError] is what
    Python raises when [None] is subscripted. *)
Inductive exn : Type :=
| KeyError (key : string)
| IndexError
| TypeError.

Inductive result (A : Type) : Type :=
| Ok (a : A)
| Raise (e : exn).
Arguments Ok {A} a.
Arguments Raise {A} e.

Definition bind {A B : Type} (m : result A) (k : A -> result B) : result B :=
  match m with
  | Ok a => k a
  | Raise e => Raise e
  end.

Notation "x <- m ;; k" := (bind m (fun x => k))
  (at level 61, m at next level, right associativity).

(* ================================================================= *)
(** ** Timestamps *)

(** A pandas [Timestamp] at day resolution.  Ordering is chronological. *)
Record Timestamp : Type := mkDate { year : Z; month : Z; day : Z }.

Definition date_compare (a b : Timestamp) : comparison :=
  match (year a ?= year b)%Z with
  | Eq => match (month a ?= month b)%Z with
          | Eq => (day a ?= day b)%Z
          | c => c
          end
  | c => c
  end.

Definition date_eqb (a b : Timestamp) : bool :=
  match date_compare a b with Eq => true | _ => false end.

Definition date_leb (a b : Timestamp) : bool :=
  match date_compare a b with Gt => false | _ => true end.

Definition date_ltb (a b : Timestamp) : bool :=
  match date_compare a b with Lt => true | _ => false end.

(** The label pandas gives the bin of calendar year [y] under the ['YE']
    (year-end, December) frequency. *)
Definition year_end (y : Z) : Timestamp := mkDate y 12 31.

(* ================================================================= *)
(** ** Frames *)

(** A row holds its timestamp and the float cells of the other columns, by
    position; a frame names those columns.  Timestamps are never missing
    (NaT) in this model. *)
Record Row : Type := mkRow { date : Timestamp; cells : list float }.

Record DataFrame : Type := mkDF { columns : list string; rows : list Row }.

Definition wf_frame (df : DataFrame) : Prop :=
  Forall (fun r => List.length (cells r) = List.length (columns df)) (rows df).

Fixpoint index_of (name : string) (cols : list string) : option nat :=
  match cols with
  | [] => None
  | c :: cs => if String.eqb name c then Some 0%nat
               else option_map S (index_of name cs)
  end.

Definition cell (i : nat) (r : Row) : float := nth i (cells r) nan.

Fixpoint replace_nth {A : Type} (i : nat) (x : A) (l : list A) : list A :=
  match l, i with
  | [], _ => []
  | _ :: t, O => x :: t
  | h :: t, S j => h :: replace_nth j x t
  end.

(** [df[name]]: the column as a list of values; [KeyError] when absent. *)
Definition get_col (name : string) (df : DataFrame) : result (list float) :=
  match index_of name (columns df) with
  | Some i => Ok (map (cell i) (rows df))
  | None => Raise (KeyError name)
  end.

(** [df[name] = vals], for a series [vals] computed from [df] itself (same
    index, hence positional): overwrites the column when it exists, appends
    it otherwise. *)
Definition put_cell (pos : option nat) (v : float) (cs : list float)
  : list float :=
  match pos with
  | Some i => replace_nth i v cs
  | None => cs ++ [v]
  end.

Definition set_col (name : string) (vals : list float) (df : DataFrame)
  : DataFrame :=
  let pos := index_of name (columns df) in
  mkDF (match pos with
        | Some _ => columns df
        | None => columns df ++ [name]
        end)
       (map (fun rv => mkRow (date (fst rv))
                             (put_cell pos (snd rv) (cells (fst rv))))
            (combine (rows df) vals)).

Fixpoint indices_of (names cols : list string) : result (list nat) :=
  match names with
  | [] => Ok []
  | n :: ns =>
      match index_of n cols with
      | Some i => idxs <- indices_of ns cols ;; Ok (i :: idxs)
      | None => Raise (KeyError n)
      end
  end.

(** [df[['date', n1, ..., nk]]]: a new frame with the listed columns. *)
Definition select (names : list string) (df : DataFrame) : result DataFrame :=
  idxs <- indices_of names (columns df) ;;
  Ok (mkDF names
           (map (fun r => mkRow (date r) (map (fun i => cell i r) idxs))
                (rows df))).

(** [df.dropna()]: drops every row holding a NaN.  An infinity is not a
    missing value. *)
Definition has_na (r : Row) : bool := existsb is_nan (cells r).

Definition dropna (df : DataFrame) : DataFrame :=
  mkDF (columns df) (filter (fun r => negb (has_na r)) (rows df)).

(** [df[df['date'] >= cutoff]] *)
Definition filter_date_ge (cutoff : Timestamp) (df : DataFrame) : DataFrame :=
  mkDF (columns df) (filter (fun r => date_leb cutoff (date r)) (rows df)).

(** [series.iloc[0]] *)
Definition iloc0 (vals : list float) : result float :=
  match vals with
  | [] => Raise IndexError
  | v :: _ => Ok v
  end.

(* ----------------------------------------------------------------- *)
(** *** concat, drop_duplicates, sort_values *)

Definition reindex_columns (src dst : list string) (r : Row) : Row :=
  mkRow (date r)
        (map (fun n => match index_of n src with
                       | Some i => cell i r
                       | None => nan
                       end) dst).

(** [pd.concat([a, b])] of two frames that both have a [date] column: the
    columns are the union in order of appearance, cells of a column a
    frame lacks are NaN, and the rows of [a] precede the rows of [b]. *)
Definition concat (a b : DataFrame) : DataFrame :=
  let extra :=
    filter (fun n => match index_of n (columns a) with
                     | Some _ => false
                     | None => true
                     end) (columns b) in
  let cols := columns a ++ extra in
  mkDF cols (map (reindex_columns (columns a) cols) (rows a)
             ++ map (reindex_columns (columns b) cols) (rows b)).

(** [drop_duplicates(subset=['date'])] with the default [keep='first']:
    a row is dropped when an earlier row carries the same date. *)
Fixpoint drop_dups_from (seen : list Timestamp) (rs : list Row) : list Row :=
  match rs with
  | [] => []
  | r :: rest =>
      if existsb (date_eqb (date r)) seen then drop_dups_from seen rest
      else r :: drop_dups_from (date r :: seen) rest
  end.

Definition drop_duplicates_date (df : DataFrame) : DataFrame :=
  mkDF (columns df) (drop_dups_from [] (rows df)).

(** Sorting by date, ascending; ties keep their order. *)
Fixpoint insert_row (r : Row) (l : list Row) : list Row :=
  match l with
  | [] => [r]
  | x :: xs => if date_leb (date r) (date x) then r :: l
               else x :: insert_row r xs
  end.

Definition sort_rows (l : list Row) : list Row := fold_right insert_row [] l.

Definition sort_values_date (df : DataFrame) : DataFrame :=
  mkDF (columns df) (sort_rows (rows df)).

(* ----------------------------------------------------------------- *)
(** *** resample('YE') *)

(** The group mean of pandas ([group_mean] of [_libs/groupby.pyx], as in
    pandas 2): NaN entries are skipped, the sum is accumulated with Kahan
    compensation (reset when it becomes NaN), and a group without any value
    yields NaN.  The script does not pin a pandas version; what is proved
    below about the value of an annual mean in general ([is_mean_of]) does
    not depend on the order or the compensation of the summation. *)
Record mean_acc : Type :=
  mkAcc { sumx : float; compensation : float; nobs : Z }.

Definition mean_step (a : mean_acc) (v : float) : mean_acc :=
  if is_nan v then a
  else
    let y := (v - compensation a)%float in
    let t := (sumx a + y)%float in
    let c := (t - sumx a - y)%float in
    mkAcc t (if is_nan c then 0%float else c) (nobs a + 1).

Definition float_of_count (n : Z) : float := of_uint63 (Uint63.of_Z n).

Definition group_mean (vals : list float) : float :=
  let a := fold_left mean_step vals (mkAcc 0%float 0%float 0) in
  if (nobs a =? 0)%Z then nan
  else (sumx a / float_of_count (nobs a))%float.

(** The group "last" of pandas ([group_last]): the last entry that is not
    NaN; NaN when there is none. *)
Definition group_last (vals : list float) : float :=
  fold_left (fun acc v => if is_nan v then acc else v) vals nan.

Definition year_rows (y : Z) (rs : list Row) : list Row :=
  filter (fun r => (year (date r) =? y)%Z) rs.

Definition year_range (y0 y1 : Z) : list Z :=
  map (fun k => (y0 + Z.of_nat k)%Z) (seq 0 (Z.to_nat (y1 - y0 + 1))).

(** [df.set_index('date').resample('YE').agg().reset_index()]: the rows
    are put in chronological order, one bin is laid out for every calendar
    year from the year of the earliest row to the year of the latest one,
    each bin is labelled with its year-end date, and every column is
    aggregated over the rows of the bin.  An empty frame stays empty. *)
Definition resample_YE (agg : list float -> float) (df : DataFrame)
  : DataFrame :=
  let sorted := sort_rows (rows df) in
  match sorted with
  | [] => mkDF (columns df) []
  | r0 :: _ =>
      let y0 := year (date r0) in
      let y1 := year (date (last sorted r0)) in
      mkDF (columns df)
           (map (fun y =>
                   mkRow (year_end y)
                         (map (fun i => agg (map (cell i) (year_rows y sorted)))
                              (seq 0 (List.length (columns df)))))
                (year_range y0 y1))
  end.

(* ================================================================= *)
(** ** The script *)

(** Python's insertion-ordered [dict] with string keys. *)
Definition dict : Type := list (string * DataFrame).

Fixpoint dict_get (k : string) (d : dict) : option DataFrame :=
  match d with
  | [] => None
  | (k', v) :: rest => if String.eqb k k' then Some v else dict_get k rest
  end.

Fixpoint dict_set (k : string) (v : DataFrame) (d : dict) : dict :=
  match d with
  | [] => [(k, v)]
  | (k', v') :: rest =>
      if String.eqb k k' then (k, v) :: rest else (k', v') :: dict_set k v rest
  end.

Definition keys (d : dict) : list string := map fst d.

(** What the loading part of the script (lines 63-117) leaves behind:
    [None] for [cpi], [msp] and [gasoline] means the load failed and the
    variable is [None]; [None] for a Big Mac segment means the file does
    not exist and the variable is the column-less [pd.DataFrame()].  A
    loaded frame is one whose dates were parsed and whose other columns
    were read as numbers. *)
Record Loaded : Type := mkLoaded {
  ld_cpi : option DataFrame;
  ld_msp : option DataFrame;
  ld_gasoline : option DataFrame;
  historical : option DataFrame;
  current : option DataFrame
}.

(** The variables of the script after line 120.  The frames [cpi], [msp],
    [gasoline] and [bigmac] are objects the script later assigns columns
    to, in place. *)
Record State : Type := mkState {
  cpi : option DataFrame;
  msp : option DataFrame;
  gasoline : option DataFrame;
  bigmac : DataFrame;
  summary : dict;
  figures : dict;
  combined_data : dict
}.

Definition CUTOFF : Timestamp := mkDate 1995 1 1.

(** Line 120:
    [pd.concat([historical, current]).drop_duplicates(subset=['date']).sort_values('date')].
    With both segments column-less the result of [concat] has no [date]
    column: [drop_duplicates] returns the empty frame as it is and
    [sort_values('date')] raises [KeyError]. *)
Definition pd_concat (h c : option DataFrame) : option DataFrame :=
  match h, c with
  | None, None => None
  | Some a, None => Some a
  | None, Some b => Some b
  | Some a, Some b => Some (concat a b)
  end.

Definition bigmac_merge (h c : option DataFrame) : result DataFrame :=
  match pd_concat h c with
  | None => Raise (KeyError "date")
  | Some df => Ok (sort_values_date (drop_duplicates_date df))
  end.

(** [df[dst] = num / df[src]] (lines 129, 132, 136, 139, 201).  The
    columns of a frame hold float64 values here; on a column that
    [read_csv] left as text (dtype object) the division raises [TypeError]
    in the script, a case that lies outside this embedding. *)
Definition add_ratio (num : float) (src dst : string) (df : DataFrame)
  : result DataFrame :=
  col <- get_col src df ;;
  Ok (set_col dst (map (fun p => (num / p)%float) col) df).

(** [initial = df[src].iloc[0]; df[dst] = (df[src] / initial) * 100] *)
Definition rebase (src dst : string) (df : DataFrame) : result DataFrame :=
  col <- get_col src df ;;
  initial <- iloc0 col ;;
  Ok (set_col dst (map (fun v => (v / initial * 100)%float) col) df).

(** Lines 127-140. *)
Definition build_summary (st : State) : result State :=
  (* bigmac is never None *)
  bm <- add_ratio 10000%float "price" "bigmac_per_10k" (bigmac st) ;;
  bm_sel <- select ["price"; "bigmac_per_10k"] bm ;;
  let summary1 := dict_set "bigmac" (dropna bm_sel) (summary st) in
  gas_sum <-
    match gasoline st with
    | Some g =>
        g' <- add_ratio 10000%float "price" "gallon_per_10k" g ;;
        sel <- select ["price"; "gallon_per_10k"] g' ;;
        Ok (Some g', dict_set "gasoline" sel summary1)
    | None => Ok (None, summary1)
    end ;;
  msp_sum <-
    match msp st with
    | Some m =>
        m' <- add_ratio 10000%float "value" "homes_per_10k" m ;;
        sel <- select ["value"; "homes_per_10k"] m' ;;
        Ok (Some m', dict_set "median_home" sel (snd gas_sum))
    | None => Ok (None, snd gas_sum)
    end ;;
  cpi_sum <-
    match cpi st with
    | Some c =>
        c' <- add_ratio 1%float "value" "inverted_pct" c ;;
        sel <- select ["value"; "inverted_pct"] c' ;;
        Ok (Some c', dict_set "cpi" sel (snd msp_sum))
    | None => Ok (None, snd msp_sum)
    end ;;
  Ok (mkState (fst cpi_sum) (fst msp_sum) (fst gas_sum) bm
              (snd cpi_sum) (figures st) (combined_data st)).

Definition save_figure (name : string) (df : DataFrame) (st : State) : State :=
  mkState (cpi st) (msp st) (gasoline st) (bigmac st) (summary st)
          (dict_set name df (figures st)) (combined_data st).

Definition set_combined (label : string) (df : DataFrame) (st : State) : State :=
  mkState (cpi st) (msp st) (gasoline st) (bigmac st) (summary st)
          (figures st) (dict_set label df (combined_data st)).

(** Lines 150-163: the Big Mac chart, rebased at the frequency of the data. *)
Definition plot_bigmac (cutoff : Timestamp) (st : State) : result State :=
  match dict_get "bigmac" (summary st) with
  | None => Ok st
  | Some df0 =>
      let df := filter_date_ge cutoff df0 in
      df' <- rebase "bigmac_per_10k" "bigmac_pct" df ;;
      Ok (save_figure "bigmac_cost_percentage_1995.png" df' st)
  end.

(** Lines 165-180: gasoline, annual mean, rebased. *)
Definition plot_gasoline (cutoff : Timestamp) (st : State) : result State :=
  match dict_get "gasoline" (summary st) with
  | None => Ok st
  | Some df0 =>
      let df := filter_date_ge cutoff df0 in
      let ann := resample_YE group_mean df in
      ann' <- rebase "gallon_per_10k" "gallon_pct" ann ;;
      Ok (save_figure "gas_gallons_cost_percentage_1995.png" ann' st)
  end.

(** Lines 182-197: median home, annual last, rebased. *)
Definition plot_median_home (cutoff : Timestamp) (st : State) : result State :=
  match dict_get "median_home" (summary st) with
  | None => Ok st
  | Some df0 =>
      let df := filter_date_ge cutoff df0 in
      let ann := resample_YE group_last df in
      ann' <- rebase "homes_per_10k" "homes_pct" ann ;;
      Ok (save_figure
            "homes_purchased_with_median_salary_percentage_1995.png" ann' st)
  end.

(** Lines 199-213: inverted CPI, computed from the variable [cpi]. *)
Definition plot_cpi (cutoff : Timestamp) (st : State) : result State :=
  match dict_get "cpi" (summary st) with
  | None => Ok st
  | Some _ =>
      match cpi st with
      | None => Raise TypeError
      | Some c =>
          let cpi_filtered := filter_date_ge cutoff c in
          cpi_filtered' <- add_ratio 1%float "value" "inverted" cpi_filtered ;;
          let ann_cpi := resample_YE group_mean cpi_filtered' in
          ann_cpi' <- rebase "inverted" "inverted_pct" ann_cpi ;;
          Ok (save_figure "inverted_cpi_percentage_1995.png" ann_cpi' st)
      end
  end.

(** Lines 218-248: one block per series, each storing its annual rebased
    frame in [combined_data] under the series' label. *)
Definition combine_series (cutoff : Timestamp) (key label src : string)
    (agg : list float -> float) (st : State) : result State :=
  match dict_get key (summary st) with
  | None => Ok st
  | Some df0 =>
      let df := filter_date_ge cutoff df0 in
      let ann := resample_YE agg df in
      ann' <- rebase src "pct" ann ;;
      Ok (set_combined label ann' st)
  end.

Definition build_combined (cutoff : Timestamp) (st : State) : result State :=
  st1 <- combine_series cutoff "bigmac" "Big Mac" "bigmac_per_10k"
                        group_mean st ;;
  st2 <- combine_series cutoff "gasoline" "Gasoline" "gallon_per_10k"
                        group_mean st1 ;;
  st3 <- combine_series cutoff "median_home" "Median Home" "homes_per_10k"
                        group_last st2 ;;
  combine_series cutoff "cpi" "Inverted CPI" "inverted_pct" group_mean st3.

Definition run (cutoff : Timestamp) (inp : Loaded) : result State :=
  bm <- bigmac_merge (historical inp) (current inp) ;;
  st1 <- build_summary
           (mkState (ld_cpi inp) (ld_msp inp) (ld_gasoline inp) bm [] [] []) ;;
  st2 <- plot_bigmac cutoff st1 ;;
  st3 <- plot_gasoline cutoff st2 ;;
  st4 <- plot_median_home cutoff st3 ;;
  st5 <- plot_cpi cutoff st4 ;;
  build_combined cutoff st5.

(** The script as written: every cutoff is [pd.to_datetime('1995-01-01')]. *)
Definition main (inp : Loaded) : result State := run CUTOFF inp.

(* ================================================================= *)
(** ** Vocabulary of the properties *)

(** The first row of [rs] dated [d]. *)
Definition first_with_date (d : Timestamp) (rs : list Row) : option Row :=
  find (fun r => date_eqb (date r) d) rs.

Definition strictly_ascending (rs : list Row) : Prop :=
  StronglySorted (fun a b => date_ltb (date a) (date b) = true) rs.

Definition ascending (rs : list Row) : Prop :=
  StronglySorted (fun a b => date_leb (date a) (date b) = true) rs.

(** "The later-listed segment wins on conflict": wherever a date occurs in
    both segments [h] and [c], the merged row of that date carries the
    cells of [c]'s row. *)
Definition later_listed_wins (h c out : DataFrame) : Prop :=
  forall rh rc ro,
    In rh (rows h) -> In rc (rows c) -> In ro (rows out) ->
    date rh = date rc -> date ro = date rc -> cells ro = cells rc.

(** The cell of row [r] under the column [name] of frame [df]. *)
Definition get_cell (name : string) (df : DataFrame) (r : Row) : option float :=
  option_map (fun i => cell i r) (index_of name (columns df)).

(** A frame with the single float column [col], as a loader builds it. *)
Definition frame_of (col : string) (pts : list (Timestamp * float)) : DataFrame :=
  mkDF [col] (map (fun p => mkRow (fst p) [snd p]) pts).

(** Two Big Mac segments that disagree on the price of 2000-04-01. *)
Definition historical_conflict : DataFrame :=
  frame_of "price" [(mkDate 2000 4 1, 2%float)].

Definition current_conflict : DataFrame :=
  frame_of "price" [(mkDate 2000 4 1, 3%float)].

(** Two overlapping, unsorted Big Mac segments. *)
Definition historical_sample : DataFrame :=
  frame_of "price" [(mkDate 2000 4 1, 2.5%float); (mkDate 1999 4 1, 2.25%float)].

Definition current_sample : DataFrame :=
  frame_of "price" [(mkDate 2001 4 1, 2.5%float); (mkDate 2000 4 1, 3%float)].

Definition merged_sample : DataFrame :=
  frame_of "price" [(mkDate 1999 4 1, 2.25%float); (mkDate 2000 4 1, 2.5%float);
                    (mkDate 2001 4 1, 2.5%float)].

(** The position of column [name] once it has been assigned. *)
Definition pos_after (name : string) (cols : list string) : nat :=
  match index_of name cols with
  | Some j => j
  | None => List.length cols
  end.

(** [d[k] = v] when the series is present, nothing otherwise. *)
Definition set_opt (k : string) (o : option DataFrame) (d : dict) : dict :=
  match o with
  | Some v => dict_set k v d
  | None => d
  end.

(** How one optional input series goes through lines 131-140: [after] is
    the input frame once the affordability column is assigned, [sel] the
    frame stored in [summary]. *)
Definition series_summary (num : float) (src dst : string)
    (before after sel : option DataFrame) : Prop :=
  match before with
  | Some f =>
      exists f' s, add_ratio num src dst f = Ok f'
                   /\ select [src; dst] f' = Ok s
                   /\ after = Some f' /\ sel = Some s
  | None => after = None /\ sel = None
  end.

Definition ok_or {A : Type} (d : A) (m : result A) : A :=
  match m with
  | Ok a => a
  | Raise _ => d
  end.

(** A price the affordability contract calls usable: defined and non-zero. *)
Definition usable_price (p : float) : bool := negb (is_nan p) && negb (is_zero p).

(** Sample inputs: gasoline with a missing price and no point in 1996,
    quarterly-like home prices, and the CPI points of the end-to-end
    scenario. *)
Definition gasoline_sample : DataFrame :=
  frame_of "price" [(mkDate 1995 1 1, 1.25%float); (mkDate 1995 6 1, nan);
                    (mkDate 1997 3 1, 2.5%float)].

Definition msp_sample : DataFrame :=
  frame_of "value" [(mkDate 1995 1 1, 128000%float);
                    (mkDate 1995 4 1, 125000%float);
                    (mkDate 1996 1 1, 160000%float)].

Definition cpi_scenario : DataFrame :=
  frame_of "value" [(mkDate 2020 1 1, 260%float); (mkDate 2020 6 1, 262%float);
                    (mkDate 2021 1 1, 270%float)].

Definition sample_loaded : Loaded :=
  mkLoaded (Some cpi_scenario) (Some msp_sample) (Some gasoline_sample)
           (Some historical_sample) (Some current_sample).

(** The variables right after line 120 on the sample inputs. *)
Definition sample_state : State :=
  mkState (Some cpi_scenario) (Some msp_sample) (Some gasoline_sample)
          merged_sample [] [] [].

(** A Big Mac segment whose first price is zero. *)
Definition zero_price_segment : DataFrame :=
  frame_of "price" [(mkDate 1995 4 1, 0%float); (mkDate 1996 4 1, 2.5%float)].

Definition zero_price_loaded : Loaded :=
  mkLoaded None None None (Some zero_price_segment) None.

(** What the assignment [df[dst] = num / df[src]] does to the frame object
    [df], seen before ([df]) and after ([df']): the rows keep their dates,
    every column other than [dst] reads as before, [dst] holds the ratios,
    and [dst] is a new column when the frame did not have it. *)
Definition column_added (num : float) (src dst : string) (df df' : DataFrame)
  : Prop :=
  map date (rows df') = map date (rows df)
  /\ (forall n, n <> dst -> get_col n df' = get_col n df)
  /\ (exists col, get_col src df = Ok col
                  /\ get_col dst df' = Ok (map (fun p => (num / p)%float) col))
  /\ (index_of dst (columns df) = None ->
      columns df' = columns df ++ [dst]).

(** The rows [resample_YE] produces for the years [ymin .. ymax], the bins
    being cut from the chronologically ordered rows [sorted]. *)
Definition annual_rows (agg : list float -> float) (ncols : nat)
    (sorted : list Row) (ymin ymax : Z) : list Row :=
  map (fun y =>
         mkRow (year_end y)
               (map (fun i => agg (map (cell i) (year_rows y sorted)))
                    (seq 0 ncols)))
      (year_range ymin ymax).

(** [ymin] and [ymax] are the earliest and the latest calendar year that
    occur among [rs]. *)
Definition year_span (rs : list Row) (ymin ymax : Z) : Prop :=
  (exists r, In r rs /\ year (date r) = ymin)
  /\ (exists r, In r rs /\ year (date r) = ymax)
  /\ (forall r, In r rs -> (ymin <= year (date r) <= ymax)%Z).



(** Gasoline-like points with no observation in 1996. *)
Definition gap_frame : DataFrame :=
  frame_of "price" [(mkDate 1995 1 1, 1.25%float); (mkDate 1997 3 1, 2.5%float)].

(** An affordability series ready to be rebased. *)
Definition affordability_sample : DataFrame :=
  frame_of "bigmac_per_10k"
           [(mkDate 1995 4 1, 4000%float); (mkDate 1996 4 1, 5000%float)].

(** Gasoline observed only before the cutoff of 1995-01-01. *)
Definition old_gasoline : DataFrame :=
  frame_of "price" [(mkDate 1990 1 1, 1.25%float)].

Definition old_gasoline_loaded : Loaded :=
  mkLoaded None None (Some old_gasoline)
           (Some historical_sample) (Some current_sample).

(** A Big Mac segment whose first affordability value is zero (the price
    read from the file is [inf]). *)
Definition zero_baseline_segment : DataFrame :=
  frame_of "price" [(mkDate 1995 4 1, infinity); (mkDate 1996 4 1, 2.5%float)].

Definition zero_baseline_loaded : Loaded :=
  mkLoaded None None None (Some zero_baseline_segment) None.

(** "The affected series is dropped from the dashboard while the run
    continues". *)
Definition degrades_series (label : string) (r : result State) : Prop :=
  exists st, r = Ok st /\ dict_get label (combined_data st) = None.

(** The keys under which the script stores series in [summary]. *)
Definition summary_keys : list string :=
  ["bigmac"; "gasoline"; "median_home"; "cpi"].

(** Column [a] comes before column [b] in the list [l]. *)
Definition appears_before (a b : string) (l : list string) : Prop :=
  exists i j, index_of a l = Some i /\ index_of b l = Some j /\ (i < j)%nat.

Definition present {A : Type} (o : option A) : bool :=
  match o with
  | Some _ => true
  | None => false
  end.

(** The labels of the series present, in the order in which the script
    stores them in [combined_data]. *)
Definition present_labels (inp : Loaded) : list string :=
  "Big Mac"
  :: (if present (ld_gasoline inp) then ["Gasoline"] else [])
  ++ (if present (ld_msp inp) then ["Median Home"] else [])
  ++ (if present (ld_cpi inp) then ["Inverted CPI"] else []).

(** Gasoline, CPI and median home supplied, no Big Mac file. *)
Definition three_series_loaded : Loaded :=
  mkLoaded (Some cpi_scenario) (Some msp_sample) (Some gasoline_sample)
           None None.

(** The end-to-end CPI scenario.  The script cannot run without Big Mac
    data, so a flat Big Mac segment accompanies the CPI points. *)
Definition scenario_loaded : Loaded :=
  mkLoaded (Some cpi_scenario) None None
           (Some (frame_of "price" [(mkDate 2020 1 1, 5%float);
                                    (mkDate 2021 1 1, 5%float)]))
           None.

(** The value the script computes for the CPI scenario in 2021: the annual
    mean of the inverted index, rebased. *)
Definition inverted_cpi_2021 : float :=
  (1 / 270 / ((1 / 260 + 1 / 262) / 2) * 100)%float.

(** What the CPI block (lines 199-204) and the CPI entry of the combined
    table hold for the scenario. *)
Definition cpi_scenario_outcome (cutoff : Timestamp) : Prop :=
  exists st ann comb,
    run cutoff scenario_loaded = Ok st
    /\ dict_get "inverted_cpi_percentage_1995.png" (figures st) = Some ann
    /\ map date (rows ann) = [mkDate 2020 12 31; mkDate 2021 12 31]
    /\ get_col "value" ann = Ok [261%float; 270%float]
    /\ get_col "inverted_pct" ann = Ok [100%float; inverted_cpi_2021]
    /\ dict_get "Inverted CPI" (combined_data st) = Some comb
    /\ get_col "value" comb = Ok [261%float; 270%float]
    /\ get_col "pct" comb = Ok [100%float; inverted_cpi_2021].

(** Big Mac prices with two different observations in the baseline year. *)
Definition baseline_year_segment : DataFrame :=
  frame_of "price" [(mkDate 1995 4 1, 2.5%float); (mkDate 1995 10 1, 2%float);
                    (mkDate 1996 4 1, 2.5%float)].

Definition baseline_year_loaded : Loaded :=
  mkLoaded None None None (Some baseline_year_segment) None.

(** The variables after line 140 on the sample inputs, and the frame
    stored under [summary['bigmac']]. *)
Definition sample_summarised : State :=
  ok_or sample_state (build_summary sample_state).

Definition sample_bigmac_summary : DataFrame :=
  mkDF ["price"; "bigmac_per_10k"]
       [mkRow (mkDate 1999 4 1) [2.25%float; (10000 / 2.25)%float];
        mkRow (mkDate 2000 4 1) [2.5%float; 4000%float];
        mkRow (mkDate 2001 4 1) [2.5%float; 4000%float]].

(* ================================================================= *)
(** ** The combined chart (lines 250-264) *)

(** One call of [plt.plot(df['date'], df['pct'], label=label, color=colors[i])]. *)
Record Line : Type := mkLine {
  line_label : string;
  line_color : string;
  line_x : list Timestamp;
  line_y : list float
}.

Definition colors : list string := ["navy"; "blue"; "lightblue"; "red"].

(** The loop over [combined_data.items()], [i] being the loop counter: the
    arguments of [plt.plot] are evaluated from left to right, so a missing
    [pct] column raises [KeyError] before [colors[i]] can raise
    [IndexError]. *)
Fixpoint plot_lines (i : nat) (d : dict) : result (list Line) :=
  match d with
  | [] => Ok []
  | (label, df) :: rest =>
      y <- get_col "pct" df ;;
      color <- match nth_error colors i with
               | Some c => Ok c
               | None => Raise IndexError
               end ;;
      ls <- plot_lines (S i) rest ;;
      Ok (mkLine label color (map date (rows df)) y :: ls)
  end.

(** [if combined_data: ...]: no figure when the dictionary is empty. *)
Definition plot_combined (st : State) : result (option (list Line)) :=
  match combined_data st with
  | [] => Ok None
  | d => ls <- plot_lines 0 d ;; Ok (Some ls)
  end.

(** The whole script from line 120 on. *)
Definition script (inp : Loaded) : result (State * option (list Line)) :=
  st <- main inp ;;
  chart <- plot_combined st ;;
  Ok (st, chart).

(* ================================================================= *)
(** ** More vocabulary *)

Definition has_column (name : string) (df : DataFrame) : Prop :=
  exists i, index_of name (columns df) = Some i.

(** The chart files a run saves, in the order of the script, for the series
    that were loaded. *)
Definition chart_files (inp : Loaded) : list string :=
  "bigmac_cost_percentage_1995.png"
  :: (if present (ld_gasoline inp)
      then ["gas_gallons_cost_percentage_1995.png"] else [])
  ++ (if present (ld_msp inp)
      then ["homes_purchased_with_median_salary_percentage_1995.png"] else [])
  ++ (if present (ld_cpi inp)
      then ["inverted_cpi_percentage_1995.png"] else []).

(** The keys of [summary], likewise. *)
Definition summary_entries (st : State) : list string :=
  "bigmac"
  :: (if present (gasoline st) then ["gasoline"] else [])
  ++ (if present (msp st) then ["median_home"] else [])
  ++ (if present (cpi st) then ["cpi"] else []).

Definition no_common_date (a b : DataFrame) : Prop :=
  forall ra rb, In ra (rows a) -> In rb (rows b) -> date ra <> date rb.

(** Two segments without a common date. *)
Definition early_segment : DataFrame :=
  frame_of "price" [(mkDate 1998 4 1, 2.5%float); (mkDate 1996 4 1, 2.25%float)].

Definition late_segment : DataFrame :=
  frame_of "price" [(mkDate 2002 4 1, 2.5%float); (mkDate 2001 4 1, 3%float)].

(** [gap_frame] with its rows in the opposite order. *)
Definition gap_frame_reversed : DataFrame :=
  frame_of "price" [(mkDate 1997 3 1, 2.5%float); (mkDate 1995 1 1, 1.25%float)].

(** Home prices with a missing last observation in 1995. *)
Definition msp_missing_last : DataFrame :=
  frame_of "value" [(mkDate 1995 1 1, 128000%float); (mkDate 1995 4 1, nan);
                    (mkDate 1996 1 1, nan)].

(** Every frame of the dictionary has a [pct] column. *)
Definition all_have_pct (d : dict) : Prop :=
  Forall (fun kv => has_column "pct" (snd kv)) d.

(** Five series, one more than there are colours. *)
Definition five_series : dict :=
  let f := frame_of "pct" [(mkDate 1995 12 31, 100%float)] in
  [("a", f); ("b", f); ("c", f); ("d", f); ("e", f)].

(** Two rows carry the same observation: the same date, and the same value
    in column [j1] of the first and column [j2] of the second. *)
Definition same_point (j1 j2 : nat) (r1 r2 : Row) : Prop :=
  date r1 = date r2 /\ cell j1 r1 = cell j2 r2.

(** A loaded frame has the column its transform divides by. *)
Definition has_source_columns (st : State) : Prop :=
  has_column "price" (bigmac st)
  /\ (forall g, gasoline st = Some g -> has_column "price" g)
  /\ (forall m, msp st = Some m -> has_column "value" m)
  /\ (forall c, cpi st = Some c -> has_column "value" c).

(** A CPI frame whose value column kept its original name. *)
Definition cpi_unrenamed : DataFrame :=
  frame_of "CPIAUCNS" [(mkDate 2020 1 1, 260%float)].

Definition cpi_unrenamed_loaded : Loaded :=
  mkLoaded (Some cpi_unrenamed) None None (Some historical_sample) None.

(* ================================================================= *)
(** ** Vocabulary for the annual mean *)










(* ================================================================= *)
(** ** Vocabulary for the outcome of a run *)

(** The variables right after line 120, [bm] being the merged frame. *)
Definition after_merge (inp : Loaded) (bm : DataFrame) : State :=
  mkState (ld_cpi inp) (ld_msp inp) (ld_gasoline inp) bm [] [] [].

(** The four blocks of lines 218-248: the key read from [summary], the
    label written to [combined_data], the column that is rebased and the
    annual aggregation. *)
Definition combined_series
  : list (string * string * string * (list float -> float)) :=
  [("bigmac", "Big Mac", "bigmac_per_10k", group_mean);
   ("gasoline", "Gasoline", "gallon_per_10k", group_mean);
   ("median_home", "Median Home", "homes_per_10k", group_last);
   ("cpi", "Inverted CPI", "inverted_pct", group_mean)].

(** The rebase step went through on [ann] and left [out]: every point is
    kept, and when the baseline (the first value of [src]) is zero the
    rebased value at the baseline is NaN. *)
Definition kept_after_rebase (src dst : string) (ann out : DataFrame) : Prop :=
  rebase src dst ann = Ok out
  /\ map date (rows out) = map date (rows ann)
  /\ forall i r0,
       index_of src (columns ann) = Some i ->
       hd_error (rows ann) = Some r0 ->
       is_zero (cell i r0) = true ->
       exists r0' p,
         hd_error (rows out) = Some r0'
         /\ get_cell dst out r0' = Some p
         /\ is_nan p = true.

(** A loaded frame without the column [name]. *)
Definition lacks (name : string) (o : option DataFrame) : bool :=
  match o with
  | Some df => negb (present (index_of name (columns df)))
  | None => false
  end.

(** The first column that lines 127-140 look up and do not find. *)
Definition missing_column (st : State) : option string :=
  if lacks "price" (Some (bigmac st)) then Some "price"
  else if lacks "price" (gasoline st) then Some "price"
  else if lacks "value" (msp st) then Some "value"
  else if lacks "value" (cpi st) then Some "value"
  else None.

(* ================================================================= *)
(** * Properties *)

(* ================================================================= *)
(** ** binary64 facts *)

Lemma is_nan_spec (x : float) : is_nan x = true <-> Prim2SF x = S754_nan.
Proof.
  unfold is_nan. rewrite eqb_spec. unfold SFeqb.
  destruct (Prim2SF x) as [s|s| |s m e]; simpl.
  - split; discriminate.
  - destruct s; split; discriminate.
  - split; reflexivity.
  - destruct s; rewrite Z.compare_refl, Pos.compare_cont_refl; simpl;
      split; discriminate.
Qed.

Lemma float_neq (x y : float) : Prim2SF x <> Prim2SF y -> x <> y.
Proof. intros H E. apply H. now rewrite E. Qed.

Lemma div_eucl_shift53 (m : positive) :
  Z.div_eucl (Z.shiftl (Zpos m) 53) (Zpos m) = (9007199254740992%Z, 0%Z).
Proof.
  rewrite Z.shiftl_mul_pow2 by lia.
  generalize (Z.div_eucl_eq (Z.pos m * 2 ^ 53) (Zpos m) ltac:(lia)).
  generalize (Z.mod_pos_bound (Z.pos m * 2 ^ 53) (Zpos m) ltac:(lia)).
  unfold Z.modulo.
  destruct (Z.div_eucl (Z.pos m * 2 ^ 53) (Z.pos m)) as [q r].
  intros Hr Hq.
  assert (r = 0 /\ q = 2 ^ 53)%Z as [-> ->]; [|reflexivity].
  assert (Z.pos m * (2 ^ 53 - q) = r)%Z by lia.
  assert (2 ^ 53 - q = 0)%Z by nia. split; nia.
Qed.

(** The quotient of a finite non-zero number by itself is computed from
    the mantissa alone and is exactly one. *)
Lemma SFdiv_self (s : bool) (m : positive) (e : Z) :
  SF64div (S754_finite s m e) (S754_finite s m e) = Prim2SF 1%float.
Proof.
  unfold SF64div, SFdiv, SFdiv_core_binary.
  replace (Zdigits2 (Z.pos m) + e - (Zdigits2 (Z.pos m) + e))%Z with 0%Z by lia.
  replace (e - e)%Z with 0%Z by lia.
  change (Z.min (fexp prec emax 0) 0) with (-53)%Z.
  change (0 - -53)%Z with 53%Z. cbv iota beta.
  rewrite div_eucl_shift53.
  replace (xorb s s) with false by (destruct s; reflexivity).
  assert (forall k, new_location k 0 = loc_Exact) as He
    by (intros k; unfold new_location; destruct (Z.even k); reflexivity).
  rewrite He. vm_compute. reflexivity.
Qed.

Lemma div_self (x : float) :
  is_finite x = true -> is_zero x = false -> (x / x)%float = 1%float.
Proof.
  intros Hf Hz. apply Prim2SF_inj. rewrite div_spec.
  unfold is_finite, is_infinity, is_zero, is_nan in *.
  rewrite !eqb_spec, abs_spec in *.
  destruct (Prim2SF x) as [s|s| |s m e].
  - discriminate Hz.
  - destruct s; discriminate Hf.
  - discriminate Hf.
  - apply SFdiv_self.
Qed.

Lemma rebase_at_baseline (x : float) :
  is_finite x = true -> is_zero x = false ->
  (x / x * 100)%float = 100%float.
Proof. intros Hf Hz. rewrite (div_self x Hf Hz). reflexivity. Qed.

Lemma is_zero_spec (x : float) :
  is_zero x = true <-> exists s, Prim2SF x = S754_zero s.
Proof.
  unfold is_zero. rewrite eqb_spec. change (Prim2SF zero) with (S754_zero false).
  destruct (Prim2SF x) as [s|s| |s m e]; unfold SFeqb; simpl.
  - split; eauto.
  - destruct s; split; try discriminate; intros [? ?]; discriminate.
  - split; try discriminate; intros [? ?]; discriminate.
  - destruct s; split; try discriminate; intros [? ?]; discriminate.
Qed.

(** Zero divided by zero is NaN, and it stays NaN once scaled. *)
Lemma rebase_zero_baseline (x : float) :
  is_zero x = true -> is_nan (x / x * 100)%float = true.
Proof.
  intros Hz. apply is_zero_spec in Hz as [s Hs].
  apply is_nan_spec. rewrite mul_spec, div_spec, Hs. reflexivity.
Qed.

(** Rounding never turns a non-negative mantissa into NaN. *)
Lemma shr_1_nonneg (mrs : shr_record) :
  (0 <= shr_m mrs)%Z -> (0 <= shr_m (shr_1 mrs))%Z.
Proof.
  destruct mrs as [m r s]; simpl.
  destruct m as [|[p|p|]|p]; simpl; lia.
Qed.

Lemma iter_shr_1_nonneg (n : positive) (mrs : shr_record) :
  (0 <= shr_m mrs)%Z -> (0 <= shr_m (iter_pos shr_1 n mrs))%Z.
Proof.
  revert mrs; induction n as [n IH|n IH|]; intros mrs H; simpl.
  - apply IH, IH, shr_1_nonneg, H.
  - apply IH, IH, H.
  - apply shr_1_nonneg, H.
Qed.

Lemma shr_fexp_nonneg (m e : Z) (l : location) :
  (0 <= m)%Z -> (0 <= shr_m (fst (shr_fexp prec emax m e l)))%Z.
Proof.
  intros H. unfold shr_fexp, shr.
  assert (0 <= shr_m (shr_record_of_loc m l))%Z as H0
    by (destruct l as [|[]]; simpl; exact H).
  destruct (fexp prec emax (Zdigits2 m + e) - e)%Z; simpl; auto.
  apply iter_shr_1_nonneg, H0.
Qed.

Lemma round_nearest_even_nonneg (m : Z) (l : location) :
  (0 <= m)%Z -> (0 <= round_nearest_even m l)%Z.
Proof.
  intros H. destruct l as [|[]]; simpl; try lia.
  destruct (Z.even m); lia.
Qed.

Lemma binary_round_aux_not_nan (s : bool) (m e : Z) (l : location) :
  (0 <= m)%Z -> binary_round_aux prec emax s m e l <> S754_nan.
Proof.
  intros H. unfold binary_round_aux.
  pose proof (shr_fexp_nonneg m e l H) as H1.
  destruct (shr_fexp prec emax m e l) as [mrs' e']. simpl in H1.
  pose proof (shr_fexp_nonneg _ e' loc_Exact
                (round_nearest_even_nonneg _ (loc_of_shr_record mrs') H1)) as H2.
  destruct (shr_fexp prec emax _ e' loc_Exact) as [mrs'' e'']. simpl in H2.
  destruct (shr_m mrs'') as [|p|p]; try lia; try discriminate.
  destruct (e'' <=? emax - prec)%Z; discriminate.
Qed.

Lemma SFdiv_finite_not_nan s1 m1 e1 s2 m2 e2 :
  SF64div (S754_finite s1 m1 e1) (S754_finite s2 m2 e2) <> S754_nan.
Proof.
  unfold SF64div, SFdiv, SFdiv_core_binary.
  set (e' := Z.min _ _).
  set (m' := match (e1 - e2 - e')%Z with Z0 => _ | Zpos _ => _ | Zneg _ => _ end).
  assert (0 <= m')%Z as Hm'.
  { subst m'. destruct (e1 - e2 - e')%Z; try lia.
    rewrite Z.shiftl_mul_pow2 by lia. apply Z.mul_nonneg_nonneg; try lia. }
  pose proof (Z.div_eucl_eq m' (Zpos m2) ltac:(lia)) as Hq.
  pose proof (Z.mod_pos_bound m' (Zpos m2) ltac:(lia)) as Hr.
  unfold Z.modulo in Hr.
  destruct (Z.div_eucl m' (Z.pos m2)) as [q r].
  apply binary_round_aux_not_nan. nia.
Qed.

(** Dividing a finite non-zero constant by [p] gives NaN exactly when [p]
    is NaN: a zero [p] gives an infinity, an infinite [p] gives zero. *)
Lemma is_nan_div_finite (c p : float) s m e :
  Prim2SF c = S754_finite s m e -> is_nan (c / p)%float = is_nan p.
Proof.
  intros Hc.
  apply eq_true_iff_eq. rewrite !is_nan_spec, div_spec, Hc.
  destruct (Prim2SF p) as [s'|s'| |s' m' e'] eqn:Hp.
  - simpl; split; discriminate.
  - simpl; split; discriminate.
  - simpl; split; reflexivity.
  - split; [intros H; exfalso; revert H; apply SFdiv_finite_not_nan
           | discriminate].
Qed.

Lemma is_nan_div_10000 (p : float) : is_nan (10000 / p)%float = is_nan p.
Proof. eapply is_nan_div_finite. vm_compute. reflexivity. Qed.

Lemma div_10000_zero (p : float) :
  is_zero p = true -> is_infinity (10000 / p)%float = true.
Proof.
  intros Hz. apply is_zero_spec in Hz as [s Hs].
  unfold is_infinity. rewrite eqb_spec, abs_spec, div_spec, Hs.
  destruct s; reflexivity.
Qed.

(* ================================================================= *)
(** ** Timestamps are totally ordered *)

Lemma date_compare_eq (a b : Timestamp) : date_compare a b = Eq <-> a = b.
Proof.
  destruct a as [y1 m1 d1], b as [y2 m2 d2]. unfold date_compare; simpl.
  destruct (Z.compare_spec y1 y2); [|split; [discriminate | intros [=]; lia]..].
  destruct (Z.compare_spec m1 m2); [|split; [discriminate | intros [=]; lia]..].
  destruct (Z.compare_spec d1 d2); [|split; [discriminate | intros [=]; lia]..].
  subst. split; reflexivity.
Qed.

Lemma date_eqb_eq (a b : Timestamp) : date_eqb a b = true <-> a = b.
Proof.
  unfold date_eqb. rewrite <- date_compare_eq.
  destruct (date_compare a b); split; congruence.
Qed.

Lemma date_eqb_refl (a : Timestamp) : date_eqb a a = true.
Proof. now apply date_eqb_eq. Qed.

Lemma date_eqb_neq (a b : Timestamp) : date_eqb a b = false <-> a <> b.
Proof.
  rewrite <- date_eqb_eq. destruct (date_eqb a b); split; congruence.
Qed.

Lemma date_leb_spec (a b : Timestamp) :
  date_leb a b = true <->
  (year a < year b \/
   (year a = year b /\
    (month a < month b \/ (month a = month b /\ day a <= day b))))%Z.
Proof.
  unfold date_leb, date_compare.
  destruct (Z.compare_spec (year a) (year b));
    [|split; [lia | reflexivity] | split; [discriminate | lia]].
  destruct (Z.compare_spec (month a) (month b));
    [|split; [lia | reflexivity] | split; [discriminate | lia]].
  destruct (Z.compare_spec (day a) (day b)); split; try lia; try reflexivity;
    discriminate.
Qed.

Lemma date_ltb_spec (a b : Timestamp) :
  date_ltb a b = true <-> date_leb a b = true /\ a <> b.
Proof.
  unfold date_ltb, date_leb. rewrite <- date_compare_eq.
  destruct (date_compare a b); split; try intros [? ?]; try split;
    congruence.
Qed.

Lemma date_leb_refl (a : Timestamp) : date_leb a a = true.
Proof. apply date_leb_spec. lia. Qed.

Lemma date_leb_trans (a b c : Timestamp) :
  date_leb a b = true -> date_leb b c = true -> date_leb a c = true.
Proof. rewrite !date_leb_spec. lia. Qed.

Lemma date_leb_total (a b : Timestamp) :
  date_leb a b = true \/ date_leb b a = true.
Proof. rewrite !date_leb_spec. lia. Qed.

Lemma date_leb_false (a b : Timestamp) :
  date_leb a b = false -> date_leb b a = true.
Proof.
  intros H. destruct (date_leb_total a b) as [H'|H']; congruence.
Qed.

Lemma date_leb_year (a b : Timestamp) :
  date_leb a b = true -> (year a <= year b)%Z.
Proof. rewrite date_leb_spec. lia. Qed.

(* ================================================================= *)
(** ** Columns *)

Lemma index_of_In (n : string) (cols : list string) :
  In n cols -> exists i, index_of n cols = Some i.
Proof.
  induction cols as [|c cs IH]; simpl; [tauto|].
  intros [->|H].
  - rewrite String.eqb_refl. eauto.
  - destruct (String.eqb n c); eauto.
    destruct (IH H) as [i ->]. simpl. eauto.
Qed.

Lemma index_of_lt (n : string) (cols : list string) (i : nat) :
  index_of n cols = Some i -> (i < List.length cols)%nat.
Proof.
  revert i; induction cols as [|c cs IH]; simpl; intros i; [discriminate|].
  destruct (String.eqb n c).
  - intros [= <-]. lia.
  - destruct (index_of n cs) as [j|]; simpl; [|discriminate].
    intros [= <-]. specialize (IH j eq_refl). lia.
Qed.

Lemma index_of_nth (n : string) (cols : list string) (i : nat) :
  index_of n cols = Some i -> nth i cols "" = n.
Proof.
  revert i; induction cols as [|c cs IH]; simpl; intros i; [discriminate|].
  destruct (String.eqb_spec n c) as [->|Hne].
  - intros [= <-]. reflexivity.
  - destruct (index_of n cs) as [j|]; simpl; [|discriminate].
    intros [= <-]. now apply IH.
Qed.

Lemma index_of_app_fresh (n : string) (cols : list string) :
  index_of n cols = None -> index_of n (cols ++ [n]) = Some (List.length cols).
Proof.
  induction cols as [|c cs IH]; simpl.
  - now rewrite String.eqb_refl.
  - destruct (String.eqb n c); [discriminate|].
    destruct (index_of n cs); simpl; [discriminate|].
    intros _. now rewrite IH.
Qed.

Lemma index_of_app_old (n m : string) (cols : list string) (i : nat) :
  index_of n cols = Some i -> index_of n (cols ++ [m]) = Some i.
Proof.
  revert i; induction cols as [|c cs IH]; simpl; intros i; [discriminate|].
  destruct (String.eqb n c); [trivial|].
  destruct (index_of n cs) as [j|]; simpl; [|discriminate].
  intros [= <-]. now rewrite (IH j).
Qed.

Lemma filter_none {A : Type} (p : A -> bool) (l : list A) :
  (forall x, In x l -> p x = false) -> filter p l = [].
Proof.
  induction l as [|x xs IH]; simpl; intros H; [reflexivity|].
  rewrite (H x) by now left. apply IH. intros y Hy. apply H. now right.
Qed.

Lemma reindex_cells_same (cols : list string) (cs : list float) :
  NoDup cols -> List.length cs = List.length cols ->
  map (fun n => match index_of n cols with
                | Some i => nth i cs nan
                | None => nan
                end) cols = cs.
Proof.
  intros Hnd; revert cs.
  induction Hnd as [|c cols Hnotin Hnd IH]; intros [|x cs] Hlen;
    try discriminate; [reflexivity|].
  simpl. rewrite String.eqb_refl. f_equal.
  etransitivity; [|apply (IH cs); simpl in Hlen; lia].
  apply map_ext_in. intros n Hn.
  destruct (String.eqb_spec n c) as [->|Hne]; [contradiction|].
  destruct (index_of n cols); reflexivity.
Qed.

Lemma reindex_columns_same (cols : list string) (r : Row) :
  NoDup cols -> List.length (cells r) = List.length cols ->
  reindex_columns cols cols r = r.
Proof.
  intros Hnd Hlen. unfold reindex_columns, cell.
  rewrite reindex_cells_same by assumption. now destruct r.
Qed.

(** Concatenating two frames with the same columns appends their rows. *)
Lemma concat_same_columns (a b : DataFrame) :
  wf_frame a -> wf_frame b -> columns a = columns b -> NoDup (columns a) ->
  concat a b = mkDF (columns a) (rows a ++ rows b).
Proof.
  intros Ha Hb Hcols Hnd. unfold concat.
  assert (filter (fun n => match index_of n (columns a) with
                           | Some _ => false | None => true end) (columns b)
          = []) as ->.
  { rewrite <- Hcols. apply filter_none. intros n Hn.
    destruct (index_of_In _ _ Hn) as [i ->]. reflexivity. }
  rewrite app_nil_r. f_equal. f_equal.
  - rewrite <- (map_id (rows a)) at 2. apply map_ext_in. intros r Hr.
    apply reindex_columns_same; [assumption|].
    exact (proj1 (Forall_forall _ _) Ha r Hr).
  - rewrite <- (map_id (rows b)) at 2. apply map_ext_in. intros r Hr.
    rewrite <- Hcols. apply reindex_columns_same; [assumption|].
    rewrite Hcols. exact (proj1 (Forall_forall _ _) Hb r Hr).
Qed.

(* ================================================================= *)
(** ** drop_duplicates keeps the first row of every date *)

Lemma existsb_date_In (d : Timestamp) (seen : list Timestamp) :
  existsb (date_eqb d) seen = true <-> In d seen.
Proof.
  rewrite existsb_exists. split.
  - intros [x [Hin Heq]]. apply date_eqb_eq in Heq. now subst.
  - intros Hin. exists d. split; [assumption | apply date_eqb_refl].
Qed.

Lemma drop_dups_from_In (seen : list Timestamp) (rs : list Row) (r : Row) :
  In r (drop_dups_from seen rs) -> In r rs /\ ~ In (date r) seen.
Proof.
  revert seen; induction rs as [|x rest IH]; intros seen; simpl; [tauto|].
  destruct (existsb (date_eqb (date x)) seen) eqn:E.
  - intros H. destruct (IH _ H). tauto.
  - intros [->|H].
    + split; [tauto|]. rewrite <- existsb_date_In. congruence.
    + destruct (IH _ H) as [H1 H2]. split; [tauto|].
      intros Hs. apply H2. now right.
Qed.

Lemma drop_dups_from_dates (seen : list Timestamp) (rs : list Row)
      (d : Timestamp) :
  In d (map date (drop_dups_from seen rs)) <->
  In d (map date rs) /\ ~ In d seen.
Proof.
  revert seen; induction rs as [|x rest IH]; intros seen; simpl; [tauto|].
  destruct (existsb (date_eqb (date x)) seen) eqn:E.
  - rewrite IH. apply existsb_date_In in E.
    split; [tauto|]. intros [[<-|H] Hn]; tauto.
  - assert (~ In (date x) seen) as Hx
        by (rewrite <- existsb_date_In; congruence).
    simpl. rewrite IH. simpl.
    destruct (date_eqb (date x) d) eqn:Ed.
    + apply date_eqb_eq in Ed. subst d. tauto.
    + apply date_eqb_neq in Ed. tauto.
Qed.

Lemma drop_dups_from_NoDup (seen : list Timestamp) (rs : list Row) :
  NoDup (map date (drop_dups_from seen rs)).
Proof.
  revert seen; induction rs as [|x rest IH]; intros seen; simpl;
    [constructor|].
  destruct (existsb (date_eqb (date x)) seen); [apply IH|].
  simpl. constructor; [|apply IH].
  rewrite drop_dups_from_dates. simpl. tauto.
Qed.

Lemma drop_dups_from_first (seen : list Timestamp) (rs : list Row) (r : Row) :
  In r (drop_dups_from seen rs) -> first_with_date (date r) rs = Some r.
Proof.
  unfold first_with_date.
  revert seen; induction rs as [|x rest IH]; intros seen; simpl; [tauto|].
  destruct (existsb (date_eqb (date x)) seen) eqn:E.
  - intros H. destruct (drop_dups_from_In _ _ _ H) as [_ Hn].
    apply existsb_date_In in E.
    destruct (date_eqb (date x) (date r)) eqn:Ed.
    + apply date_eqb_eq in Ed. congruence.
    + eapply IH; eassumption.
  - intros [->|H].
    + now rewrite date_eqb_refl.
    + destruct (drop_dups_from_In _ _ _ H) as [_ Hn].
      destruct (date_eqb (date x) (date r)) eqn:Ed.
      * apply date_eqb_eq in Ed. exfalso. apply Hn. now left.
      * eapply IH; eassumption.
Qed.

(* ================================================================= *)
(** ** sort_rows is a stable insertion sort *)

Lemma insert_row_perm (r : Row) (l : list Row) :
  Permutation (insert_row r l) (r :: l).
Proof.
  induction l as [|x xs IH]; simpl; [reflexivity|].
  destruct (date_leb (date r) (date x)); [reflexivity|].
  rewrite IH. apply perm_swap.
Qed.

Lemma sort_rows_perm (l : list Row) : Permutation (sort_rows l) l.
Proof.
  induction l as [|x xs IH]; simpl; [reflexivity|].
  rewrite insert_row_perm. now constructor.
Qed.

Lemma sort_rows_In (l : list Row) (r : Row) : In r (sort_rows l) <-> In r l.
Proof.
  split; apply Permutation_in;
    [apply sort_rows_perm | symmetry; apply sort_rows_perm].
Qed.

Lemma insert_row_ascending (r : Row) (l : list Row) :
  ascending l -> ascending (insert_row r l).
Proof.
  unfold ascending.
  induction l as [|x xs IH]; simpl; intros Hs.
  - repeat constructor.
  - inversion Hs as [|? ? Hxs Hx]; subst.
    destruct (date_leb (date r) (date x)) eqn:E.
    + constructor; [assumption|]. constructor; [assumption|].
      eapply Forall_impl; [|exact Hx]. intros a Ha. simpl in Ha.
      eapply date_leb_trans; eassumption.
    + constructor; [now apply IH|].
      apply date_leb_false in E.
      rewrite Forall_forall in *. intros a Ha.
      apply (Permutation_in _ (insert_row_perm r xs)) in Ha.
      destruct Ha as [<-|Ha]; [assumption | now apply Hx].
Qed.

Lemma sort_rows_ascending (l : list Row) : ascending (sort_rows l).
Proof.
  induction l as [|x xs IH]; simpl.
  - constructor.
  - now apply insert_row_ascending.
Qed.

Lemma ascending_NoDup_strict (l : list Row) :
  ascending l -> NoDup (map date l) -> strictly_ascending l.
Proof.
  unfold ascending, strictly_ascending.
  induction 1 as [|x xs Hxs IH Hx]; simpl; intros Hnd; [constructor|].
  inversion Hnd as [|? ? Hnotin Hnd']; subst.
  constructor; [now apply IH|].
  rewrite Forall_forall in *. intros a Ha.
  apply date_ltb_spec. split; [now apply Hx|].
  intros E. apply Hnotin. rewrite E. now apply in_map.
Qed.

(* ================================================================= *)
(** ** Column assignment and selection *)

Lemma combine_map_r {A B : Type} (g : A -> B) (l : list A) :
  combine l (map g l) = map (fun x => (x, g x)) l.
Proof. induction l as [|x xs IH]; simpl; congruence. Qed.

Lemma nth_replace_nth_eq {A : Type} (j : nat) (x d : A) (l : list A) :
  (j < List.length l)%nat -> nth j (replace_nth j x l) d = x.
Proof.
  revert j; induction l as [|h t IH]; intros [|j] H; simpl in *;
    try lia; [reflexivity|]. apply IH. lia.
Qed.

Lemma nth_replace_nth_neq {A : Type} (i j : nat) (x d : A) (l : list A) :
  i <> j -> nth i (replace_nth j x l) d = nth i l d.
Proof.
  revert i j; induction l as [|h t IH]; intros [|i] [|j] H; simpl;
    try reflexivity; try lia. apply IH. lia.
Qed.

Lemma length_replace_nth {A : Type} (j : nat) (x : A) (l : list A) :
  List.length (replace_nth j x l) = List.length l.
Proof.
  revert j; induction l as [|h t IH]; intros [|j]; simpl; auto.
Qed.

Lemma index_of_app_other (n m : string) (cols : list string) :
  n <> m -> index_of n (cols ++ [m]) = index_of n cols.
Proof.
  intros Hne. induction cols as [|c cs IH]; simpl.
  - destruct (String.eqb_spec n m); [contradiction | reflexivity].
  - destruct (String.eqb n c); [reflexivity | now rewrite IH].
Qed.

Lemma set_col_map (name : string) (g : Row -> float) (df : DataFrame) :
  rows (set_col name (map g (rows df)) df) =
  map (fun r => mkRow (date r)
                      (put_cell (index_of name (columns df)) (g r) (cells r)))
      (rows df).
Proof.
  unfold set_col. simpl. rewrite combine_map_r, map_map. reflexivity.
Qed.

Lemma set_col_index (name : string) (vals : list float) (df : DataFrame) :
  index_of name (columns (set_col name vals df))
  = Some (pos_after name (columns df)).
Proof.
  unfold set_col, pos_after. simpl.
  destruct (index_of name (columns df)) as [j|] eqn:E; [exact E|].
  now apply index_of_app_fresh.
Qed.

Lemma set_col_index_other (n name : string) (vals : list float)
      (df : DataFrame) :
  n <> name ->
  index_of n (columns (set_col name vals df)) = index_of n (columns df).
Proof.
  intros Hne. unfold set_col. simpl.
  destruct (index_of name (columns df)); [reflexivity|].
  now apply index_of_app_other.
Qed.

Lemma put_cell_same (name : string) (cols : list string) (v : float)
      (cs : list float) :
  List.length cs = List.length cols ->
  nth (pos_after name cols) (put_cell (index_of name cols) v cs) nan = v.
Proof.
  intros Hlen. unfold pos_after, put_cell.
  destruct (index_of name cols) as [j|] eqn:E.
  - apply nth_replace_nth_eq. rewrite Hlen. eapply index_of_lt; eassumption.
  - rewrite <- Hlen, app_nth2, Nat.sub_diag by lia. reflexivity.
Qed.

Lemma put_cell_other (name : string) (cols : list string) (v : float)
      (cs : list float) (i : nat) :
  List.length cs = List.length cols ->
  i <> pos_after name cols ->
  nth i (put_cell (index_of name cols) v cs) nan = nth i cs nan.
Proof.
  intros Hlen Hi. unfold pos_after, put_cell in *.
  destruct (index_of name cols) as [j|] eqn:E.
  - now apply nth_replace_nth_neq.
  - rewrite <- Hlen in Hi.
    destruct (Nat.lt_ge_cases i (List.length cs)) as [Hlt|Hge].
    + now apply app_nth1.
    + rewrite !nth_overflow; [reflexivity| lia |].
      rewrite length_app. simpl. lia.
Qed.

Lemma put_cell_length (name : string) (cols : list string) (v : float)
      (cs : list float) :
  List.length cs = List.length cols ->
  List.length (put_cell (index_of name cols) v cs)
  = List.length (match index_of name cols with
                 | Some _ => cols
                 | None => cols ++ [name]
                 end).
Proof.
  intros Hlen. unfold put_cell.
  destruct (index_of name cols).
  - now rewrite length_replace_nth.
  - rewrite !length_app. simpl. lia.
Qed.

Lemma set_col_wf (name : string) (g : Row -> float) (df : DataFrame) :
  wf_frame df -> wf_frame (set_col name (map g (rows df)) df).
Proof.
  intros Hwf. unfold wf_frame. rewrite set_col_map.
  apply Forall_map. eapply Forall_impl; [|exact Hwf].
  intros r Hr. simpl. now apply put_cell_length.
Qed.

Lemma index_of_other_pos (n name : string) (cols : list string) (i : nat) :
  n <> name -> index_of n cols = Some i -> i <> pos_after name cols.
Proof.
  intros Hne Hi. unfold pos_after.
  destruct (index_of name cols) as [j|] eqn:E.
  - intros ->. apply Hne.
    rewrite <- (index_of_nth _ _ _ Hi), <- (index_of_nth _ _ _ E).
    reflexivity.
  - apply index_of_lt in Hi. lia.
Qed.

(** Reading back the assigned column and the others, row by row. *)
Lemma set_col_get_same (name : string) (g : Row -> float) (df : DataFrame) :
  wf_frame df ->
  get_col name (set_col name (map g (rows df)) df) = Ok (map g (rows df)).
Proof.
  intros Hwf. unfold get_col. rewrite set_col_index, set_col_map, map_map.
  f_equal. apply map_ext_in. intros r Hr. unfold cell. simpl.
  apply put_cell_same. exact (proj1 (Forall_forall _ _) Hwf r Hr).
Qed.

Lemma set_col_get_other (n name : string) (g : Row -> float)
      (df : DataFrame) :
  wf_frame df -> n <> name ->
  get_col n (set_col name (map g (rows df)) df) = get_col n df.
Proof.
  intros Hwf Hne. unfold get_col.
  rewrite set_col_index_other by assumption.
  destruct (index_of n (columns df)) as [i|] eqn:E; [|reflexivity].
  rewrite set_col_map, map_map. f_equal. apply map_ext_in. intros r Hr.
  unfold cell. simpl. apply put_cell_other.
  - exact (proj1 (Forall_forall _ _) Hwf r Hr).
  - eapply index_of_other_pos; eassumption.
Qed.

Lemma set_col_dates (name : string) (g : Row -> float) (df : DataFrame) :
  map date (rows (set_col name (map g (rows df)) df)) = map date (rows df).
Proof. rewrite set_col_map, map_map. reflexivity. Qed.

(** [df[dst] = num / df[src]], then [df[[src, dst]]]. *)
Lemma add_ratio_eq (num : float) (src dst : string) (df : DataFrame) (i : nat) :
  index_of src (columns df) = Some i ->
  add_ratio num src dst df
  = Ok (set_col dst (map (fun r => (num / cell i r)%float) (rows df)) df).
Proof.
  intros Hi. unfold add_ratio, get_col. rewrite Hi. simpl.
  now rewrite map_map.
Qed.

Lemma select_pair_after_set (src dst : string) (g : Row -> float)
      (df : DataFrame) (i : nat) :
  wf_frame df -> index_of src (columns df) = Some i -> src <> dst ->
  select [src; dst] (set_col dst (map g (rows df)) df)
  = Ok (mkDF [src; dst]
             (map (fun r => mkRow (date r) [cell i r; g r]) (rows df))).
Proof.
  intros Hwf Hi Hne. unfold select. cbn [indices_of].
  rewrite set_col_index_other, Hi, set_col_index by assumption.
  cbn [bind]. rewrite set_col_map, map_map. do 2 f_equal.
  apply map_ext_in. intros r Hr. simpl. unfold cell. simpl.
  pose proof (proj1 (Forall_forall _ _) Hwf r Hr) as Hlen.
  rewrite put_cell_same by assumption.
  rewrite put_cell_other; [reflexivity | assumption |].
  eapply index_of_other_pos; eassumption.
Qed.

(* ================================================================= *)
(** ** Dictionaries *)

Lemma dict_get_set_eq (k : string) (v : DataFrame) (d : dict) :
  dict_get k (dict_set k v d) = Some v.
Proof.
  induction d as [|[k' v'] rest IH]; simpl.
  - now rewrite String.eqb_refl.
  - destruct (String.eqb k k') eqn:E; simpl.
    + now rewrite String.eqb_refl.
    + now rewrite E.
Qed.

Lemma dict_get_set_neq (k k' : string) (v : DataFrame) (d : dict) :
  k <> k' -> dict_get k (dict_set k' v d) = dict_get k d.
Proof.
  intros Hne. induction d as [|[k0 v0] rest IH]; simpl.
  - destruct (String.eqb_spec k k'); [contradiction | reflexivity].
  - destruct (String.eqb_spec k' k0) as [->|Hne0]; simpl.
    + destruct (String.eqb_spec k k0); [contradiction | reflexivity].
    + destruct (String.eqb k k0); [reflexivity | exact IH].
Qed.

(* ================================================================= *)
(** ** The Big Mac merge (line 120) *)

Lemma first_with_date_app_l (d : Timestamp) (l1 l2 : list Row) :
  In d (map date l1) ->
  first_with_date d (l1 ++ l2) = first_with_date d l1.
Proof.
  unfold first_with_date.
  induction l1 as [|x xs IH]; simpl; [tauto|].
  destruct (date_eqb (date x) d) eqn:E; [reflexivity|].
  intros [H|H]; [|now apply IH].
  apply date_eqb_neq in E. contradiction.
Qed.

Ltac float_discr H :=
  apply (f_equal Prim2SF) in H; vm_compute in H; discriminate H.

Ltac cells_discr H :=
  apply (f_equal (fun l => Prim2SF (nth 0 l nan))) in H;
  vm_compute in H; discriminate H.

(** C1, as stated, fails: both segments hold 2000-04-01, the historical one
    at 2.0 and the current one at 3.0; the merged frame carries 2.0, the
    value of the segment listed first. *)
Lemma bigmac_merge_later_listed_loses :
  exists out,
    bigmac_merge (Some historical_conflict) (Some current_conflict) = Ok out
    /\ ~ later_listed_wins historical_conflict current_conflict out.
Proof.
  eexists. split; [vm_compute; reflexivity|].
  intros H.
  specialize (H (mkRow (mkDate 2000 4 1) [2%float])
                (mkRow (mkDate 2000 4 1) [3%float])
                (mkRow (mkDate 2000 4 1) [2%float])).
  simpl in H.
  assert ([2%float] = [3%float]) as E by (apply H; auto).
  cells_discr E.
Qed.

(** C1, amended: the merge of two segments is sorted strictly ascending by
    date, holds exactly the dates of the two segments, and the row it keeps
    for a date is the first row of that date in the concatenation: on a
    conflict the segment listed first (the historical one) wins. *)
Theorem bigmac_merge_first_listed_wins (h c out : DataFrame) :
  wf_frame h -> wf_frame c -> columns h = columns c -> NoDup (columns h) ->
  bigmac_merge (Some h) (Some c) = Ok out ->
  strictly_ascending (rows out) /\
  (forall d, In d (map date (rows out)) <-> In d (map date (rows h ++ rows c))) /\
  (forall r, In r (rows out) ->
             first_with_date (date r) (rows h ++ rows c) = Some r) /\
  (forall r, In r (rows out) -> In (date r) (map date (rows h)) ->
             first_with_date (date r) (rows h) = Some r).
Proof.
  intros Hh Hc Hcols Hnd Hm.
  unfold bigmac_merge, pd_concat in Hm.
  rewrite (concat_same_columns h c Hh Hc Hcols Hnd) in Hm.
  injection Hm as <-. simpl.
  set (all := rows h ++ rows c).
  assert (forall r, In r (sort_rows (drop_dups_from [] all)) ->
                    first_with_date (date r) all = Some r) as Hfirst.
  { intros r Hr. apply (proj1 (sort_rows_In _ r)) in Hr.
    exact (drop_dups_from_first [] all r Hr). }
  split; [|split; [|split]].
  - apply ascending_NoDup_strict; [apply sort_rows_ascending|].
    eapply Permutation_NoDup;
      [apply Permutation_map; symmetry; apply sort_rows_perm|].
    apply drop_dups_from_NoDup.
  - intros d.
    assert (In d (map date (sort_rows (drop_dups_from [] all))) <->
            In d (map date (drop_dups_from [] all))) as ->
      by (split; apply Permutation_in, Permutation_map;
          [apply sort_rows_perm | symmetry; apply sort_rows_perm]).
    rewrite drop_dups_from_dates. simpl. tauto.
  - exact Hfirst.
  - intros r Hr Hd. rewrite <- (Hfirst r Hr).
    symmetry. now apply first_with_date_app_l.
Qed.

Lemma bigmac_merge_first_listed_wins_witness :
  strictly_ascending (rows merged_sample) /\
  (forall d, In d (map date (rows merged_sample)) <->
             In d (map date (rows historical_sample ++ rows current_sample))) /\
  (forall r, In r (rows merged_sample) ->
             first_with_date (date r)
               (rows historical_sample ++ rows current_sample) = Some r) /\
  (forall r, In r (rows merged_sample) ->
             In (date r) (map date (rows historical_sample)) ->
             first_with_date (date r) (rows historical_sample) = Some r).
Proof.
  apply (bigmac_merge_first_listed_wins historical_sample current_sample
           merged_sample).
  - repeat constructor.
  - repeat constructor.
  - reflexivity.
  - repeat constructor. simpl. tauto.
  - vm_compute. reflexivity.
Defined.

(* ================================================================= *)
(** ** Building [summary] (lines 127-140) *)

Ltac inv_bind H :=
  match type of H with
  | bind ?m _ = Ok _ =>
      let E := fresh "E" in
      destruct m eqn:E; cbn [bind] in H; [|discriminate H]
  end.

Lemma build_summary_ok (st st' : State) :
  build_summary st = Ok st' ->
  exists bm bsel gsel msel csel,
    add_ratio 10000%float "price" "bigmac_per_10k" (bigmac st) = Ok bm
    /\ select ["price"; "bigmac_per_10k"] bm = Ok bsel
    /\ bigmac st' = bm
    /\ series_summary 10000%float "price" "gallon_per_10k"
                      (gasoline st) (gasoline st') gsel
    /\ series_summary 10000%float "value" "homes_per_10k"
                      (msp st) (msp st') msel
    /\ series_summary 1%float "value" "inverted_pct"
                      (cpi st) (cpi st') csel
    /\ summary st'
       = set_opt "cpi" csel
           (set_opt "median_home" msel
              (set_opt "gasoline" gsel
                 (dict_set "bigmac" (dropna bsel) (summary st))))
    /\ figures st' = figures st
    /\ combined_data st' = combined_data st.
Proof.
  unfold build_summary. intros H.
  inv_bind H. rename a into bm. inv_bind H. rename a into bsel.
  inv_bind H. destruct a as [og gsum].
  inv_bind H. destruct a as [om msum].
  inv_bind H. destruct a as [oc csum].
  injection H as <-. cbn [fst snd] in *.
  assert (exists gsel, series_summary 10000%float "price" "gallon_per_10k"
                         (gasoline st) og gsel
                       /\ gsum = set_opt "gasoline" gsel
                                   (dict_set "bigmac" (dropna bsel) (summary st)))
    as [gsel [Hg ->]].
  { destruct (gasoline st) as [g|]; cbn [series_summary].
    - inv_bind E1. inv_bind E1. injection E1 as <- <-.
      eexists (Some _). split; [eauto 6 | reflexivity].
    - injection E1 as <- <-. exists None. split; [split|]; reflexivity. }
  assert (exists msel, series_summary 10000%float "value" "homes_per_10k"
                         (msp st) om msel
                       /\ msum = set_opt "median_home" msel
                                   (set_opt "gasoline" gsel
                                      (dict_set "bigmac" (dropna bsel)
                                                (summary st))))
    as [msel [Hm ->]].
  { destruct (msp st) as [m|]; cbn [series_summary].
    - inv_bind E2. inv_bind E2. injection E2 as <- <-.
      eexists (Some _). split; [eauto 6 | reflexivity].
    - injection E2 as <- <-. exists None. split; [split|]; reflexivity. }
  assert (exists csel, series_summary 1%float "value" "inverted_pct"
                         (cpi st) oc csel
                       /\ csum = set_opt "cpi" csel
                                   (set_opt "median_home" msel
                                      (set_opt "gasoline" gsel
                                         (dict_set "bigmac" (dropna bsel)
                                                   (summary st)))))
    as [csel [Hc ->]].
  { destruct (cpi st) as [c|]; cbn [series_summary].
    - inv_bind E3. inv_bind E3. injection E3 as <- <-.
      eexists (Some _). split; [eauto 6 | reflexivity].
    - injection E3 as <- <-. exists None. split; [split|]; reflexivity. }
  exists bm, bsel, gsel, msel, csel. cbn. repeat split; assumption.
Qed.

Lemma dict_get_set_opt_neq (k k' : string) (o : option DataFrame) (d : dict) :
  k <> k' -> dict_get k (set_opt k' o d) = dict_get k d.
Proof.
  intros Hne. destruct o; simpl; [now apply dict_get_set_neq | reflexivity].
Qed.

Lemma filter_map_comm {A B : Type} (f : A -> B) (p : B -> bool) (l : list A) :
  filter p (map f l) = map f (filter (fun x => p (f x)) l).
Proof.
  induction l as [|x xs IH]; simpl; [reflexivity|].
  destruct (p (f x)); simpl; congruence.
Qed.

Lemma series_summary_rows (num : float) (src dst : string)
      (f : DataFrame) (after sel : option DataFrame) (i : nat) :
  series_summary num src dst (Some f) after sel ->
  wf_frame f -> index_of src (columns f) = Some i -> src <> dst ->
  sel = Some (mkDF [src; dst]
                   (map (fun r => mkRow (date r)
                                        [cell i r; (num / cell i r)%float])
                        (rows f))).
Proof.
  intros (f' & s & Hadd & Hsel & _ & ->) Hwf Hi Hne.
  rewrite (add_ratio_eq _ _ _ _ _ Hi) in Hadd. injection Hadd as <-.
  rewrite (select_pair_after_set _ _ _ _ _ Hwf Hi Hne) in Hsel.
  congruence.
Qed.

Ltac string_neq := let H := fresh in intros H; discriminate H.

(** C2, as stated, fails: a Big Mac segment with prices 0.0 and 2.5 has one
    usable price, yet both points survive the transform; the zero price
    comes out as +infinity. *)
Lemma zero_price_not_dropped :
  exists st df,
    main zero_price_loaded = Ok st
    /\ dict_get "bigmac" (summary st) = Some df
    /\ List.length (rows df) = 2%nat
    /\ List.length (filter (fun r => usable_price (cell 0 r))
                           (rows zero_price_segment)) = 1%nat
    /\ get_col "bigmac_per_10k" df = Ok [infinity; 4000%float].
Proof.
  do 2 eexists. repeat split; vm_compute; reflexivity.
Qed.

(** C2, amended: for the Big Mac series the transform keeps exactly the
    points whose price is not missing (a zero price is kept), and every
    kept point carries [10000 / price]; for gasoline, median home and CPI
    every point is kept and carries [10000 / price], [10000 / value] and
    [1 / value]. *)
Theorem affordability_points (st st' : State) :
  build_summary st = Ok st' ->
  (forall i, wf_frame (bigmac st) ->
             index_of "price" (columns (bigmac st)) = Some i ->
     dict_get "bigmac" (summary st')
     = Some (mkDF ["price"; "bigmac_per_10k"]
                  (map (fun r => mkRow (date r)
                                       [cell i r; (10000 / cell i r)%float])
                       (filter (fun r => negb (is_nan (cell i r)))
                               (rows (bigmac st)))))) /\
  (forall g i, gasoline st = Some g -> wf_frame g ->
               index_of "price" (columns g) = Some i ->
     dict_get "gasoline" (summary st')
     = Some (mkDF ["price"; "gallon_per_10k"]
                  (map (fun r => mkRow (date r)
                                       [cell i r; (10000 / cell i r)%float])
                       (rows g)))) /\
  (forall m i, msp st = Some m -> wf_frame m ->
               index_of "value" (columns m) = Some i ->
     dict_get "median_home" (summary st')
     = Some (mkDF ["value"; "homes_per_10k"]
                  (map (fun r => mkRow (date r)
                                       [cell i r; (10000 / cell i r)%float])
                       (rows m)))) /\
  (forall c i, cpi st = Some c -> wf_frame c ->
               index_of "value" (columns c) = Some i ->
     dict_get "cpi" (summary st')
     = Some (mkDF ["value"; "inverted_pct"]
                  (map (fun r => mkRow (date r)
                                       [cell i r; (1 / cell i r)%float])
                       (rows c)))).
Proof.
  intros H.
  destruct (build_summary_ok _ _ H)
    as (bm & bsel & gsel & msel & csel & Hbm & Hbsel & _ & Hg & Hm & Hc
        & Hsum & _ & _).
  rewrite Hsum. repeat split.
  - intros i Hwf Hi.
    rewrite !dict_get_set_opt_neq by string_neq.
    rewrite dict_get_set_eq. f_equal.
    rewrite (add_ratio_eq _ _ _ _ _ Hi) in Hbm. injection Hbm as <-.
    rewrite (select_pair_after_set _ _ _ _ _ Hwf Hi) in Hbsel by string_neq.
    injection Hbsel as <-. unfold dropna. cbn [columns rows]. f_equal.
    rewrite filter_map_comm. f_equal. apply filter_ext. intros r.
    unfold has_na. cbn [cells existsb].
    rewrite is_nan_div_10000, orb_false_r, orb_diag. reflexivity.
  - intros g i Hg' Hwf Hi. rewrite Hg' in Hg.
    rewrite !dict_get_set_opt_neq by string_neq.
    rewrite (series_summary_rows _ _ _ _ _ _ i Hg Hwf Hi) by string_neq.
    apply dict_get_set_eq.
  - intros m i Hm' Hwf Hi. rewrite Hm' in Hm.
    rewrite !dict_get_set_opt_neq by string_neq.
    rewrite (series_summary_rows _ _ _ _ _ _ i Hm Hwf Hi) by string_neq.
    apply dict_get_set_eq.
  - intros c i Hc' Hwf Hi. rewrite Hc' in Hc.
    rewrite (series_summary_rows _ _ _ _ _ _ i Hc Hwf Hi) by string_neq.
    apply dict_get_set_eq.
Qed.

Lemma affordability_points_witness :
  let st := sample_state in
  let st' := ok_or sample_state (build_summary sample_state) in
  (forall i, wf_frame (bigmac st) ->
             index_of "price" (columns (bigmac st)) = Some i ->
     dict_get "bigmac" (summary st')
     = Some (mkDF ["price"; "bigmac_per_10k"]
                  (map (fun r => mkRow (date r)
                                       [cell i r; (10000 / cell i r)%float])
                       (filter (fun r => negb (is_nan (cell i r)))
                               (rows (bigmac st)))))) /\
  (forall g i, gasoline st = Some g -> wf_frame g ->
               index_of "price" (columns g) = Some i ->
     dict_get "gasoline" (summary st')
     = Some (mkDF ["price"; "gallon_per_10k"]
                  (map (fun r => mkRow (date r)
                                       [cell i r; (10000 / cell i r)%float])
                       (rows g)))) /\
  (forall m i, msp st = Some m -> wf_frame m ->
               index_of "value" (columns m) = Some i ->
     dict_get "median_home" (summary st')
     = Some (mkDF ["value"; "homes_per_10k"]
                  (map (fun r => mkRow (date r)
                                       [cell i r; (10000 / cell i r)%float])
                       (rows m)))) /\
  (forall c i, cpi st = Some c -> wf_frame c ->
               index_of "value" (columns c) = Some i ->
     dict_get "cpi" (summary st')
     = Some (mkDF ["value"; "inverted_pct"]
                  (map (fun r => mkRow (date r)
                                       [cell i r; (1 / cell i r)%float])
                       (rows c)))).
Proof.
  apply (affordability_points sample_state
           (ok_or sample_state (build_summary sample_state))).
  vm_compute. reflexivity.
Defined.

(* ================================================================= *)
(** ** The transform assigns into its input frame *)

Lemma add_ratio_column_added (num : float) (src dst : string)
      (df df' : DataFrame) :
  add_ratio num src dst df = Ok df' -> wf_frame df ->
  column_added num src dst df df'.
Proof.
  intros H Hwf. unfold add_ratio in H. inv_bind H. injection H as <-.
  unfold get_col in E.
  destruct (index_of src (columns df)) as [i|] eqn:Hi; [|discriminate E].
  injection E as <-. rewrite map_map.
  unfold column_added. split; [|split; [|split]].
  - apply set_col_dates.
  - intros n Hn. now apply set_col_get_other.
  - exists (map (cell i) (rows df)). split.
    + unfold get_col. now rewrite Hi.
    + rewrite map_map. now apply set_col_get_same.
  - intros Hfresh. unfold set_col. cbn [columns]. now rewrite Hfresh.
Qed.

Lemma series_summary_column_added (num : float) (src dst : string)
      (f : DataFrame) (after sel : option DataFrame) :
  series_summary num src dst (Some f) after sel -> wf_frame f ->
  exists f', after = Some f' /\ column_added num src dst f f'.
Proof.
  intros (f' & s & Hadd & _ & -> & _) Hwf.
  exists f'. split; [reflexivity|]. now apply add_ratio_column_added.
Qed.

(** C9, as stated, fails: after lines 129 and 132 the frames [bigmac] and
    [gasoline] are not what they were, each has one more field. *)
Lemma affordability_changes_its_input :
  exists st',
    build_summary sample_state = Ok st'
    /\ columns (bigmac sample_state) = ["price"]
    /\ columns (bigmac st') = ["price"; "bigmac_per_10k"]
    /\ bigmac st' <> bigmac sample_state
    /\ gasoline st' <> gasoline sample_state.
Proof.
  eexists. split; [vm_compute; reflexivity|].
  repeat split; try reflexivity.
  - intros H. apply (f_equal columns) in H. discriminate H.
  - intros H. apply (f_equal (option_map columns)) in H. discriminate H.
Qed.

(** C9, amended: the transform assigns the derived column into its input
    frame, in place; the points (the rows and their dates) and every field
    the frame had before are unchanged, and one field is added. *)
Theorem affordability_assigns_in_place (st st' : State) :
  build_summary st = Ok st' ->
  (wf_frame (bigmac st) ->
   column_added 10000%float "price" "bigmac_per_10k" (bigmac st) (bigmac st'))
  /\ (forall g, gasoline st = Some g -> wf_frame g ->
        exists g', gasoline st' = Some g'
                   /\ column_added 10000%float "price" "gallon_per_10k" g g')
  /\ (forall m, msp st = Some m -> wf_frame m ->
        exists m', msp st' = Some m'
                   /\ column_added 10000%float "value" "homes_per_10k" m m')
  /\ (forall c, cpi st = Some c -> wf_frame c ->
        exists c', cpi st' = Some c'
                   /\ column_added 1%float "value" "inverted_pct" c c').
Proof.
  intros H.
  destruct (build_summary_ok _ _ H)
    as (bm & bsel & gsel & msel & csel & Hbm & _ & Hbm' & Hg & Hm & Hc & _).
  split; [|split; [|split]].
  - intros Hwf. rewrite Hbm'. now apply add_ratio_column_added.
  - intros g Hg' Hwf. rewrite Hg' in Hg.
    eapply series_summary_column_added; eassumption.
  - intros m Hm' Hwf. rewrite Hm' in Hm.
    eapply series_summary_column_added; eassumption.
  - intros c Hc' Hwf. rewrite Hc' in Hc.
    eapply series_summary_column_added; eassumption.
Qed.

Lemma affordability_assigns_in_place_witness :
  let st := sample_state in
  let st' := ok_or sample_state (build_summary sample_state) in
  (wf_frame (bigmac st) ->
   column_added 10000%float "price" "bigmac_per_10k" (bigmac st) (bigmac st'))
  /\ (forall g, gasoline st = Some g -> wf_frame g ->
        exists g', gasoline st' = Some g'
                   /\ column_added 10000%float "price" "gallon_per_10k" g g')
  /\ (forall m, msp st = Some m -> wf_frame m ->
        exists m', msp st' = Some m'
                   /\ column_added 10000%float "value" "homes_per_10k" m m')
  /\ (forall c, cpi st = Some c -> wf_frame c ->
        exists c', cpi st' = Some c'
                   /\ column_added 1%float "value" "inverted_pct" c c').
Proof.
  apply (affordability_assigns_in_place sample_state
           (ok_or sample_state (build_summary sample_state))).
  vm_compute. reflexivity.
Defined.

(* ================================================================= *)
(** ** Annual resampling *)

Lemma sort_rows_nil (l : list Row) : sort_rows l = [] -> l = [].
Proof.
  intros H. apply Permutation_nil. rewrite <- H.
  apply sort_rows_perm.
Qed.

Lemma ascending_hd_min (r0 : Row) (t : list Row) :
  ascending (r0 :: t) ->
  forall r, In r (r0 :: t) -> date_leb (date r0) (date r) = true.
Proof.
  intros Hs r [<-|Hr]; [apply date_leb_refl|].
  inversion Hs as [|? ? _ Hall]; subst.
  exact (proj1 (Forall_forall _ _) Hall r Hr).
Qed.

Lemma last_In {A : Type} (l : list A) (d : A) : l <> [] -> In (last l d) l.
Proof.
  induction l as [|x xs IH]; [congruence|]. intros _.
  destruct xs as [|y ys]; [now left|].
  right. apply IH. discriminate.
Qed.

Lemma ascending_last_max (l : list Row) (d : Row) :
  ascending l -> forall r, In r l -> date_leb (date r) (date (last l d)) = true.
Proof.
  induction 1 as [|x xs Hxs IH Hall]; intros r Hr; [destruct Hr|].
  destruct xs as [|y ys].
  - destruct Hr as [<-|[]]. apply date_leb_refl.
  - change (last (x :: y :: ys) d) with (last (y :: ys) d).
    destruct Hr as [<-|Hr]; [|now apply IH].
    apply (proj1 (Forall_forall _ _) Hall). apply last_In. discriminate.
Qed.

Lemma year_range_In (y0 y1 y : Z) :
  In y (year_range y0 y1) <-> (y0 <= y <= y1)%Z.
Proof.
  unfold year_range. rewrite in_map_iff. split.
  - intros [k [<- Hk]]. apply in_seq in Hk. lia.
  - intros H. exists (Z.to_nat (y - y0)). split; [lia|].
    apply in_seq. lia.
Qed.

Lemma ascending_filter (p : Row -> bool) (l : list Row) :
  ascending l -> ascending (filter p l).
Proof.
  unfold ascending. induction 1 as [|x xs Hxs IH Hall]; simpl; [constructor|].
  destruct (p x); [|exact IH].
  constructor; [exact IH|].
  rewrite Forall_forall in *. intros a Ha. apply filter_In in Ha.
  apply Hall. tauto.
Qed.



(** One bin is laid out for every year between the earliest and the latest
    input year, whatever it holds. *)
Lemma resample_YE_rows (agg : list float -> float) (df : DataFrame) :
  rows df <> [] ->
  exists ymin ymax,
    year_span (rows df) ymin ymax
    /\ rows (resample_YE agg df)
       = annual_rows agg (List.length (columns df)) (sort_rows (rows df))
                     ymin ymax.
Proof.
  intros Hne. unfold resample_YE.
  pose proof (sort_rows_ascending (rows df)) as Hasc.
  pose proof (sort_rows_In (rows df)) as Hin.
  destruct (sort_rows (rows df)) as [|r0 t] eqn:Hs.
  - apply sort_rows_nil in Hs. contradiction.
  - exists (year (date r0)), (year (date (last (r0 :: t) r0))).
    split; [|reflexivity].
    split; [|split].
    + exists r0. split; [|reflexivity]. apply Hin. now left.
    + exists (last (r0 :: t) r0). split; [|reflexivity].
      apply Hin. apply last_In. discriminate.
    + intros r Hr. apply Hin in Hr. split; apply date_leb_year.
      * now apply (ascending_hd_min r0 t).
      * now apply ascending_last_max.
Qed.

Lemma resample_YE_empty (agg : list float -> float) (df : DataFrame) :
  rows df = [] -> rows (resample_YE agg df) = [].
Proof. intros H. unfold resample_YE. rewrite H. reflexivity. Qed.

Lemma annual_rows_dates agg ncols sorted ymin ymax :
  map date (annual_rows agg ncols sorted ymin ymax)
  = map year_end (year_range ymin ymax).
Proof. unfold annual_rows. rewrite map_map. reflexivity. Qed.

Lemma annual_rows_In agg ncols sorted ymin ymax (y : Z) :
  (ymin <= y <= ymax)%Z ->
  In (mkRow (year_end y)
            (map (fun i => agg (map (cell i) (year_rows y sorted)))
                 (seq 0 ncols)))
     (annual_rows agg ncols sorted ymin ymax).
Proof.
  intros Hy. unfold annual_rows.
  apply in_map_iff. exists y. split; [reflexivity|].
  now apply year_range_In.
Qed.



(* ----------------------------------------------------------------- *)
(** *** The group aggregates *)

Lemma mean_step_nobs (vals : list float) (a : mean_acc) :
  nobs (fold_left mean_step vals a)
  = (nobs a + Z.of_nat (List.length
                          (filter (fun v => negb (is_nan v)) vals)))%Z.
Proof.
  revert a; induction vals as [|v vs IH]; intros a; simpl; [lia|].
  rewrite IH. unfold mean_step. destruct (is_nan v); simpl; lia.
Qed.


(** The mean divides by the number of values that are not missing, and a
    group without any is NaN. *)
Lemma group_mean_count (vals : list float) :
  let n := List.length (filter (fun v => negb (is_nan v)) vals) in
  group_mean vals
  = match n with
    | O => nan
    | S _ => (sumx (fold_left mean_step vals (mkAcc 0%float 0%float 0))
              / float_of_count (Z.of_nat n))%float
    end.
Proof.
  cbv zeta. unfold group_mean. rewrite mean_step_nobs. cbn [nobs].
  destruct (List.length _) as [|n]; [reflexivity|].
  destruct (0 + Z.of_nat (S n) =? 0)%Z eqn:E; [apply Z.eqb_eq in E; lia|].
  reflexivity.
Qed.


Lemma map_last {A B : Type} (f : A -> B) (l : list A) (d : A) :
  l <> [] -> last (map f l) (f d) = f (last l d).
Proof.
  induction l as [|x xs IH]; [congruence|]. intros _.
  destruct xs as [|y ys]; [reflexivity|].
  change (last (f x :: map f (y :: ys)) (f d)) with (last (map f (y :: ys)) (f d)).
  change (last (x :: y :: ys) d) with (last (y :: ys) d).
  apply IH. discriminate.
Qed.


Lemma nth_map_seq (f : nat -> float) (n i : nat) :
  (i < n)%nat -> nth i (map f (seq 0 n)) nan = f i.
Proof.
  intros Hi.
  rewrite (nth_indep _ nan (f 0%nat)) by now rewrite length_map, length_seq.
  rewrite map_nth, seq_nth by exact Hi. reflexivity.
Qed.


(* ================================================================= *)
(** ** The value of the annual mean *)

(* ----------------------------------------------------------------- *)
(** *** Numbers that add up without rounding *)
























(* ----------------------------------------------------------------- *)
(** *** Dividing by one, adding to zero *)









(* ----------------------------------------------------------------- *)
(** *** The group mean *)











(* ================================================================= *)
(** ** The mean policy *)




(* ================================================================= *)
(** ** The last policy *)




(* ================================================================= *)
(** ** Rebasing *)

Lemma NoDup_map_In_inj {A B : Type} (f : A -> B) (l : list A) (a b : A) :
  NoDup (map f l) -> In a l -> In b l -> f a = f b -> a = b.
Proof.
  induction l as [|x xs IH]; simpl; intros Hnd Ha Hb Hf; [destruct Ha|].
  inversion Hnd as [|? ? Hnotin Hnd']; subst.
  destruct Ha as [->|Ha], Hb as [->|Hb]; auto.
  - exfalso. apply Hnotin. rewrite Hf. now apply in_map.
  - exfalso. apply Hnotin. rewrite <- Hf. now apply in_map.
Qed.

(** What [rebase] computes when it succeeds: the baseline is the [src]
    value of the first row, and every row gets [src / baseline * 100]. *)
Lemma rebase_ok (src dst : string) (df out : DataFrame) :
  rebase src dst df = Ok out ->
  exists i r0 t,
    index_of src (columns df) = Some i
    /\ rows df = r0 :: t
    /\ out = set_col dst
               (map (fun r => (cell i r / cell i r0 * 100)%float) (rows df)) df.
Proof.
  unfold rebase, get_col. intros H.
  destruct (index_of src (columns df)) as [i|] eqn:Hi; [|discriminate H].
  cbn [bind] in H.
  destruct (rows df) as [|r0 t] eqn:Hrows; [discriminate H|].
  exists i, r0, t. cbn [map iloc0 bind] in H. injection H as <-.
  repeat split. rewrite <- Hrows. f_equal.
  rewrite Hrows. cbn [map]. f_equal. now rewrite map_map.
Qed.

(** C6, as stated, fails: a Big Mac price of zero makes the baseline
    affordability +infinity, which exists and is not zero, and the rebased
    value of the baseline point is NaN. *)
Lemma infinite_baseline_is_not_100 :
  exists st fig r0 b p,
    main zero_price_loaded = Ok st
    /\ dict_get "bigmac_cost_percentage_1995.png" (figures st) = Some fig
    /\ hd_error (rows fig) = Some r0
    /\ get_cell "bigmac_per_10k" fig r0 = Some b
    /\ is_nan b = false /\ is_zero b = false
    /\ get_cell "bigmac_pct" fig r0 = Some p
    /\ p <> 100%float.
Proof.
  do 5 eexists.
  split; [vm_compute; reflexivity|].
  split; [vm_compute; reflexivity|].
  split; [vm_compute; reflexivity|].
  split; [vm_compute; reflexivity|].
  split; [vm_compute; reflexivity|].
  split; [vm_compute; reflexivity|].
  split; [vm_compute; reflexivity|].
  intros H. float_discr H.
Qed.

(** C6, amended: for every rebased series (unique dates) whose baseline
    exists and is finite and non-zero, the output point whose date is the
    baseline date has a rebased value of exactly 100. *)
Theorem rebase_baseline_is_100 (src dst : string) (df out : DataFrame) :
  wf_frame df -> NoDup (map date (rows df)) ->
  rebase src dst df = Ok out ->
  exists r0 b,
    hd_error (rows df) = Some r0
    /\ get_cell src df r0 = Some b
    /\ (is_finite b = true -> is_zero b = false ->
        forall r, In r (rows out) -> date r = date r0 ->
                  get_cell dst out r = Some 100%float).
Proof.
  intros Hwf Hnd H.
  destruct (rebase_ok _ _ _ _ H) as (i & r0 & t & Hi & Hrows & ->).
  exists r0, (cell i r0). split; [now rewrite Hrows|].
  split; [unfold get_cell; now rewrite Hi|].
  intros Hf Hz r Hr Hd.
  rewrite set_col_map in Hr. apply in_map_iff in Hr as [r' [<- Hr']].
  cbn [date] in Hd.
  assert (r' = r0) as ->.
  { apply (NoDup_map_In_inj date (rows df)); auto.
    rewrite Hrows. now left. }
  unfold get_cell. rewrite set_col_index. cbn [option_map]. f_equal.
  unfold cell. cbn [cells].
  rewrite put_cell_same by exact (proj1 (Forall_forall _ _) Hwf r0 Hr').
  now apply rebase_at_baseline.
Qed.

Lemma rebase_baseline_is_100_witness :
  let df := affordability_sample in
  let out := ok_or df (rebase "bigmac_per_10k" "bigmac_pct" df) in
  exists r0 b,
    hd_error (rows df) = Some r0
    /\ get_cell "bigmac_per_10k" df r0 = Some b
    /\ (is_finite b = true -> is_zero b = false ->
        forall r, In r (rows out) -> date r = date r0 ->
                  get_cell "bigmac_pct" out r = Some 100%float).
Proof.
  apply (rebase_baseline_is_100 "bigmac_per_10k" "bigmac_pct"
           affordability_sample
           (ok_or affordability_sample
                  (rebase "bigmac_per_10k" "bigmac_pct" affordability_sample))).
  - repeat constructor.
  - repeat constructor; simpl; intuition discriminate.
  - vm_compute. reflexivity.
Defined.

(** The frames the script rebases have unique dates: annual frames carry
    one year-end date per year. *)
Lemma resample_YE_NoDup (agg : list float -> float) (df : DataFrame) :
  NoDup (map date (rows (resample_YE agg df))).
Proof.
  destruct (rows df) as [|r t] eqn:E.
  - rewrite resample_YE_empty by assumption. constructor.
  - destruct (resample_YE_rows agg df) as (ymin & ymax & _ & ->);
      [rewrite E; discriminate|].
    rewrite annual_rows_dates. unfold year_range. rewrite map_map.
    apply Finite.Injective_map_NoDup; [|apply seq_NoDup].
    intros a b Hab. unfold year_end in Hab. injection Hab as Hab. lia.
Qed.

Lemma filter_dates_NoDup (keep : Row -> bool) (rs : list Row) :
  NoDup (map date rs) -> NoDup (map date (filter keep rs)).
Proof.
  intros Hnd. induction rs as [|r rest IH]; [constructor|].
  cbn [map] in Hnd. apply NoDup_cons_iff in Hnd as [Hfresh Hrest].
  cbn [filter]. destruct (keep r); [|now apply IH].
  cbn [map]. apply NoDup_cons; [|now apply IH].
  intros Hin. apply Hfresh.
  apply in_map_iff in Hin as [r' [Hdate Hin]].
  apply filter_In in Hin as [Hin _].
  rewrite <- Hdate. now apply in_map.
Qed.

(** So does the Big Mac frame: the merge leaves one row per date, and the
    transform, the selection, [dropna] and the cutoff filter keep dates
    apart. *)
Lemma bigmac_merge_NoDup (h c : option DataFrame) (bm : DataFrame) :
  bigmac_merge h c = Ok bm -> NoDup (map date (rows bm)).
Proof.
  unfold bigmac_merge. destruct (pd_concat h c) as [df|]; [|discriminate].
  intros [= <-]. cbn [rows sort_values_date drop_duplicates_date].
  eapply Permutation_NoDup;
    [apply Permutation_map; symmetry; apply sort_rows_perm|].
  apply drop_dups_from_NoDup.
Qed.

Lemma bigmac_chart_NoDup (cutoff : Timestamp) (st st' : State)
      (df : DataFrame) :
  NoDup (map date (rows (bigmac st))) ->
  build_summary st = Ok st' ->
  dict_get "bigmac" (summary st') = Some df ->
  NoDup (map date (rows (filter_date_ge cutoff df))).
Proof.
  intros Hnd H Hk.
  destruct (build_summary_ok _ _ H)
    as (bm & bsel & gsel & msel & csel & Hbm & Hbsel & _ & _ & _ & _
        & Hsum & _).
  rewrite Hsum, !dict_get_set_opt_neq, dict_get_set_eq in Hk
    by (intros E; discriminate E).
  injection Hk as <-.
  unfold add_ratio in Hbm. inv_bind Hbm. injection Hbm as <-.
  unfold get_col in E.
  destruct (index_of "price" (columns (bigmac st))); [|discriminate E].
  injection E as <-. rewrite map_map in Hbsel.
  match type of Hbsel with
  | select _ (set_col ?n (map ?g _) ?f) = _ =>
      pose proof (set_col_dates n g f) as Hd;
      set (bm' := set_col n (map g (rows f)) f) in *; clearbody bm'
  end.
  unfold select in Hbsel. inv_bind Hbsel. injection Hbsel as <-.
  cbn [rows filter_date_ge dropna].
  do 2 apply filter_dates_NoDup.
  rewrite map_map. cbn [date].
  change (fun x : Row => date x) with date. now rewrite Hd.
Qed.

(* ================================================================= *)
(** ** Failures of the rebase step *)

Lemma rebase_empty (src dst : string) (df : DataFrame) :
  rows df = [] ->
  rebase src dst df
  = match index_of src (columns df) with
    | Some _ => Raise IndexError
    | None => Raise (KeyError src)
    end.
Proof.
  intros H. unfold rebase, get_col.
  destruct (index_of src (columns df)); [|reflexivity].
  rewrite H. reflexivity.
Qed.

Lemma rebase_empty_raises (src dst : string) (df : DataFrame) :
  rows df = [] -> exists e, rebase src dst df = Raise e.
Proof.
  intros H. rewrite (rebase_empty _ _ _ H).
  destruct (index_of src (columns df)); eauto.
Qed.

Lemma combine_series_summary cutoff key label src agg (st st' : State) :
  combine_series cutoff key label src agg st = Ok st' ->
  summary st' = summary st.
Proof.
  unfold combine_series. destruct (dict_get key (summary st)).
  - intros H. inv_bind H. injection H as <-. reflexivity.
  - intros [= <-]. reflexivity.
Qed.

Lemma plot_bigmac_summary cutoff (st st' : State) :
  plot_bigmac cutoff st = Ok st' -> summary st' = summary st.
Proof.
  unfold plot_bigmac. destruct (dict_get "bigmac" (summary st)).
  - intros H. inv_bind H. injection H as <-. reflexivity.
  - intros [= <-]. reflexivity.
Qed.

Lemma plot_gasoline_summary cutoff (st st' : State) :
  plot_gasoline cutoff st = Ok st' -> summary st' = summary st.
Proof.
  unfold plot_gasoline. destruct (dict_get "gasoline" (summary st)).
  - intros H. inv_bind H. injection H as <-. reflexivity.
  - intros [= <-]. reflexivity.
Qed.

Lemma plot_median_home_summary cutoff (st st' : State) :
  plot_median_home cutoff st = Ok st' -> summary st' = summary st.
Proof.
  unfold plot_median_home. destruct (dict_get "median_home" (summary st)).
  - intros H. inv_bind H. injection H as <-. reflexivity.
  - intros [= <-]. reflexivity.
Qed.

Lemma plot_cpi_summary cutoff (st st' : State) :
  plot_cpi cutoff st = Ok st' -> summary st' = summary st.
Proof.
  unfold plot_cpi. destruct (dict_get "cpi" (summary st)).
  - destruct (cpi st); [|discriminate].
    intros H. inv_bind H. inv_bind H. injection H as <-. reflexivity.
  - intros [= <-]. reflexivity.
Qed.

Lemma combine_series_raises cutoff key label src agg (st : State)
      (df : DataFrame) :
  dict_get key (summary st) = Some df ->
  rows (filter_date_ge cutoff df) = [] ->
  exists e, combine_series cutoff key label src agg st = Raise e.
Proof.
  intros Hk He. unfold combine_series. rewrite Hk.
  destruct (rebase_empty_raises src "pct"
              (resample_YE agg (filter_date_ge cutoff df))) as [e ->].
  - now apply resample_YE_empty.
  - simpl. eauto.
Qed.

Ltac step_block lem :=
  match goal with
  | |- exists e, bind ?m _ = Raise e =>
      let st := fresh "st" in
      let E := fresh "E" in
      destruct m as [st|?] eqn:E; cbn [bind]; [apply lem in E | eauto]
  end.

Lemma build_combined_raises cutoff (st : State) (key : string)
      (df : DataFrame) :
  In key summary_keys ->
  dict_get key (summary st) = Some df ->
  rows (filter_date_ge cutoff df) = [] ->
  exists e, build_combined cutoff st = Raise e.
Proof.
  intros Hkey Hk He. unfold build_combined.
  destruct Hkey as [<-|[<-|[<-|[<-|[]]]]].
  - destruct (combine_series_raises cutoff "bigmac" "Big Mac" "bigmac_per_10k"
                group_mean st df Hk He) as [e ->]. simpl. eauto.
  - step_block combine_series_summary.
    destruct (combine_series_raises cutoff "gasoline" "Gasoline"
                "gallon_per_10k" group_mean st0 df) as [e ->];
      [congruence | assumption | simpl; eauto].
  - step_block combine_series_summary.
    step_block combine_series_summary.
    destruct (combine_series_raises cutoff "median_home" "Median Home"
                "homes_per_10k" group_last st1 df) as [e ->];
      [congruence | assumption | simpl; eauto].
  - step_block combine_series_summary.
    step_block combine_series_summary.
    step_block combine_series_summary.
    destruct (combine_series_raises cutoff "cpi" "Inverted CPI"
                "inverted_pct" group_mean st2 df) as [e ->];
      [congruence | assumption | eauto].
Qed.

(** C3, as stated, fails.  Gasoline observed only before the cutoff: the
    run ends with [IndexError] instead of going on without the series.
    A zero baseline: nothing is raised, the series stays in the combined
    table, and its rebased baseline value is NaN. *)
Lemma rebase_failure_is_fatal_or_silent :
  (main old_gasoline_loaded = Raise IndexError
   /\ ~ degrades_series "Gasoline" (main old_gasoline_loaded))
  /\ (exists st ann,
        main zero_baseline_loaded = Ok st
        /\ dict_get "Big Mac" (combined_data st) = Some ann
        /\ get_col "bigmac_per_10k" ann = Ok [0%float; 4000%float]
        /\ get_col "pct" ann = Ok [nan; infinity]
        /\ ~ degrades_series "Big Mac" (main zero_baseline_loaded)).
Proof.
  assert (main old_gasoline_loaded = Raise IndexError) as H1
      by (vm_compute; reflexivity).
  split.
  - split; [exact H1|]. intros [st [H _]]. rewrite H1 in H. discriminate H.
  - do 2 eexists.
    split; [vm_compute; reflexivity|].
    split; [vm_compute; reflexivity|].
    split; [vm_compute; reflexivity|].
    split; [vm_compute; reflexivity|].
    intros [st [H Hnone]].
    vm_compute in H. injection H as <-. vm_compute in Hnone.
    discriminate Hnone.
Qed.

(** When a series stored in [summary] has no point on or after the
    cutoff, some block of the script raises. *)
Lemma run_raises_after_summary cutoff (inp : Loaded) (bm : DataFrame)
      (st1 : State) (key : string) (df : DataFrame) :
  bigmac_merge (historical inp) (current inp) = Ok bm ->
  build_summary (after_merge inp bm) = Ok st1 ->
  In key summary_keys ->
  dict_get key (summary st1) = Some df ->
  rows (filter_date_ge cutoff df) = [] ->
  exists e, run cutoff inp = Raise e.
Proof.
  intros Hm Hs Hkey Hk He.
  unfold run. rewrite Hm. cbn [bind].
  change (mkState (ld_cpi inp) (ld_msp inp) (ld_gasoline inp) bm [] [] [])
    with (after_merge inp bm).
  rewrite Hs. cbn [bind].
  step_block plot_bigmac_summary.
  step_block plot_gasoline_summary.
  step_block plot_median_home_summary.
  step_block plot_cpi_summary.
  apply (build_combined_raises cutoff st3 key df); [assumption| |assumption].
  congruence.
Qed.

(** The rebase step on a frame with a row: it goes through whatever the
    baseline is, keeps every point, and a zero baseline leaves NaN at the
    baseline. *)
Lemma rebase_keeps (src dst : string) (df : DataFrame) :
  wf_frame df -> (exists i, index_of src (columns df) = Some i) ->
  rows df <> [] ->
  exists out, kept_after_rebase src dst df out.
Proof.
  intros Hwf [i Hi] Hne.
  destruct (rows df) as [|r0 t] eqn:Hrows; [congruence|].
  set (g := fun r => (cell i r / cell i r0 * 100)%float).
  exists (set_col dst (map g (rows df)) df).
  split; [|split].
  - unfold rebase, get_col. rewrite Hi. cbn [bind]. rewrite Hrows.
    cbn [map iloc0 bind]. do 2 f_equal. unfold g. cbn [map]. f_equal.
    now rewrite map_map.
  - apply set_col_dates.
  - intros j r Hj Hr Hz. rewrite Hrows in Hr. injection Hr as <-.
    assert (j = i) as -> by congruence.
    exists (mkRow (date r0)
                  (put_cell (index_of dst (columns df)) (g r0) (cells r0))).
    exists (g r0).
    split; [|split].
    + rewrite set_col_map, Hrows. reflexivity.
    + unfold get_cell. rewrite set_col_index. cbn [option_map]. f_equal.
      unfold cell at 1. cbn [cells]. apply put_cell_same.
      apply (proj1 (Forall_forall _ _) Hwf). rewrite Hrows. now left.
    + unfold g. now apply rebase_zero_baseline.
Qed.

(* ================================================================= *)
(** ** Order of the series in the combined table *)

Lemma keys_dict_set_fresh (k : string) (v : DataFrame) (d : dict) :
  ~ In k (keys d) -> keys (dict_set k v d) = keys d ++ [k].
Proof.
  unfold keys. induction d as [|[k' v'] rest IH]; simpl; intros H;
    [reflexivity|].
  destruct (String.eqb_spec k k') as [->|Hne]; [tauto|].
  simpl. f_equal. apply IH. tauto.
Qed.

Lemma combine_series_keys cutoff key label src agg (st st' : State) :
  combine_series cutoff key label src agg st = Ok st' ->
  ~ In label (keys (combined_data st)) ->
  keys (combined_data st')
  = keys (combined_data st)
    ++ (if present (dict_get key (summary st)) then [label] else []).
Proof.
  unfold combine_series. destruct (dict_get key (summary st)).
  - intros H Hfresh. inv_bind H. injection H as <-. cbn.
    now apply keys_dict_set_fresh.
  - intros [= <-] _. now rewrite app_nil_r.
Qed.

Lemma plot_bigmac_combined cutoff (st st' : State) :
  plot_bigmac cutoff st = Ok st' -> combined_data st' = combined_data st.
Proof.
  unfold plot_bigmac. destruct (dict_get "bigmac" (summary st)).
  - intros H. inv_bind H. injection H as <-. reflexivity.
  - intros [= <-]. reflexivity.
Qed.

Lemma plot_gasoline_combined cutoff (st st' : State) :
  plot_gasoline cutoff st = Ok st' -> combined_data st' = combined_data st.
Proof.
  unfold plot_gasoline. destruct (dict_get "gasoline" (summary st)).
  - intros H. inv_bind H. injection H as <-. reflexivity.
  - intros [= <-]. reflexivity.
Qed.

Lemma plot_median_home_combined cutoff (st st' : State) :
  plot_median_home cutoff st = Ok st' -> combined_data st' = combined_data st.
Proof.
  unfold plot_median_home. destruct (dict_get "median_home" (summary st)).
  - intros H. inv_bind H. injection H as <-. reflexivity.
  - intros [= <-]. reflexivity.
Qed.

Lemma plot_cpi_combined cutoff (st st' : State) :
  plot_cpi cutoff st = Ok st' -> combined_data st' = combined_data st.
Proof.
  unfold plot_cpi. destruct (dict_get "cpi" (summary st)).
  - destruct (cpi st); [|discriminate].
    intros H. inv_bind H. inv_bind H. injection H as <-. reflexivity.
  - intros [= <-]. reflexivity.
Qed.

Lemma series_summary_present (num : float) (src dst : string)
      (before after sel : option DataFrame) :
  series_summary num src dst before after sel ->
  present sel = present before.
Proof.
  destruct before; cbn.
  - intros (? & ? & _ & _ & _ & ->). reflexivity.
  - intros [_ ->]. reflexivity.
Qed.

(** Which series [summary] holds after lines 127-140, starting from the
    empty dictionary. *)
Lemma summary_presence (st st' : State) :
  summary st = [] -> build_summary st = Ok st' ->
  present (dict_get "bigmac" (summary st')) = true
  /\ present (dict_get "gasoline" (summary st')) = present (gasoline st)
  /\ present (dict_get "median_home" (summary st')) = present (msp st)
  /\ present (dict_get "cpi" (summary st')) = present (cpi st).
Proof.
  intros Hempty H.
  destruct (build_summary_ok _ _ H)
    as (bm & bsel & gsel & msel & csel & _ & _ & _ & Hg & Hm & Hc & Hsum & _).
  apply series_summary_present in Hg, Hm, Hc.
  rewrite <- Hg, <- Hm, <- Hc, Hsum, Hempty.
  destruct gsel, msel, csel; repeat split; reflexivity.
Qed.

(** C7, as stated, fails.  Without a Big Mac file the run ends at line 120
    and there is no combined table; with every series present the order is
    Big Mac, Gasoline, Median Home, Inverted CPI, in which CPI does not
    come before median home. *)
Lemma combined_order_is_the_scripts :
  main three_series_loaded = Raise (KeyError "date")
  /\ exists st,
       main sample_loaded = Ok st
       /\ keys (combined_data st)
          = ["Big Mac"; "Gasoline"; "Median Home"; "Inverted CPI"]
       /\ ~ appears_before "Inverted CPI" "Median Home"
                           (keys (combined_data st)).
Proof.
  split; [vm_compute; reflexivity|].
  eexists. split; [vm_compute; reflexivity|].
  split; [vm_compute; reflexivity|].
  intros (i & j & Hi & Hj & Hlt).
  vm_compute in Hi, Hj. injection Hi as <-. injection Hj as <-. lia.
Qed.

(** C7, amended: the series of the combined table come in the order in
    which the script processes them, Big Mac, Gasoline, Median Home,
    Inverted CPI, restricted to the series that were loaded; the order does
    not depend on the inputs. *)
Theorem combined_order_fixed (cutoff : Timestamp) (inp : Loaded) (st : State) :
  run cutoff inp = Ok st ->
  keys (combined_data st) = present_labels inp.
Proof.
  unfold run. intros H.
  inv_bind H. rename a into bm.
  inv_bind H. rename a into st1.
  inv_bind H. rename a into st2.
  inv_bind H. rename a into st3.
  inv_bind H. rename a into st4.
  inv_bind H. rename a into st5.
  assert (Hp := fun H0 => summary_presence _ _ H0 E0).
  destruct (Hp eq_refl) as (Pb & Pg & Pm & Pc). clear Hp.
  cbn [gasoline msp cpi] in Pg, Pm, Pc.
  pose proof (build_summary_ok _ _ E0) as (_ & _ & _ & _ & _ & _ & _ & _ & _
                                           & _ & _ & _ & _ & Hcd0).
  cbn [combined_data] in Hcd0.
  assert (summary st5 = summary st1) as Hs5.
  { rewrite (plot_cpi_summary _ _ _ E4), (plot_median_home_summary _ _ _ E3),
      (plot_gasoline_summary _ _ _ E2). now apply plot_bigmac_summary in E1. }
  assert (combined_data st5 = []) as Hc5.
  { rewrite (plot_cpi_combined _ _ _ E4), (plot_median_home_combined _ _ _ E3),
      (plot_gasoline_combined _ _ _ E2), (plot_bigmac_combined _ _ _ E1).
    exact Hcd0. }
  unfold build_combined in H.
  inv_bind H. rename a into c1.
  inv_bind H. rename a into c2.
  inv_bind H. rename a into c3.
  pose proof (combine_series_summary _ _ _ _ _ _ _ E5) as S1.
  pose proof (combine_series_summary _ _ _ _ _ _ _ E6) as S2.
  pose proof (combine_series_summary _ _ _ _ _ _ _ E7) as S3.
  apply combine_series_keys in E5; [|rewrite Hc5; simpl; tauto].
  rewrite Hc5, Hs5 in E5. cbn [keys map app] in E5.
  destruct (dict_get "bigmac" (summary st1)); [|discriminate Pb].
  apply combine_series_keys in E6;
    [|rewrite E5; simpl; intuition discriminate].
  rewrite E5, S1, Hs5 in E6.
  apply combine_series_keys in E7;
    [|rewrite E6; destruct (dict_get "gasoline" (summary st1)); simpl;
      intuition discriminate].
  rewrite E6, S2, S1, Hs5 in E7.
  apply combine_series_keys in H;
    [|rewrite E7; destruct (dict_get "gasoline" (summary st1)),
                  (dict_get "median_home" (summary st1)); simpl;
      intuition discriminate].
  rewrite H, E7, S3, S2, S1, Hs5.
  unfold present_labels.
  destruct (dict_get "gasoline" (summary st1)), (ld_gasoline inp);
    try discriminate Pg;
    destruct (dict_get "median_home" (summary st1)), (ld_msp inp);
    try discriminate Pm;
    destruct (dict_get "cpi" (summary st1)), (ld_cpi inp);
    try discriminate Pc; reflexivity.
Qed.

Lemma combined_order_fixed_witness :
  keys (combined_data (ok_or sample_state (run CUTOFF sample_loaded)))
  = present_labels sample_loaded.
Proof.
  apply (combined_order_fixed CUTOFF sample_loaded
           (ok_or sample_state (run CUTOFF sample_loaded))).
  vm_compute. reflexivity.
Defined.

(* ================================================================= *)
(** ** The CPI scenario *)

(** C8, as stated, fails on the rebased series: the script rebases the
    mean of the inverted index, so the value of 2021 is below 100 and is
    not [270 / 261 * 100]. *)
Lemma cpi_scenario_rebased_is_inverted :
  exists st ann p,
    run (mkDate 2020 1 1) scenario_loaded = Ok st
    /\ dict_get "inverted_cpi_percentage_1995.png" (figures st) = Some ann
    /\ get_col "inverted_pct" ann = Ok [100%float; p]
    /\ (p <? 100)%float = true
    /\ p <> (270 / 261 * 100)%float.
Proof.
  do 3 eexists.
  split; [vm_compute; reflexivity|].
  split; [vm_compute; reflexivity|].
  split; [vm_compute; reflexivity|].
  split; [vm_compute; reflexivity|].
  intros H. float_discr H.
Qed.

(** C8, amended: for the raw CPI input of the scenario, with the cutoff
    2020-01-01 (and with the script's own 1995-01-01), the annual series is
    (2020-12-31, 261.0), (2021-12-31, 270.0) and the rebased series, taken
    on the inverted index, is (2020, 100.0), (2021, (1/270) / mean(1/260,
    1/262) * 100), about 96.67. *)
Theorem cpi_scenario_annual_and_rebased :
  cpi_scenario_outcome (mkDate 2020 1 1)
  /\ cpi_scenario_outcome CUTOFF
  /\ (96.625 <? inverted_cpi_2021)%float = true
  /\ (inverted_cpi_2021 <? 96.75)%float = true.
Proof.
  split; [|split; [|split]]; try (vm_compute; reflexivity).
  - unfold cpi_scenario_outcome. do 3 eexists.
    split; [vm_compute; reflexivity|].
    split; [vm_compute; reflexivity|].
    repeat split; vm_compute; reflexivity.
  - unfold cpi_scenario_outcome. do 3 eexists.
    split; [vm_compute; reflexivity|].
    split; [vm_compute; reflexivity|].
    split; [vm_compute; reflexivity|].
    split; [vm_compute; reflexivity|].
    split; [vm_compute; reflexivity|].
    split; [vm_compute; reflexivity|].
    split; vm_compute; reflexivity.
Qed.

(* ================================================================= *)
(** ** Two rebased Big Mac series *)

Lemma plot_bigmac_baseline cutoff (st st' : State) (df : DataFrame) :
  dict_get "bigmac" (summary st) = Some df ->
  plot_bigmac cutoff st = Ok st' ->
  exists i r0 t,
    index_of "bigmac_per_10k" (columns df) = Some i
    /\ rows (filter_date_ge cutoff df) = r0 :: t
    /\ dict_get "bigmac_cost_percentage_1995.png" (figures st')
       = Some (set_col "bigmac_pct"
                 (map (fun r => (cell i r / cell i r0 * 100)%float)
                      (rows (filter_date_ge cutoff df)))
                 (filter_date_ge cutoff df)).
Proof.
  intros Hk H. unfold plot_bigmac in H. rewrite Hk in H.
  inv_bind H. injection H as <-.
  destruct (rebase_ok _ _ _ _ E) as (i & r0 & t & Hi & Hrows & ->).
  exists i, r0, t. split; [exact Hi|]. split; [exact Hrows|].
  cbn [figures save_figure]. apply dict_get_set_eq.
Qed.

Lemma combine_bigmac_baseline cutoff (st st' : State) (df : DataFrame) :
  dict_get "bigmac" (summary st) = Some df ->
  combine_series cutoff "bigmac" "Big Mac" "bigmac_per_10k" group_mean st
  = Ok st' ->
  exists i a0 t,
    index_of "bigmac_per_10k" (columns df) = Some i
    /\ rows (resample_YE group_mean (filter_date_ge cutoff df)) = a0 :: t
    /\ dict_get "Big Mac" (combined_data st')
       = Some (set_col "pct"
                 (map (fun r => (cell i r / cell i a0 * 100)%float)
                      (rows (resample_YE group_mean
                                         (filter_date_ge cutoff df))))
                 (resample_YE group_mean (filter_date_ge cutoff df))).
Proof.
  intros Hk H. unfold combine_series in H. rewrite Hk in H.
  inv_bind H. injection H as <-.
  destruct (rebase_ok _ _ _ _ E) as (i & a0 & t & Hi & Hrows & ->).
  exists i, a0, t. split.
  - unfold resample_YE in Hi.
    destruct (sort_rows (rows (filter_date_ge cutoff df))); exact Hi.
  - split; [exact Hrows|]. cbn [combined_data set_combined].
    apply dict_get_set_eq.
Qed.

(** C10: the Big Mac chart rebases the affordability points themselves
    against the first point on or after the cutoff, the combined table
    rebases their annual means against the first annual mean, and the two
    differ: with prices 2.5 and 2.0 in 1995 and 2.5 in 1996, the chart has
    100 for 1996-04-01 and the combined table has 4000 / 4500 * 100 for
    1996. *)
Theorem bigmac_paths_differ :
  (forall cutoff st st' df,
      dict_get "bigmac" (summary st) = Some df ->
      plot_bigmac cutoff st = Ok st' ->
      exists i r0 t,
        index_of "bigmac_per_10k" (columns df) = Some i
        /\ rows (filter_date_ge cutoff df) = r0 :: t
        /\ dict_get "bigmac_cost_percentage_1995.png" (figures st')
           = Some (set_col "bigmac_pct"
                     (map (fun r => (cell i r / cell i r0 * 100)%float)
                          (rows (filter_date_ge cutoff df)))
                     (filter_date_ge cutoff df)))
  /\ (forall cutoff st st' df,
        dict_get "bigmac" (summary st) = Some df ->
        combine_series cutoff "bigmac" "Big Mac" "bigmac_per_10k"
                       group_mean st = Ok st' ->
        exists i a0 t,
          index_of "bigmac_per_10k" (columns df) = Some i
          /\ rows (resample_YE group_mean (filter_date_ge cutoff df))
             = a0 :: t
          /\ dict_get "Big Mac" (combined_data st')
             = Some (set_col "pct"
                       (map (fun r => (cell i r / cell i a0 * 100)%float)
                            (rows (resample_YE group_mean
                                               (filter_date_ge cutoff df))))
                       (resample_YE group_mean (filter_date_ge cutoff df))))
  /\ (exists st fig ann p,
        main baseline_year_loaded = Ok st
        /\ dict_get "bigmac_cost_percentage_1995.png" (figures st) = Some fig
        /\ dict_get "Big Mac" (combined_data st) = Some ann
        /\ map date (rows fig)
           = [mkDate 1995 4 1; mkDate 1995 10 1; mkDate 1996 4 1]
        /\ get_col "bigmac_per_10k" fig
           = Ok [4000%float; 5000%float; 4000%float]
        /\ get_col "bigmac_pct" fig = Ok [100%float; 125%float; 100%float]
        /\ map date (rows ann) = [mkDate 1995 12 31; mkDate 1996 12 31]
        /\ get_col "bigmac_per_10k" ann = Ok [4500%float; 4000%float]
        /\ get_col "pct" ann = Ok [100%float; p]
        /\ p = (4000 / 4500 * 100)%float
        /\ p <> 100%float).
Proof.
  split; [exact plot_bigmac_baseline|].
  split; [exact combine_bigmac_baseline|].
  do 4 eexists.
  split; [vm_compute; reflexivity|].
  split; [vm_compute; reflexivity|].
  split; [vm_compute; reflexivity|].
  split; [vm_compute; reflexivity|].
  split; [vm_compute; reflexivity|].
  split; [vm_compute; reflexivity|].
  split; [vm_compute; reflexivity|].
  split; [vm_compute; reflexivity|].
  split; [vm_compute; reflexivity|].
  split; [vm_compute; reflexivity|].
  intros H. float_discr H.
Qed.

Lemma bigmac_paths_differ_witness :
  let df := sample_bigmac_summary in
  let st' := ok_or sample_summarised (plot_bigmac CUTOFF sample_summarised) in
  exists i r0 t,
    index_of "bigmac_per_10k" (columns df) = Some i
    /\ rows (filter_date_ge CUTOFF df) = r0 :: t
    /\ dict_get "bigmac_cost_percentage_1995.png" (figures st')
       = Some (set_col "bigmac_pct"
                 (map (fun r => (cell i r / cell i r0 * 100)%float)
                      (rows (filter_date_ge CUTOFF df)))
                 (filter_date_ge CUTOFF df)).
Proof.
  apply (proj1 bigmac_paths_differ CUTOFF sample_summarised
           (ok_or sample_summarised (plot_bigmac CUTOFF sample_summarised))
           sample_bigmac_summary).
  - vm_compute. reflexivity.
  - vm_compute. reflexivity.
Defined.

(* ================================================================= *)
(** * Further properties of the script *)

(* ================================================================= *)
(** ** The merge is idempotent, and commutative on disjoint segments *)

Lemma date_leb_antisym (a b : Timestamp) :
  date_leb a b = true -> date_leb b a = true -> a = b.
Proof.
  rewrite !date_leb_spec. destruct a, b; simpl. intros H1 H2.
  f_equal; lia.
Qed.

Lemma date_ltb_asym (a b : Timestamp) :
  date_ltb a b = true -> date_ltb b a = true -> False.
Proof.
  rewrite !date_ltb_spec. intros [H1 Hne] [H2 _].
  apply Hne. now apply date_leb_antisym.
Qed.

Lemma strictly_ascending_perm_eq (l l' : list Row) :
  strictly_ascending l -> strictly_ascending l' -> Permutation l l' -> l = l'.
Proof.
  unfold strictly_ascending. intros Hl; revert l'.
  induction Hl as [|x xs Hxs IH Hx]; intros l' Hl' Hp.
  - now apply Permutation_nil in Hp.
  - destruct Hl' as [|y ys Hys Hy].
    + apply Permutation_sym, Permutation_nil in Hp. discriminate Hp.
    + assert (x = y) as ->.
      { assert (In x (y :: ys)) as [E|Hin]
            by (apply (Permutation_in _ Hp); now left); [now symmetry|].
        assert (In y (x :: xs)) as [E|Hin']
            by (apply (Permutation_in _ (Permutation_sym Hp)); now left);
          [assumption|].
        exfalso. rewrite Forall_forall in Hx, Hy.
        exact (date_ltb_asym _ _ (Hx _ Hin') (Hy _ Hin)). }
      f_equal. apply IH; [assumption|]. eapply Permutation_cons_inv; eassumption.
Qed.

Lemma sort_rows_unique (l l' : list Row) :
  Permutation l l' -> NoDup (map date l) -> sort_rows l = sort_rows l'.
Proof.
  intros Hp Hnd.
  apply strictly_ascending_perm_eq.
  - apply ascending_NoDup_strict; [apply sort_rows_ascending|].
    eapply Permutation_NoDup; [|exact Hnd].
    apply Permutation_map. symmetry. apply sort_rows_perm.
  - apply ascending_NoDup_strict; [apply sort_rows_ascending|].
    eapply Permutation_NoDup; [|exact Hnd].
    apply Permutation_map. rewrite Hp. symmetry. apply sort_rows_perm.
  - rewrite !sort_rows_perm. exact Hp.
Qed.

Lemma sort_rows_ascending_id (l : list Row) : ascending l -> sort_rows l = l.
Proof.
  unfold ascending. induction 1 as [|x xs Hxs IH Hx]; [reflexivity|].
  cbn [sort_rows fold_right]. fold (sort_rows xs). rewrite IH.
  destruct xs as [|y ys]; [reflexivity|].
  cbn [insert_row]. inversion Hx as [|? ? Hxy _]; subst. now rewrite Hxy.
Qed.

Lemma strictly_ascending_ascending (l : list Row) :
  strictly_ascending l -> ascending l.
Proof.
  unfold strictly_ascending, ascending.
  induction 1 as [|x xs Hxs IH Hx]; constructor; [assumption|].
  eapply Forall_impl; [|exact Hx]. intros a Ha.
  now apply date_ltb_spec in Ha.
Qed.

Lemma drop_dups_from_ext (s1 s2 : list Timestamp) (l : list Row) :
  (forall d, In d s1 <-> In d s2) ->
  drop_dups_from s1 l = drop_dups_from s2 l.
Proof.
  revert s1 s2; induction l as [|x xs IH]; intros s1 s2 H; [reflexivity|].
  cbn [drop_dups_from].
  assert (existsb (date_eqb (date x)) s1 = existsb (date_eqb (date x)) s2) as ->.
  { apply eq_true_iff_eq. rewrite !existsb_date_In. apply H. }
  destruct (existsb (date_eqb (date x)) s2); [now apply IH|].
  f_equal. apply IH. intros d. simpl. rewrite H. tauto.
Qed.

Lemma drop_dups_from_unseen (s s0 : list Timestamp) (l : list Row) :
  (forall r, In r l -> ~ In (date r) s) ->
  drop_dups_from (s ++ s0) l = drop_dups_from s0 l.
Proof.
  revert s0; induction l as [|x xs IH]; intros s0 H; [reflexivity|].
  cbn [drop_dups_from].
  assert (existsb (date_eqb (date x)) (s ++ s0)
          = existsb (date_eqb (date x)) s0) as ->.
  { apply eq_true_iff_eq. rewrite !existsb_date_In, in_app_iff.
    specialize (H x (or_introl eq_refl)). tauto. }
  destruct (existsb (date_eqb (date x)) s0).
  - apply IH. intros r Hr. apply H. now right.
  - f_equal. rewrite <- (IH (date x :: s0)) by (intros r Hr; apply H; now right).
    apply drop_dups_from_ext. intros d. simpl. rewrite !in_app_iff. simpl.
    tauto.
Qed.

Lemma drop_dups_from_app (seen : list Timestamp) (l1 l2 : list Row) :
  drop_dups_from seen (l1 ++ l2)
  = drop_dups_from seen l1
    ++ drop_dups_from (rev (map date (drop_dups_from seen l1)) ++ seen) l2.
Proof.
  revert seen; induction l1 as [|x xs IH]; intros seen; [reflexivity|].
  cbn [app drop_dups_from].
  destruct (existsb (date_eqb (date x)) seen); [apply IH|].
  cbn [app map rev]. f_equal. rewrite IH. f_equal.
  now rewrite <- app_assoc.
Qed.

Lemma drop_dups_from_NoDup_id (seen : list Timestamp) (l : list Row) :
  NoDup (map date l) -> (forall r, In r l -> ~ In (date r) seen) ->
  drop_dups_from seen l = l.
Proof.
  revert seen; induction l as [|x xs IH]; intros seen Hnd H; [reflexivity|].
  cbn [drop_dups_from]. cbn [map] in Hnd.
  apply NoDup_cons_iff in Hnd as [Hx Hnd].
  destruct (existsb (date_eqb (date x)) seen) eqn:E.
  - apply existsb_date_In in E. exfalso. apply (H x); [now left | exact E].
  - f_equal. apply IH; [assumption|].
    intros r Hr [Hd|Hs].
    + apply Hx. rewrite Hd. now apply in_map.
    + apply (H r); [now right | exact Hs].
Qed.

Lemma bigmac_merge_ascending (h c : option DataFrame) (bm : DataFrame) :
  bigmac_merge h c = Ok bm -> strictly_ascending (rows bm).
Proof.
  intros H. pose proof (bigmac_merge_NoDup _ _ _ H) as Hnd.
  apply ascending_NoDup_strict; [|exact Hnd].
  unfold bigmac_merge in H. destruct (pd_concat h c); [|discriminate H].
  injection H as <-. apply sort_rows_ascending.
Qed.

(** X1: merging is idempotent.  A merged frame, merged again as the only
    segment present (on either side), comes back unchanged. *)
Theorem bigmac_merge_idempotent (h c : option DataFrame) (out : DataFrame) :
  bigmac_merge h c = Ok out ->
  bigmac_merge (Some out) None = Ok out
  /\ bigmac_merge None (Some out) = Ok out.
Proof.
  intros H.
  pose proof (bigmac_merge_NoDup _ _ _ H) as Hnd.
  pose proof (bigmac_merge_ascending _ _ _ H) as Hasc.
  assert (sort_values_date (drop_duplicates_date out) = out) as E.
  { unfold sort_values_date, drop_duplicates_date. cbn [columns rows].
    rewrite drop_dups_from_NoDup_id by (auto; intros r _ []).
    rewrite sort_rows_ascending_id
      by now apply strictly_ascending_ascending.
    now destruct out. }
  unfold bigmac_merge, pd_concat. rewrite E. split; reflexivity.
Qed.

Lemma bigmac_merge_idempotent_witness :
  bigmac_merge (Some merged_sample) None = Ok merged_sample
  /\ bigmac_merge None (Some merged_sample) = Ok merged_sample.
Proof.
  apply (bigmac_merge_idempotent (Some historical_sample)
                                 (Some current_sample) merged_sample).
  vm_compute. reflexivity.
Defined.

(** X2: on segments without a common date the merge does not depend on
    the order in which the segments are listed. *)
Theorem bigmac_merge_comm_disjoint (a b : DataFrame) :
  wf_frame a -> wf_frame b -> columns a = columns b -> NoDup (columns a) ->
  no_common_date a b ->
  bigmac_merge (Some a) (Some b) = bigmac_merge (Some b) (Some a).
Proof.
  intros Ha Hb Hcols Hnd Hdis.
  unfold bigmac_merge, pd_concat.
  rewrite (concat_same_columns a b Ha Hb Hcols Hnd).
  rewrite (concat_same_columns b a Hb Ha (eq_sym Hcols))
    by (rewrite <- Hcols; exact Hnd).
  unfold sort_values_date, drop_duplicates_date. cbn [columns rows].
  rewrite Hcols. do 2 f_equal.
  apply sort_rows_unique; [|apply drop_dups_from_NoDup].
  rewrite !drop_dups_from_app, !app_nil_r.
  rewrite <- (app_nil_r (rev (map date (drop_dups_from [] (rows a))))).
  rewrite <- (app_nil_r (rev (map date (drop_dups_from [] (rows b))))).
  rewrite !drop_dups_from_unseen.
  - apply Permutation_app_comm.
  - intros r Hr Hin. apply in_rev, in_map_iff in Hin as [r' [Hd Hin]].
    apply drop_dups_from_In in Hin as [Hin _].
    exact (Hdis r r' Hr Hin (eq_sym Hd)).
  - intros r Hr Hin. apply in_rev, in_map_iff in Hin as [r' [Hd Hin]].
    apply drop_dups_from_In in Hin as [Hin _].
    exact (Hdis r' r Hin Hr Hd).
Qed.

Lemma bigmac_merge_comm_disjoint_witness :
  bigmac_merge (Some early_segment) (Some late_segment)
  = bigmac_merge (Some late_segment) (Some early_segment).
Proof.
  apply (bigmac_merge_comm_disjoint early_segment late_segment).
  - repeat constructor.
  - repeat constructor.
  - reflexivity.
  - repeat constructor. simpl. tauto.
  - intros ra rb Ha Hb E. simpl in Ha, Hb.
    destruct Ha as [<-|[<-|[]]], Hb as [<-|[<-|[]]]; discriminate E.
Defined.

(* ================================================================= *)
(** ** What rebasing does to a frame *)

(** X3: [rebase] raises [KeyError] when the source column is absent and
    [IndexError] when the column is there but the frame has no row;
    otherwise it succeeds, keeps every point and every other column, and
    the assigned column holds [value / first value * 100] for every point. *)
Theorem rebase_behaviour (src dst : string) (df : DataFrame) :
  wf_frame df ->
  match index_of src (columns df), rows df with
  | None, _ => rebase src dst df = Raise (KeyError src)
  | Some _, [] => rebase src dst df = Raise IndexError
  | Some i, r0 :: _ =>
      exists out,
        rebase src dst df = Ok out
        /\ wf_frame out
        /\ map date (rows out) = map date (rows df)
        /\ get_col dst out
           = Ok (map (fun r => (cell i r / cell i r0 * 100)%float) (rows df))
        /\ (forall n, n <> dst -> get_col n out = get_col n df)
  end.
Proof.
  intros Hwf.
  destruct (index_of src (columns df)) as [i|] eqn:Hi.
  - destruct (rows df) as [|r0 t] eqn:Hrows.
    + rewrite rebase_empty by assumption. now rewrite Hi.
    + set (g := fun r => (cell i r / cell i r0 * 100)%float).
      exists (set_col dst (map g (rows df)) df).
      split; [|split; [|split; [|split]]].
      * unfold rebase, get_col. rewrite Hi. cbn [bind]. rewrite Hrows.
        cbn [map iloc0 bind]. do 2 f_equal. unfold g. cbn [map]. f_equal.
        now rewrite map_map.
      * now apply set_col_wf.
      * rewrite set_col_dates. now rewrite Hrows.
      * rewrite set_col_get_same by assumption. now rewrite Hrows.
      * intros n Hn. now apply set_col_get_other.
  - unfold rebase, get_col. rewrite Hi. reflexivity.
Qed.

Lemma rebase_behaviour_witness :
  exists out,
    rebase "bigmac_per_10k" "bigmac_pct" affordability_sample = Ok out
    /\ wf_frame out
    /\ map date (rows out) = map date (rows affordability_sample)
    /\ get_col "bigmac_pct" out
       = Ok (map (fun r => (cell 0 r
                            / cell 0 (mkRow (mkDate 1995 4 1) [4000%float])
                            * 100)%float)
                 (rows affordability_sample))
    /\ (forall n, n <> "bigmac_pct" ->
                  get_col n out = get_col n affordability_sample).
Proof.
  apply (rebase_behaviour "bigmac_per_10k" "bigmac_pct" affordability_sample).
  repeat constructor.
Defined.

(* ================================================================= *)
(** ** Shape of an annual frame *)

Lemma year_end_ltb (a b : Z) :
  (a < b)%Z -> date_ltb (year_end a) (year_end b) = true.
Proof.
  intros H. unfold date_ltb, date_compare, year_end. cbn [year month day].
  now rewrite (proj2 (Z.compare_lt_iff a b) H).
Qed.

Lemma annual_rows_strict agg ncols sorted (y0 : Z) (n start : nat) :
  strictly_ascending
    (map (fun y =>
            mkRow (year_end y)
                  (map (fun i => agg (map (cell i) (year_rows y sorted)))
                       (seq 0 ncols)))
         (map (fun k => (y0 + Z.of_nat k)%Z) (seq start n))).
Proof.
  unfold strictly_ascending.
  revert start; induction n as [|n IH]; intros start; cbn [seq map];
    constructor; [apply IH|].
  rewrite Forall_forall. intros r Hr.
  apply in_map_iff in Hr as [y [<- Hy]].
  apply in_map_iff in Hy as [k [<- Hk]]. apply in_seq in Hk.
  cbn [date]. apply year_end_ltb. lia.
Qed.

Lemma year_span_le (rs : list Row) (ymin ymax : Z) :
  year_span rs ymin ymax -> (ymin <= ymax)%Z.
Proof. intros ([r [Hr <-]] & _ & Hb). apply (Hb r Hr). Qed.

(** X4: an annual frame keeps the columns of its input, every row has one
    cell per column, the rows are in strictly ascending date order, and it
    is empty exactly when the input is. *)
Theorem resample_YE_shape (agg : list float -> float) (df : DataFrame) :
  columns (resample_YE agg df) = columns df
  /\ wf_frame (resample_YE agg df)
  /\ strictly_ascending (rows (resample_YE agg df))
  /\ (rows (resample_YE agg df) = [] <-> rows df = []).
Proof.
  assert (columns (resample_YE agg df) = columns df) as Hcols
      by (unfold resample_YE; destruct (sort_rows (rows df)); reflexivity).
  split; [exact Hcols|].
  destruct (rows df) as [|r t] eqn:E.
  - unfold wf_frame. rewrite (resample_YE_empty agg df E).
    repeat split; auto; constructor.
  - destruct (resample_YE_rows agg df) as (ymin & ymax & Hspan & Hrows);
      [rewrite E; discriminate|].
    unfold wf_frame. rewrite Hcols, Hrows. unfold annual_rows.
    split; [|split].
    + apply Forall_map, Forall_forall. intros y _. cbn [cells].
      now rewrite length_map, length_seq.
    + apply annual_rows_strict.
    + split; [|discriminate]. intros Hnil. exfalso.
      apply map_eq_nil in Hnil.
      assert (In ymin (year_range ymin ymax)) as Hin
          by (apply year_range_In; pose proof (year_span_le _ _ _ Hspan); lia).
      rewrite Hnil in Hin. destruct Hin.
Qed.

(** X5: when no two rows share a date, the annual frame does not depend on
    the order of the rows in the input. *)
Theorem resample_YE_row_order (agg : list float -> float) (df df' : DataFrame) :
  columns df = columns df' ->
  Permutation (rows df) (rows df') ->
  NoDup (map date (rows df)) ->
  resample_YE agg df = resample_YE agg df'.
Proof.
  intros Hcols Hperm Hnd. unfold resample_YE.
  rewrite (sort_rows_unique _ _ Hperm Hnd), Hcols. reflexivity.
Qed.

Lemma resample_YE_row_order_witness :
  resample_YE group_mean gap_frame = resample_YE group_mean gap_frame_reversed.
Proof.
  apply (resample_YE_row_order group_mean gap_frame gap_frame_reversed).
  - reflexivity.
  - apply perm_swap.
  - repeat constructor; simpl; intuition discriminate.
Defined.

(* ================================================================= *)
(** ** Missing values under the last policy *)

Lemma group_last_fold_nan (vals : list float) (a : float) :
  is_nan (fold_left (fun acc v => if is_nan v then acc else v) vals a)
  = is_nan a && forallb is_nan vals.
Proof.
  revert a; induction vals as [|v vs IH]; intros a; cbn [fold_left forallb].
  - now rewrite andb_true_r.
  - rewrite IH. destruct (is_nan v) eqn:E; [reflexivity|].
    rewrite E. cbn. now rewrite andb_false_r.
Qed.

Lemma group_last_nan (vals : list float) :
  is_nan (group_last vals) = forallb is_nan vals.
Proof. unfold group_last. rewrite group_last_fold_nan. reflexivity. Qed.

(** X6: under the last policy the annual value of a column is missing
    exactly when every observation of that year is missing in that
    column. *)
Theorem annual_last_missing_iff (df : DataFrame) (o : Row) (i : nat) :
  In o (rows (resample_YE group_last df)) ->
  (i < List.length (columns df))%nat ->
  is_nan (cell i o) = true
  <-> (forall r, In r (rows df) -> year (date r) = year (date o) ->
                 is_nan (cell i r) = true).
Proof.
  intros Ho Hi.
  assert (rows df <> []) as Hne.
  { intros E. rewrite (resample_YE_empty group_last df E) in Ho. destruct Ho. }
  destruct (resample_YE_rows group_last df Hne) as (ymin & ymax & _ & Hrows).
  rewrite Hrows in Ho. unfold annual_rows in Ho.
  apply in_map_iff in Ho as [y [<- _]]. cbn [date year_end year].
  unfold cell at 1. cbn [cells].
  rewrite nth_map_seq by exact Hi.
  rewrite group_last_nan, forallb_forall.
  split.
  - intros H r Hr Hy. apply H. apply in_map.
    apply filter_In. split; [now apply sort_rows_In | now apply Z.eqb_eq].
  - intros H v Hv. apply in_map_iff in Hv as [r [<- Hr]].
    apply filter_In in Hr as [Hr Hy]. apply H.
    + now apply sort_rows_In.
    + now apply Z.eqb_eq.
Qed.

Lemma annual_last_missing_iff_witness :
  let o := mkRow (mkDate 1996 12 31) [nan] in
  is_nan (cell 0 o) = true
  <-> (forall r, In r (rows msp_missing_last) ->
                 year (date r) = year (date o) ->
                 is_nan (cell 0 r) = true).
Proof.
  apply (annual_last_missing_iff msp_missing_last
           (mkRow (mkDate 1996 12 31) [nan]) 0).
  - vm_compute. tauto.
  - simpl. lia.
Defined.

(* ================================================================= *)
(** ** The Big Mac series through the pipeline *)

Lemma strictly_ascending_map_date (l : list Row) :
  strictly_ascending l
  <-> StronglySorted (fun a b => date_ltb a b = true) (map date l).
Proof.
  unfold strictly_ascending. induction l as [|x xs IH]; cbn [map].
  - split; constructor.
  - split; intros H; inversion H as [|? ? Hs Hall]; subst;
      (constructor; [now apply IH|]).
    + now apply Forall_map.
    + now apply Forall_map in Hall.
Qed.

Lemma strictly_ascending_same_dates (l l' : list Row) :
  map date l = map date l' -> strictly_ascending l -> strictly_ascending l'.
Proof.
  intros E. rewrite !strictly_ascending_map_date. now rewrite E.
Qed.

Lemma strictly_ascending_filter (keep : Row -> bool) (l : list Row) :
  strictly_ascending l -> strictly_ascending (filter keep l).
Proof.
  unfold strictly_ascending.
  induction 1 as [|x xs Hxs IH Hall]; cbn [filter]; [constructor|].
  destruct (keep x); [|exact IH].
  constructor; [exact IH|].
  rewrite Forall_forall in *. intros a Ha. apply filter_In in Ha.
  apply Hall. tauto.
Qed.

(** The frame stored under [summary['bigmac']]: the rows of [bigmac], each
    with its date, minus those holding a missing value. *)
Lemma summary_bigmac_rows (st st' : State) (df : DataFrame) :
  build_summary st = Ok st' ->
  dict_get "bigmac" (summary st') = Some df ->
  exists rs,
    map date rs = map date (rows (bigmac st))
    /\ rows df = filter (fun r => negb (has_na r)) rs
    /\ columns df = ["price"; "bigmac_per_10k"].
Proof.
  intros H Hk.
  destruct (build_summary_ok _ _ H)
    as (bm & bsel & gsel & msel & csel & Hbm & Hbsel & _ & _ & _ & _
        & Hsum & _).
  rewrite Hsum, !dict_get_set_opt_neq, dict_get_set_eq in Hk
    by (intros E; discriminate E).
  injection Hk as <-.
  unfold add_ratio in Hbm. inv_bind Hbm. injection Hbm as <-.
  unfold get_col in E.
  destruct (index_of "price" (columns (bigmac st))); [|discriminate E].
  injection E as <-. rewrite map_map in Hbsel.
  match type of Hbsel with
  | select _ (set_col ?n (map ?g _) ?f) = _ =>
      pose proof (set_col_dates n g f) as Hd;
      set (bm' := set_col n (map g (rows f)) f) in *; clearbody bm'
  end.
  unfold select in Hbsel. inv_bind Hbsel. injection Hbsel as <-.
  eexists. split; [|split; reflexivity].
  cbn [rows]. rewrite map_map. cbn [date].
  change (fun x : Row => date x) with date. exact Hd.
Qed.

Lemma summary_bigmac_ascending (h c : option DataFrame) (st st' : State)
      (df : DataFrame) :
  bigmac_merge h c = Ok (bigmac st) ->
  build_summary st = Ok st' ->
  dict_get "bigmac" (summary st') = Some df ->
  strictly_ascending (rows df).
Proof.
  intros Hm H Hk.
  destruct (summary_bigmac_rows _ _ _ H Hk) as (rs & Hd & Hrows & _).
  rewrite Hrows. apply strictly_ascending_filter.
  apply (strictly_ascending_same_dates (rows (bigmac st))); [now symmetry|].
  eapply bigmac_merge_ascending; eassumption.
Qed.

(** X7: the Big Mac frame stored in [summary] is in strictly ascending
    date order, holds no missing value, only carries dates of the merged
    frame, and has the columns [price] and [bigmac_per_10k]. *)
Theorem summary_bigmac_invariant (h c : option DataFrame) (st st' : State)
        (df : DataFrame) :
  bigmac_merge h c = Ok (bigmac st) ->
  build_summary st = Ok st' ->
  dict_get "bigmac" (summary st') = Some df ->
  strictly_ascending (rows df)
  /\ (forall r, In r (rows df) -> has_na r = false)
  /\ (forall d, In d (map date (rows df)) -> In d (map date (rows (bigmac st))))
  /\ columns df = ["price"; "bigmac_per_10k"].
Proof.
  intros Hm H Hk.
  destruct (summary_bigmac_rows _ _ _ H Hk) as (rs & Hd & Hrows & Hcols).
  split; [eapply summary_bigmac_ascending; eassumption|].
  rewrite Hrows. split; [|split].
  - intros r Hr. apply filter_In in Hr as [_ Hr].
    now apply negb_true_iff in Hr.
  - intros d Hin. rewrite <- Hd.
    apply in_map_iff in Hin as [r [<- Hr]]. apply filter_In in Hr as [Hr _].
    now apply in_map.
  - exact Hcols.
Qed.

Lemma summary_bigmac_invariant_witness :
  strictly_ascending (rows sample_bigmac_summary)
  /\ (forall r, In r (rows sample_bigmac_summary) -> has_na r = false)
  /\ (forall d, In d (map date (rows sample_bigmac_summary)) ->
                In d (map date (rows (bigmac sample_state))))
  /\ columns sample_bigmac_summary = ["price"; "bigmac_per_10k"].
Proof.
  apply (summary_bigmac_invariant (Some historical_sample)
           (Some current_sample) sample_state sample_summarised
           sample_bigmac_summary).
  - vm_compute. reflexivity.
  - vm_compute. reflexivity.
  - vm_compute. reflexivity.
Defined.

(** X8: the Big Mac chart is rebased against the earliest observation on
    or after the cutoff that survived the transform, and it shows no point
    before the cutoff. *)
Theorem bigmac_chart_baseline_is_earliest (cutoff : Timestamp)
        (h c : option DataFrame) (st st1 st2 : State) (df : DataFrame) :
  bigmac_merge h c = Ok (bigmac st) ->
  build_summary st = Ok st1 ->
  dict_get "bigmac" (summary st1) = Some df ->
  plot_bigmac cutoff st1 = Ok st2 ->
  exists fig r0,
    dict_get "bigmac_cost_percentage_1995.png" (figures st2) = Some fig
    /\ hd_error (rows fig) = Some r0
    /\ In (date r0) (map date (rows df))
    /\ date_leb cutoff (date r0) = true
    /\ (forall r, In r (rows df) -> date_leb cutoff (date r) = true ->
                  date_leb (date r0) (date r) = true)
    /\ (forall r, In r (rows fig) -> date_leb cutoff (date r) = true).
Proof.
  intros Hm Hs Hk Hp.
  pose proof (summary_bigmac_ascending _ _ _ _ _ Hm Hs Hk) as Hasc.
  apply strictly_ascending_ascending in Hasc.
  destruct (plot_bigmac_baseline _ _ _ _ Hk Hp) as (i & r0 & t & _ & Hrows & Hfig).
  pose proof (ascending_filter (fun r => date_leb cutoff (date r)) _ Hasc)
    as Hfasc.
  change (filter (fun r => date_leb cutoff (date r)) (rows df))
    with (rows (filter_date_ge cutoff df)) in Hfasc.
  assert (forall r, In r (rows (filter_date_ge cutoff df)) <->
                    In r (rows df) /\ date_leb cutoff (date r) = true) as Hin
      by (intros r; apply filter_In).
  eexists. eexists. split; [exact Hfig|].
  rewrite set_col_map, Hrows. cbn [map hd_error date].
  split; [reflexivity|]. cbn [date].
  assert (In r0 (rows (filter_date_ge cutoff df))) as H0
      by (rewrite Hrows; now left).
  apply Hin in H0 as [H0 Hc0].
  split; [now apply in_map|]. split; [exact Hc0|]. split.
  - intros r Hr Hc. rewrite Hrows in Hfasc.
    apply (ascending_hd_min r0 t Hfasc). rewrite <- Hrows. apply Hin. tauto.
  - intros r [<-|Hr]; [exact Hc0|].
    apply in_map_iff in Hr as [r' [<- Hr']]. cbn [date].
    apply Hin. rewrite Hrows. now right.
Qed.

Lemma bigmac_chart_baseline_is_earliest_witness :
  let st2 := ok_or sample_summarised (plot_bigmac CUTOFF sample_summarised) in
  exists fig r0,
    dict_get "bigmac_cost_percentage_1995.png" (figures st2) = Some fig
    /\ hd_error (rows fig) = Some r0
    /\ In (date r0) (map date (rows sample_bigmac_summary))
    /\ date_leb CUTOFF (date r0) = true
    /\ (forall r, In r (rows sample_bigmac_summary) ->
                  date_leb CUTOFF (date r) = true ->
                  date_leb (date r0) (date r) = true)
    /\ (forall r, In r (rows fig) -> date_leb CUTOFF (date r) = true).
Proof.
  apply (bigmac_chart_baseline_is_earliest CUTOFF (Some historical_sample)
           (Some current_sample) sample_state sample_summarised
           (ok_or sample_summarised (plot_bigmac CUTOFF sample_summarised))
           sample_bigmac_summary).
  - vm_compute. reflexivity.
  - vm_compute. reflexivity.
  - vm_compute. reflexivity.
  - vm_compute. reflexivity.
Defined.

(* ================================================================= *)
(** ** What a run stores, series by series *)

Lemma keys_set_opt_fresh (k : string) (o : option DataFrame) (d : dict) :
  ~ In k (keys d) ->
  keys (set_opt k o d) = keys d ++ (if present o then [k] else []).
Proof.
  intros H. destruct o; cbn [set_opt present].
  - now apply keys_dict_set_fresh.
  - now rewrite app_nil_r.
Qed.

(** X9: starting from the empty dictionary, lines 127-140 store one entry
    per series that was loaded, [bigmac] first and always, then [gasoline],
    [median_home] and [cpi]; a series whose load failed is left out. *)
Theorem summary_lists_loaded_series (st st' : State) :
  summary st = [] ->
  build_summary st = Ok st' ->
  keys (summary st') = summary_entries st.
Proof.
  intros Hempty H.
  destruct (build_summary_ok _ _ H)
    as (bm & bsel & gsel & msel & csel & _ & _ & _ & Hg & Hm & Hc & Hsum & _).
  apply series_summary_present in Hg, Hm, Hc.
  rewrite Hsum, Hempty. unfold summary_entries.
  rewrite <- Hg, <- Hm, <- Hc.
  destruct gsel, msel, csel; reflexivity.
Qed.

Lemma summary_lists_loaded_series_witness :
  keys (summary sample_summarised) = summary_entries sample_state.
Proof.
  apply (summary_lists_loaded_series sample_state sample_summarised).
  - reflexivity.
  - vm_compute. reflexivity.
Defined.

Lemma plot_bigmac_keys cutoff (st st' : State) :
  plot_bigmac cutoff st = Ok st' ->
  ~ In "bigmac_cost_percentage_1995.png" (keys (figures st)) ->
  keys (figures st')
  = keys (figures st)
    ++ (if present (dict_get "bigmac" (summary st))
        then ["bigmac_cost_percentage_1995.png"] else []).
Proof.
  unfold plot_bigmac. destruct (dict_get "bigmac" (summary st)).
  - intros H Hfresh. inv_bind H. injection H as <-. cbn.
    now apply keys_dict_set_fresh.
  - intros [= <-] _. now rewrite app_nil_r.
Qed.

Lemma plot_gasoline_keys cutoff (st st' : State) :
  plot_gasoline cutoff st = Ok st' ->
  ~ In "gas_gallons_cost_percentage_1995.png" (keys (figures st)) ->
  keys (figures st')
  = keys (figures st)
    ++ (if present (dict_get "gasoline" (summary st))
        then ["gas_gallons_cost_percentage_1995.png"] else []).
Proof.
  unfold plot_gasoline. destruct (dict_get "gasoline" (summary st)).
  - intros H Hfresh. inv_bind H. injection H as <-. cbn.
    now apply keys_dict_set_fresh.
  - intros [= <-] _. now rewrite app_nil_r.
Qed.

Lemma plot_median_home_keys cutoff (st st' : State) :
  plot_median_home cutoff st = Ok st' ->
  ~ In "homes_purchased_with_median_salary_percentage_1995.png"
       (keys (figures st)) ->
  keys (figures st')
  = keys (figures st)
    ++ (if present (dict_get "median_home" (summary st))
        then ["homes_purchased_with_median_salary_percentage_1995.png"]
        else []).
Proof.
  unfold plot_median_home. destruct (dict_get "median_home" (summary st)).
  - intros H Hfresh. inv_bind H. injection H as <-. cbn.
    now apply keys_dict_set_fresh.
  - intros [= <-] _. now rewrite app_nil_r.
Qed.

Lemma plot_cpi_keys cutoff (st st' : State) :
  plot_cpi cutoff st = Ok st' ->
  ~ In "inverted_cpi_percentage_1995.png" (keys (figures st)) ->
  keys (figures st')
  = keys (figures st)
    ++ (if present (dict_get "cpi" (summary st))
        then ["inverted_cpi_percentage_1995.png"] else []).
Proof.
  unfold plot_cpi. destruct (dict_get "cpi" (summary st)).
  - destruct (cpi st); [|discriminate].
    intros H Hfresh. inv_bind H. inv_bind H. injection H as <-. cbn.
    now apply keys_dict_set_fresh.
  - intros [= <-] _. now rewrite app_nil_r.
Qed.

Lemma combine_series_figures cutoff key label src agg (st st' : State) :
  combine_series cutoff key label src agg st = Ok st' ->
  figures st' = figures st.
Proof.
  unfold combine_series. destruct (dict_get key (summary st)).
  - intros H. inv_bind H. injection H as <-. reflexivity.
  - intros [= <-]. reflexivity.
Qed.

Lemma build_combined_figures cutoff (st st' : State) :
  build_combined cutoff st = Ok st' ->
  figures st' = figures st /\ summary st' = summary st.
Proof.
  unfold build_combined. intros H.
  inv_bind H. inv_bind H. inv_bind H.
  rewrite (combine_series_figures _ _ _ _ _ _ _ H),
    (combine_series_figures _ _ _ _ _ _ _ E1),
    (combine_series_figures _ _ _ _ _ _ _ E0),
    (combine_series_figures _ _ _ _ _ _ _ E).
  rewrite (combine_series_summary _ _ _ _ _ _ _ H),
    (combine_series_summary _ _ _ _ _ _ _ E1),
    (combine_series_summary _ _ _ _ _ _ _ E0),
    (combine_series_summary _ _ _ _ _ _ _ E).
  split; reflexivity.
Qed.

(** X10: a run that completes has saved one chart per loaded series, in the
    order Big Mac, gasoline, median home, CPI, and nothing for a series
    that was not loaded. *)
Theorem run_saves_one_chart_per_series (cutoff : Timestamp) (inp : Loaded)
        (st : State) :
  run cutoff inp = Ok st ->
  keys (figures st) = chart_files inp.
Proof.
  unfold run. intros H.
  inv_bind H. rename a into bm.
  inv_bind H. rename a into st1.
  inv_bind H. rename a into st2.
  inv_bind H. rename a into st3.
  inv_bind H. rename a into st4.
  inv_bind H. rename a into st5.
  assert (Hp := fun H0 => summary_presence _ _ H0 E0).
  destruct (Hp eq_refl) as (Pb & Pg & Pm & Pc). clear Hp.
  cbn [gasoline msp cpi] in Pg, Pm, Pc.
  pose proof (build_summary_ok _ _ E0) as (_ & _ & _ & _ & _ & _ & _ & _ & _
                                           & _ & _ & _ & Hf0 & _).
  cbn [figures] in Hf0.
  pose proof (plot_bigmac_summary _ _ _ E1) as S2.
  pose proof (plot_gasoline_summary _ _ _ E2) as S3.
  pose proof (plot_median_home_summary _ _ _ E3) as S4.
  apply build_combined_figures in H as [-> _].
  apply plot_bigmac_keys in E1; [|rewrite Hf0; simpl; tauto].
  rewrite Hf0, Pb in E1. cbn [keys map app] in E1.
  apply plot_gasoline_keys in E2;
    [|rewrite E1; simpl; intuition discriminate].
  rewrite E1, S2, Pg in E2.
  apply plot_median_home_keys in E3;
    [|rewrite E2; destruct (ld_gasoline inp); simpl; intuition discriminate].
  rewrite E2, S3, S2, Pm in E3.
  apply plot_cpi_keys in E4;
    [|rewrite E3; destruct (ld_gasoline inp), (ld_msp inp); simpl;
      intuition discriminate].
  rewrite E4, E3, S4, S3, S2, Pc. unfold chart_files.
  destruct (ld_gasoline inp), (ld_msp inp), (ld_cpi inp); reflexivity.
Qed.

Lemma run_saves_one_chart_per_series_witness :
  keys (figures (ok_or sample_state (run CUTOFF sample_loaded)))
  = chart_files sample_loaded.
Proof.
  apply (run_saves_one_chart_per_series CUTOFF sample_loaded
           (ok_or sample_state (run CUTOFF sample_loaded))).
  vm_compute. reflexivity.
Defined.

(* ================================================================= *)
(** ** The combined chart *)

Lemma nth_error_skipn {A : Type} (l : list A) (i : nat) (c : A) :
  nth_error l i = Some c -> skipn i l = c :: skipn (S i) l.
Proof.
  revert i; induction l as [|x xs IH]; intros [|i] H; try discriminate.
  - injection H as ->. reflexivity.
  - cbn [nth_error] in H. apply IH in H. exact H.
Qed.

Lemma plot_lines_ok (d : dict) (i : nat) :
  all_have_pct d -> (i + List.length d <= List.length colors)%nat ->
  exists ls,
    plot_lines i d = Ok ls
    /\ map line_label ls = keys d
    /\ map line_color ls = firstn (List.length d) (skipn i colors)
    /\ map line_x ls = map (fun kv => map date (rows (snd kv))) d
    /\ map (fun l => Ok (line_y l)) ls
       = map (fun kv => get_col "pct" (snd kv)) d.
Proof.
  unfold all_have_pct. intros Hall; revert i.
  induction Hall as [|[label df] rest [j Hj] Hrest IH]; intros i Hlen.
  - exists []. repeat split.
  - cbn [List.length] in Hlen. cbn [snd] in Hj.
    destruct (nth_error colors i) as [c|] eqn:Hc;
      [|apply nth_error_None in Hc; lia].
    destruct (IH (S i)) as (ls & Hls & Hlab & Hcol & Hx & Hy); [lia|].
    exists (mkLine label c (map date (rows df)) (map (cell j) (rows df)) :: ls).
    cbn [plot_lines snd]. unfold get_col. rewrite Hj. cbn [bind].
    rewrite Hc. cbn [bind]. rewrite Hls. cbn [bind].
    split; [reflexivity|]. cbn [map line_label line_color line_x line_y keys fst snd].
    rewrite (nth_error_skipn _ _ _ Hc). cbn [List.length firstn].
    unfold keys in Hlab. rewrite Hlab, Hcol, Hx, Hy, Hj.
    repeat split.
Qed.

Lemma plot_lines_too_many (d : dict) (i : nat) :
  all_have_pct d -> d <> [] ->
  (List.length colors < i + List.length d)%nat ->
  plot_lines i d = Raise IndexError.
Proof.
  unfold all_have_pct. intros Hall; revert i.
  induction Hall as [|[label df] rest [j Hj] Hrest IH]; intros i Hne Hlen;
    [congruence|].
  cbn [List.length] in Hlen. cbn [snd] in Hj.
  cbn [plot_lines snd]. unfold get_col. rewrite Hj. cbn [bind].
  destruct (nth_error colors i) as [c|] eqn:Hc; [|reflexivity].
  cbn [bind].
  assert (i < List.length colors)%nat as Hi
      by (apply nth_error_Some; congruence).
  rewrite IH; [reflexivity| |lia].
  intros ->. cbn [List.length] in Hlen. lia.
Qed.

(** X11: the plotting loop gives the series the colours navy, blue,
    lightblue, red by position, one line per entry of [combined_data] with
    its dates and its [pct] column, as long as there are at most four
    entries; with more entries it raises [IndexError]. *)
Theorem plot_lines_colours (d : dict) :
  all_have_pct d ->
  ((List.length d <= 4)%nat ->
   exists ls,
     plot_lines 0 d = Ok ls
     /\ map line_label ls = keys d
     /\ map line_color ls = firstn (List.length d) colors
     /\ map line_x ls = map (fun kv => map date (rows (snd kv))) d
     /\ map (fun l => Ok (line_y l)) ls
        = map (fun kv => get_col "pct" (snd kv)) d)
  /\ ((4 < List.length d)%nat -> plot_lines 0 d = Raise IndexError).
Proof.
  intros Hall. split.
  - intros Hlen. apply (plot_lines_ok d 0 Hall). exact Hlen.
  - intros Hlen. apply plot_lines_too_many; [exact Hall| |exact Hlen].
    intros ->. cbn [List.length] in Hlen. lia.
Qed.

Lemma plot_lines_colours_witness :
  plot_lines 0 five_series = Raise IndexError.
Proof.
  refine (proj2 (plot_lines_colours five_series _) _).
  - repeat constructor; exists 0%nat; reflexivity.
  - simpl. lia.
Defined.

Lemma dict_set_all (P : string * DataFrame -> Prop) (k : string)
      (v : DataFrame) (d : dict) :
  (forall k', P (k', v)) -> Forall P d -> Forall P (dict_set k v d).
Proof.
  intros Hv. induction 1 as [|[k0 v0] rest H0 Hrest IH]; cbn [dict_set].
  - repeat constructor. apply Hv.
  - destruct (String.eqb k k0); constructor; auto.
Qed.

Lemma dict_set_length (k : string) (v : DataFrame) (d : dict) :
  (List.length d <= List.length (dict_set k v d) <= S (List.length d))%nat.
Proof.
  induction d as [|[k0 v0] rest IH]; cbn [dict_set List.length]; [lia|].
  destruct (String.eqb k k0); cbn [List.length]; lia.
Qed.

Lemma dict_set_head (k : string) (v : DataFrame) (d : dict) :
  d <> [] -> hd_error (keys (dict_set k v d)) = hd_error (keys d).
Proof.
  destruct d as [|[k0 v0] rest]; [congruence|]. intros _.
  cbn [dict_set]. destruct (String.eqb_spec k k0) as [->|]; reflexivity.
Qed.

Lemma rebase_has_column (src dst : string) (df out : DataFrame) :
  rebase src dst df = Ok out -> has_column dst out.
Proof.
  intros H. destruct (rebase_ok _ _ _ _ H) as (i & r0 & t & _ & _ & ->).
  eexists. apply set_col_index.
Qed.

Lemma combine_series_first cutoff key label src agg (st st' : State) :
  present (dict_get key (summary st)) = true ->
  combined_data st = [] ->
  combine_series cutoff key label src agg st = Ok st' ->
  exists ann, combined_data st' = [(label, ann)] /\ has_column "pct" ann.
Proof.
  unfold combine_series. destruct (dict_get key (summary st)); [|discriminate].
  intros _ Hempty H. inv_bind H. injection H as <-.
  exists a. cbn. rewrite Hempty. split; [reflexivity|].
  eapply rebase_has_column; eassumption.
Qed.

Lemma combine_series_next cutoff key label src agg (st st' : State) :
  combine_series cutoff key label src agg st = Ok st' ->
  all_have_pct (combined_data st) -> combined_data st <> [] ->
  all_have_pct (combined_data st')
  /\ (List.length (combined_data st') <= S (List.length (combined_data st)))%nat
  /\ hd_error (keys (combined_data st')) = hd_error (keys (combined_data st))
  /\ combined_data st' <> [].
Proof.
  unfold combine_series. destruct (dict_get key (summary st)).
  - intros H Hall Hne. inv_bind H. injection H as <-. cbn.
    split; [|split; [|split]].
    + apply dict_set_all; [|exact Hall].
      intros k'. eapply rebase_has_column; eassumption.
    + apply dict_set_length.
    + now apply dict_set_head.
    + intros E0. pose proof (dict_set_length label a (combined_data st)) as L.
      rewrite E0 in L. destruct (combined_data st); [congruence|].
      cbn [List.length] in L. lia.
  - intros [= <-] Hall Hne. repeat split; auto.
Qed.

Lemma run_combined_entries (cutoff : Timestamp) (inp : Loaded) (st : State) :
  run cutoff inp = Ok st ->
  all_have_pct (combined_data st)
  /\ (List.length (combined_data st) <= 4)%nat
  /\ hd_error (keys (combined_data st)) = Some "Big Mac".
Proof.
  unfold run. intros H.
  inv_bind H. rename a into bm.
  inv_bind H. rename a into st1.
  inv_bind H. rename a into st2.
  inv_bind H. rename a into st3.
  inv_bind H. rename a into st4.
  inv_bind H. rename a into st5.
  assert (Hp := fun H0 => summary_presence _ _ H0 E0).
  destruct (Hp eq_refl) as (Pb & _). clear Hp.
  pose proof (build_summary_ok _ _ E0) as (_ & _ & _ & _ & _ & _ & _ & _ & _
                                           & _ & _ & _ & _ & Hcd0).
  cbn [combined_data] in Hcd0.
  assert (summary st5 = summary st1) as Hs5.
  { rewrite (plot_cpi_summary _ _ _ E4), (plot_median_home_summary _ _ _ E3),
      (plot_gasoline_summary _ _ _ E2). now apply plot_bigmac_summary in E1. }
  assert (combined_data st5 = []) as Hc5.
  { rewrite (plot_cpi_combined _ _ _ E4), (plot_median_home_combined _ _ _ E3),
      (plot_gasoline_combined _ _ _ E2), (plot_bigmac_combined _ _ _ E1).
    exact Hcd0. }
  unfold build_combined in H.
  inv_bind H. rename a into c1.
  inv_bind H. rename a into c2.
  inv_bind H. rename a into c3.
  apply combine_series_first in E5; [|now rewrite Hs5|exact Hc5].
  destruct E5 as (ann & Hc1 & Hann).
  assert (all_have_pct (combined_data c1)) as A1
      by (rewrite Hc1; repeat constructor; exact Hann).
  assert (combined_data c1 <> []) as N1 by (rewrite Hc1; discriminate).
  destruct (combine_series_next _ _ _ _ _ _ _ E6 A1 N1) as (A2 & L2 & H2 & N2).
  destruct (combine_series_next _ _ _ _ _ _ _ E7 A2 N2) as (A3 & L3 & H3 & N3).
  destruct (combine_series_next _ _ _ _ _ _ _ H A3 N3) as (A4 & L4 & H4 & N4).
  split; [exact A4|]. split.
  - rewrite Hc1 in L2. cbn [List.length] in L2. lia.
  - rewrite H4, H3, H2, Hc1. reflexivity.
Qed.

(** X12: whenever lines 120-248 complete, so does the combined chart: the
    script ends normally, the chart has one line per entry of
    [combined_data], coloured by position, and its first line is Big Mac
    in navy. *)
Theorem script_draws_combined_chart (inp : Loaded) (st : State) :
  main inp = Ok st ->
  exists ls,
    script inp = Ok (st, Some ls)
    /\ map line_label ls = keys (combined_data st)
    /\ map line_color ls = firstn (List.length (combined_data st)) colors
    /\ hd_error (map line_label ls) = Some "Big Mac"
    /\ hd_error (map line_color ls) = Some "navy".
Proof.
  intros H. unfold script. rewrite H. cbn [bind].
  destruct (run_combined_entries _ _ _ H) as (Hall & Hlen & Hhd).
  destruct (plot_lines_ok (combined_data st) 0 Hall Hlen)
    as (ls & Hls & Hlab & Hcol & _).
  exists ls. unfold plot_combined.
  destruct (combined_data st) as [|kv rest] eqn:E; [discriminate Hhd|].
  rewrite Hls. cbn [bind]. split; [reflexivity|].
  split; [exact Hlab|]. split; [exact Hcol|].
  split; [now rewrite Hlab|].
  rewrite Hcol. reflexivity.
Qed.

Lemma script_draws_combined_chart_witness :
  let st := ok_or sample_state (main sample_loaded) in
  exists ls,
    script sample_loaded = Ok (st, Some ls)
    /\ map line_label ls = keys (combined_data st)
    /\ map line_color ls = firstn (List.length (combined_data st)) colors
    /\ hd_error (map line_label ls) = Some "Big Mac"
    /\ hd_error (map line_color ls) = Some "navy".
Proof.
  apply (script_draws_combined_chart sample_loaded
           (ok_or sample_state (main sample_loaded))).
  vm_compute. reflexivity.
Defined.

(* ================================================================= *)
(** ** Charts and combined table of the annual series agree *)

Lemma resample_YE_columns (agg : list float -> float) (df : DataFrame) :
  columns (resample_YE agg df) = columns df.
Proof. unfold resample_YE. destruct (sort_rows (rows df)); reflexivity. Qed.

Lemma resample_YE_wf (agg : list float -> float) (df : DataFrame) :
  wf_frame (resample_YE agg df).
Proof.
  unfold wf_frame. rewrite resample_YE_columns.
  destruct (rows df) as [|r t] eqn:E.
  - rewrite (resample_YE_empty agg df E). constructor.
  - destruct (resample_YE_rows agg df) as (ymin & ymax & _ & ->);
      [rewrite E; discriminate|].
    apply Forall_map, Forall_forall. intros y _. cbn [cells].
    now rewrite length_map, length_seq.
Qed.

Lemma rebase_twice (src d1 d2 : string) (ann a1 a2 : DataFrame) :
  wf_frame ann -> src <> d1 -> src <> d2 ->
  rebase src d1 ann = Ok a1 -> rebase src d2 ann = Ok a2 ->
  map date (rows a1) = map date (rows a2)
  /\ get_col d1 a1 = get_col d2 a2
  /\ get_col src a1 = get_col src a2.
Proof.
  intros Hwf Hn1 Hn2 H1 H2.
  destruct (rebase_ok _ _ _ _ H1) as (i & r0 & t & Hi & Hrows & ->).
  destruct (rebase_ok _ _ _ _ H2) as (i' & r0' & t' & Hi' & Hrows' & ->).
  assert (i' = i) as -> by congruence.
  assert (r0' = r0) as -> by congruence.
  rewrite !set_col_dates, !set_col_get_same, !set_col_get_other by assumption.
  repeat split.
Qed.

Lemma plot_gasoline_stores cutoff (st st' : State) (df : DataFrame) :
  dict_get "gasoline" (summary st) = Some df ->
  plot_gasoline cutoff st = Ok st' ->
  exists fig,
    rebase "gallon_per_10k" "gallon_pct"
           (resample_YE group_mean (filter_date_ge cutoff df)) = Ok fig
    /\ dict_get "gas_gallons_cost_percentage_1995.png" (figures st') = Some fig.
Proof.
  intros Hk H. unfold plot_gasoline in H. rewrite Hk in H.
  inv_bind H. injection H as <-. exists a. split; [reflexivity|].
  cbn. apply dict_get_set_eq.
Qed.

Lemma plot_median_home_stores cutoff (st st' : State) (df : DataFrame) :
  dict_get "median_home" (summary st) = Some df ->
  plot_median_home cutoff st = Ok st' ->
  exists fig,
    rebase "homes_per_10k" "homes_pct"
           (resample_YE group_last (filter_date_ge cutoff df)) = Ok fig
    /\ dict_get "homes_purchased_with_median_salary_percentage_1995.png"
                (figures st') = Some fig.
Proof.
  intros Hk H. unfold plot_median_home in H. rewrite Hk in H.
  inv_bind H. injection H as <-. exists a. split; [reflexivity|].
  cbn. apply dict_get_set_eq.
Qed.

Lemma plot_median_home_keeps cutoff (st st' : State) (name : string) :
  name <> "homes_purchased_with_median_salary_percentage_1995.png" ->
  plot_median_home cutoff st = Ok st' ->
  dict_get name (figures st') = dict_get name (figures st).
Proof.
  intros Hne. unfold plot_median_home.
  destruct (dict_get "median_home" (summary st)).
  - intros H. inv_bind H. injection H as <-. cbn.
    now apply dict_get_set_neq.
  - intros [= <-]. reflexivity.
Qed.

Lemma plot_cpi_keeps cutoff (st st' : State) (name : string) :
  name <> "inverted_cpi_percentage_1995.png" ->
  plot_cpi cutoff st = Ok st' ->
  dict_get name (figures st') = dict_get name (figures st).
Proof.
  intros Hne. unfold plot_cpi. destruct (dict_get "cpi" (summary st)).
  - destruct (cpi st); [|discriminate].
    intros H. inv_bind H. inv_bind H. injection H as <-. cbn.
    now apply dict_get_set_neq.
  - intros [= <-]. reflexivity.
Qed.

Lemma combine_series_stores cutoff key label src agg (st st' : State)
      (df : DataFrame) :
  dict_get key (summary st) = Some df ->
  combine_series cutoff key label src agg st = Ok st' ->
  exists comb,
    rebase src "pct" (resample_YE agg (filter_date_ge cutoff df)) = Ok comb
    /\ dict_get label (combined_data st') = Some comb.
Proof.
  intros Hk H. unfold combine_series in H. rewrite Hk in H.
  inv_bind H. injection H as <-. exists a. split; [reflexivity|].
  cbn. apply dict_get_set_eq.
Qed.

Lemma combine_series_keeps cutoff key label src agg (st st' : State)
      (other : string) :
  other <> label ->
  combine_series cutoff key label src agg st = Ok st' ->
  dict_get other (combined_data st') = dict_get other (combined_data st).
Proof.
  intros Hne. unfold combine_series. destruct (dict_get key (summary st)).
  - intros H. inv_bind H. injection H as <-. cbn.
    now apply dict_get_set_neq.
  - intros [= <-]. reflexivity.
Qed.

(** X13: for gasoline and for the median home, the chart of the series and
    its entry in the combined table hold the same dates, the same annual
    values and the same percentages (the Big Mac series is the one for
    which they differ). *)
Theorem annual_chart_matches_combined (cutoff : Timestamp) (inp : Loaded)
        (st : State) :
  run cutoff inp = Ok st ->
  (forall df, dict_get "gasoline" (summary st) = Some df ->
     exists fig comb,
       dict_get "gas_gallons_cost_percentage_1995.png" (figures st) = Some fig
       /\ dict_get "Gasoline" (combined_data st) = Some comb
       /\ map date (rows fig) = map date (rows comb)
       /\ get_col "gallon_pct" fig = get_col "pct" comb
       /\ get_col "gallon_per_10k" fig = get_col "gallon_per_10k" comb)
  /\ (forall df, dict_get "median_home" (summary st) = Some df ->
        exists fig comb,
          dict_get "homes_purchased_with_median_salary_percentage_1995.png"
                   (figures st) = Some fig
          /\ dict_get "Median Home" (combined_data st) = Some comb
          /\ map date (rows fig) = map date (rows comb)
          /\ get_col "homes_pct" fig = get_col "pct" comb
          /\ get_col "homes_per_10k" fig = get_col "homes_per_10k" comb).
Proof.
  unfold run. intros H.
  inv_bind H. rename a into bm.
  inv_bind H. rename a into st1.
  inv_bind H. rename a into st2.
  inv_bind H. rename a into st3.
  inv_bind H. rename a into st4.
  inv_bind H. rename a into st5.
  pose proof (plot_bigmac_summary _ _ _ E1) as S2.
  pose proof (plot_gasoline_summary _ _ _ E2) as S3.
  pose proof (plot_median_home_summary _ _ _ E3) as S4.
  pose proof (plot_cpi_summary _ _ _ E4) as S5.
  pose proof (build_combined_figures _ _ _ H) as [Hfig Hsum].
  unfold build_combined in H.
  inv_bind H. rename a into c1.
  inv_bind H. rename a into c2.
  inv_bind H. rename a into c3.
  pose proof (combine_series_summary _ _ _ _ _ _ _ E5) as T1.
  pose proof (combine_series_summary _ _ _ _ _ _ _ E6) as T2.
  split.
  - intros df Hk. rewrite Hsum in Hk.
    assert (dict_get "gasoline" (summary st2) = Some df) as Hk2 by congruence.
    assert (dict_get "gasoline" (summary c1) = Some df) as Hk1 by congruence.
    destruct (plot_gasoline_stores _ _ _ _ Hk2 E2) as (fig & Rf & Hf).
    destruct (combine_series_stores _ _ _ _ _ _ _ _ Hk1 E6) as (comb & Rc & Hc).
    exists fig, comb.
    split.
    { rewrite Hfig.
      rewrite (fun Hne => plot_cpi_keeps _ _ _
                 "gas_gallons_cost_percentage_1995.png" Hne E4)
        by string_neq.
      rewrite (fun Hne => plot_median_home_keeps _ _ _
                 "gas_gallons_cost_percentage_1995.png" Hne E3)
        by string_neq.
      exact Hf. }
    split.
    { rewrite (fun Hne => combine_series_keeps _ _ _ _ _ _ _ "Gasoline" Hne H)
        by string_neq.
      rewrite (fun Hne => combine_series_keeps _ _ _ _ _ _ _ "Gasoline" Hne E7)
        by string_neq.
      exact Hc. }
    apply (rebase_twice "gallon_per_10k" "gallon_pct" "pct"
             (resample_YE group_mean (filter_date_ge cutoff df)));
      try assumption; try string_neq. apply resample_YE_wf.
  - intros df Hk. rewrite Hsum in Hk.
    assert (dict_get "median_home" (summary st3) = Some df) as Hk3
        by congruence.
    assert (dict_get "median_home" (summary c2) = Some df) as Hk2
        by congruence.
    destruct (plot_median_home_stores _ _ _ _ Hk3 E3) as (fig & Rf & Hf).
    destruct (combine_series_stores _ _ _ _ _ _ _ _ Hk2 E7) as (comb & Rc & Hc).
    exists fig, comb.
    split.
    { rewrite Hfig.
      rewrite (fun Hne => plot_cpi_keeps _ _ _
                 "homes_purchased_with_median_salary_percentage_1995.png"
                 Hne E4)
        by string_neq.
      exact Hf. }
    split.
    { rewrite (fun Hne => combine_series_keeps _ _ _ _ _ _ _ "Median Home"
                                               Hne H)
        by string_neq.
      exact Hc. }
    apply (rebase_twice "homes_per_10k" "homes_pct" "pct"
             (resample_YE group_last (filter_date_ge cutoff df)));
      try assumption; try string_neq. apply resample_YE_wf.
Qed.

Lemma annual_chart_matches_combined_witness :
  let st := ok_or sample_state (run CUTOFF sample_loaded) in
  (forall df, dict_get "gasoline" (summary st) = Some df ->
     exists fig comb,
       dict_get "gas_gallons_cost_percentage_1995.png" (figures st) = Some fig
       /\ dict_get "Gasoline" (combined_data st) = Some comb
       /\ map date (rows fig) = map date (rows comb)
       /\ get_col "gallon_pct" fig = get_col "pct" comb
       /\ get_col "gallon_per_10k" fig = get_col "gallon_per_10k" comb)
  /\ (forall df, dict_get "median_home" (summary st) = Some df ->
        exists fig comb,
          dict_get "homes_purchased_with_median_salary_percentage_1995.png"
                   (figures st) = Some fig
          /\ dict_get "Median Home" (combined_data st) = Some comb
          /\ map date (rows fig) = map date (rows comb)
          /\ get_col "homes_pct" fig = get_col "pct" comb
          /\ get_col "homes_per_10k" fig = get_col "homes_per_10k" comb).
Proof.
  apply (annual_chart_matches_combined CUTOFF sample_loaded
           (ok_or sample_state (run CUTOFF sample_loaded))).
  vm_compute. reflexivity.
Defined.

(* ================================================================= *)
(** ** The two CPI computations agree *)

Lemma insert_row_same_point j1 j2 (r1 r2 : Row) (l1 l2 : list Row) :
  same_point j1 j2 r1 r2 -> Forall2 (same_point j1 j2) l1 l2 ->
  Forall2 (same_point j1 j2) (insert_row r1 l1) (insert_row r2 l2).
Proof.
  intros Hr. induction 1 as [|x1 x2 t1 t2 Hx Ht IH]; cbn [insert_row].
  - constructor; [exact Hr | constructor].
  - rewrite <- (proj1 Hr), <- (proj1 Hx).
    destruct (date_leb (date r1) (date x1)).
    + constructor; [exact Hr|]. constructor; assumption.
    + constructor; [exact Hx | exact IH].
Qed.

Lemma sort_rows_same_point j1 j2 (l1 l2 : list Row) :
  Forall2 (same_point j1 j2) l1 l2 ->
  Forall2 (same_point j1 j2) (sort_rows l1) (sort_rows l2).
Proof.
  induction 1 as [|x1 x2 t1 t2 Hx Ht IH]; cbn [sort_rows fold_right].
  - constructor.
  - now apply insert_row_same_point.
Qed.

Lemma filter_same_point j1 j2 (keep : Timestamp -> bool) (l1 l2 : list Row) :
  Forall2 (same_point j1 j2) l1 l2 ->
  Forall2 (same_point j1 j2) (filter (fun r => keep (date r)) l1)
          (filter (fun r => keep (date r)) l2).
Proof.
  induction 1 as [|x1 x2 t1 t2 Hx Ht IH]; cbn [filter]; [constructor|].
  destruct Hx as [Hd Hc]. rewrite <- Hd.
  destruct (keep (date x1)); [constructor; [now split | exact IH] | exact IH].
Qed.

Lemma map_cell_same_point j1 j2 (l1 l2 : list Row) :
  Forall2 (same_point j1 j2) l1 l2 ->
  map (cell j1) l1 = map (cell j2) l2 /\ map date l1 = map date l2.
Proof.
  induction 1 as [|x1 x2 t1 t2 [Hd Hc] Ht [IH1 IH2]]; cbn [map].
  - split; reflexivity.
  - split; congruence.
Qed.

Lemma last_same_point j1 j2 (l1 l2 : list Row) (d1 d2 : Row) :
  Forall2 (same_point j1 j2) l1 l2 -> date d1 = date d2 ->
  date (last l1 d1) = date (last l2 d2).
Proof.
  induction 1 as [|x1 x2 t1 t2 [Hd Hc] Ht IH]; intros Hdd; [exact Hdd|].
  destruct Ht as [|y1 y2 u1 u2 Hy Hu]; [exact Hd|].
  change (date (last (y1 :: u1) d1) = date (last (y2 :: u2) d2)).
  now apply IH.
Qed.

(** The annual values of a column depend on the dates and on the values of
    that column only. *)
Lemma resample_YE_same_point (agg : list float -> float) (df1 df2 : DataFrame)
      (j1 j2 : nat) :
  (j1 < List.length (columns df1))%nat ->
  (j2 < List.length (columns df2))%nat ->
  Forall2 (same_point j1 j2) (rows df1) (rows df2) ->
  Forall2 (same_point j1 j2) (rows (resample_YE agg df1))
          (rows (resample_YE agg df2)).
Proof.
  intros H1 H2 Hrel. apply sort_rows_same_point in Hrel.
  unfold resample_YE.
  destruct Hrel as [|x1 x2 t1 t2 Hx Ht]; [constructor|].
  pose proof (Forall2_cons _ _ Hx Ht) as Hall.
  cbn [rows].
  rewrite (last_same_point j1 j2 _ _ x1 x2 Hall (proj1 Hx)).
  rewrite (proj1 Hx).
  set (range := year_range (year (date x2))
                           (year (date (last (x2 :: t2) x2)))).
  clearbody range. induction range as [|y ys IH]; cbn [map]; constructor;
    [|exact IH].
  split; [reflexivity|]. unfold cell. cbn [cells].
  rewrite !nth_map_seq by assumption.
  f_equal.
  apply (map_cell_same_point j1 j2).
  unfold year_rows.
  apply (filter_same_point j1 j2 (fun d => (year d =? y)%Z)). exact Hall.
Qed.

Lemma rebase_column_as_series (src dst : string) (df out : DataFrame) :
  wf_frame df -> rebase src dst df = Ok out ->
  exists i,
    index_of src (columns df) = Some i
    /\ map date (rows out) = map date (rows df)
    /\ get_col dst out
       = Ok (map (fun v => (v / hd nan (map (cell i) (rows df)) * 100)%float)
                 (map (cell i) (rows df))).
Proof.
  intros Hwf H.
  destruct (rebase_ok _ _ _ _ H) as (i & r0 & t & Hi & Hrows & ->).
  exists i. split; [exact Hi|]. split; [apply set_col_dates|].
  rewrite set_col_get_same by assumption.
  rewrite map_map, Hrows. reflexivity.
Qed.

Lemma plot_bigmac_cpi cutoff (st st' : State) :
  plot_bigmac cutoff st = Ok st' -> cpi st' = cpi st.
Proof.
  unfold plot_bigmac. destruct (dict_get "bigmac" (summary st)).
  - intros H. inv_bind H. injection H as <-. reflexivity.
  - intros [= <-]. reflexivity.
Qed.

Lemma plot_gasoline_cpi cutoff (st st' : State) :
  plot_gasoline cutoff st = Ok st' -> cpi st' = cpi st.
Proof.
  unfold plot_gasoline. destruct (dict_get "gasoline" (summary st)).
  - intros H. inv_bind H. injection H as <-. reflexivity.
  - intros [= <-]. reflexivity.
Qed.

Lemma plot_median_home_cpi cutoff (st st' : State) :
  plot_median_home cutoff st = Ok st' -> cpi st' = cpi st.
Proof.
  unfold plot_median_home. destruct (dict_get "median_home" (summary st)).
  - intros H. inv_bind H. injection H as <-. reflexivity.
  - intros [= <-]. reflexivity.
Qed.

Lemma plot_cpi_stores cutoff (st st' : State) (s c : DataFrame) :
  dict_get "cpi" (summary st) = Some s -> cpi st = Some c ->
  plot_cpi cutoff st = Ok st' ->
  exists F fig,
    add_ratio 1%float "value" "inverted" (filter_date_ge cutoff c) = Ok F
    /\ rebase "inverted" "inverted_pct" (resample_YE group_mean F) = Ok fig
    /\ dict_get "inverted_cpi_percentage_1995.png" (figures st') = Some fig.
Proof.
  intros Hk Hc H. unfold plot_cpi in H. rewrite Hk, Hc in H.
  inv_bind H. inv_bind H. injection H as <-.
  exists a, a0. split; [reflexivity|]. split; [exact E0|].
  cbn. apply dict_get_set_eq.
Qed.

Lemma Forall2_map_same {A B C : Type} (R : B -> C -> Prop)
      (f : A -> B) (g : A -> C) (l : list A) :
  (forall x, In x l -> R (f x) (g x)) -> Forall2 R (map f l) (map g l).
Proof.
  induction l as [|x xs IH]; intros H; cbn [map]; constructor.
  - apply H. now left.
  - apply IH. intros y Hy. apply H. now right.
Qed.

Lemma filter_date_ge_wf (cutoff : Timestamp) (df : DataFrame) :
  wf_frame df -> wf_frame (filter_date_ge cutoff df).
Proof.
  unfold wf_frame. cbn [columns rows filter_date_ge]. intros H.
  rewrite Forall_forall in *. intros r Hr. apply filter_In in Hr. apply H.
  tauto.
Qed.

(** The frame that line 201 builds and the CPI frame of [summary], cut at
    the cutoff, carry the same observations of the inverted index. *)
Lemma cpi_frames_same_points (cutoff : Timestamp) (c0 F : DataFrame) (i : nat) :
  wf_frame c0 -> index_of "value" (columns c0) = Some i ->
  add_ratio 1%float "value" "inverted"
    (filter_date_ge cutoff
       (set_col "inverted_pct"
                (map (fun r => (1 / cell i r)%float) (rows c0)) c0)) = Ok F ->
  exists k,
    index_of "inverted" (columns F) = Some k
    /\ Forall2 (same_point k 1) (rows F)
         (rows (filter_date_ge cutoff
                  (mkDF ["value"; "inverted_pct"]
                        (map (fun r => mkRow (date r)
                                             [cell i r; (1 / cell i r)%float])
                             (rows c0))))).
Proof.
  intros Hwf Hi HF.
  set (c' := set_col "inverted_pct"
                     (map (fun r => (1 / cell i r)%float) (rows c0)) c0) in *.
  assert (wf_frame c') as Hwf' by now apply set_col_wf.
  assert (index_of "value" (columns c') = Some i) as Hi'.
  { unfold c'. rewrite set_col_index_other by (intros E; discriminate E).
    exact Hi. }
  pose proof (filter_date_ge_wf cutoff c' Hwf') as Hwff.
  set (filt := filter_date_ge cutoff c') in *.
  rewrite (add_ratio_eq _ _ _ _ i) in HF by exact Hi'.
  assert (F = set_col "inverted"
                      (map (fun r => (1 / cell i r)%float) (rows filt)) filt)
    as -> by congruence.
  clear HF.
  exists (pos_after "inverted" (columns filt)).
  split; [apply set_col_index|].
  rewrite set_col_map.
  assert (rows filt
          = map (fun r => mkRow (date r)
                                (put_cell (index_of "inverted_pct" (columns c0))
                                          (1 / cell i r)%float (cells r)))
                (filter (fun r => date_leb cutoff (date r)) (rows c0))) as Hf.
  { unfold filt, c'. cbn [rows filter_date_ge]. rewrite set_col_map.
    now rewrite filter_map_comm. }
  cbn [rows filter_date_ge]. rewrite (filter_map_comm _ _ (rows c0)).
  cbn [date]. rewrite Hf, map_map.
  apply Forall2_map_same. intros r Hr.
  apply filter_In in Hr as [Hr _].
  pose proof (proj1 (Forall_forall _ _) Hwf r Hr) as Hlen.
  split; [reflexivity|]. unfold cell. cbn [cells date nth].
  assert (columns filt = columns c') as Hcf by reflexivity.
  rewrite put_cell_same.
  - f_equal. apply put_cell_other; [exact Hlen|].
    apply (index_of_other_pos "value"); [intros E; discriminate E | exact Hi].
  - rewrite Hcf. unfold c', set_col. cbn [columns].
    now apply put_cell_length.
Qed.

(** X14: the CPI chart (lines 199-204, computed from the frame [cpi]) and
    the CPI entry of the combined table (lines 242-247, computed from
    [summary['cpi']]) hold the same dates and the same percentages. *)
Theorem cpi_chart_matches_combined (cutoff : Timestamp) (inp : Loaded)
        (st : State) (c0 : DataFrame) :
  run cutoff inp = Ok st ->
  ld_cpi inp = Some c0 -> wf_frame c0 ->
  exists fig comb,
    dict_get "inverted_cpi_percentage_1995.png" (figures st) = Some fig
    /\ dict_get "Inverted CPI" (combined_data st) = Some comb
    /\ map date (rows fig) = map date (rows comb)
    /\ get_col "inverted_pct" fig = get_col "pct" comb.
Proof.
  unfold run. intros H Hld Hwf.
  inv_bind H. rename a into bm.
  inv_bind H. rename a into st1.
  inv_bind H. rename a into st2.
  inv_bind H. rename a into st3.
  inv_bind H. rename a into st4.
  inv_bind H. rename a into st5.
  destruct (build_summary_ok _ _ E0)
    as (bm' & bsel & gsel & msel & csel & _ & _ & _ & _ & _ & Hc & Hsum & _).
  cbn [cpi summary] in Hc, Hsum. rewrite Hld in Hc.
  destruct Hc as (c' & s & Hadd & Hsel & Hcpi1 & ->).
  assert (exists i, index_of "value" (columns c0) = Some i) as [i Hi].
  { unfold add_ratio, get_col in Hadd.
    destruct (index_of "value" (columns c0)); [eauto | discriminate Hadd]. }
  rewrite (add_ratio_eq _ _ _ _ i Hi) in Hadd. injection Hadd as <-.
  rewrite (select_pair_after_set _ _ _ _ _ Hwf Hi) in Hsel by string_neq.
  injection Hsel as <-.
  match type of Hsum with
  | _ = set_opt "cpi" (Some ?f) _ => set (s := f) in *
  end.
  assert (dict_get "cpi" (summary st1) = Some s) as Hk1
      by (rewrite Hsum; apply dict_get_set_eq).
  pose proof (plot_bigmac_summary _ _ _ E1) as S2.
  pose proof (plot_gasoline_summary _ _ _ E2) as S3.
  pose proof (plot_median_home_summary _ _ _ E3) as S4.
  pose proof (plot_cpi_summary _ _ _ E4) as S5.
  assert (cpi st4 = cpi st1) as C4.
  { rewrite (plot_median_home_cpi _ _ _ E3), (plot_gasoline_cpi _ _ _ E2).
    now apply plot_bigmac_cpi in E1. }
  pose proof (build_combined_figures _ _ _ H) as [Hfig _].
  unfold build_combined in H.
  inv_bind H. rename a into c1.
  inv_bind H. rename a into c2.
  inv_bind H. rename a into c3.
  pose proof (combine_series_summary _ _ _ _ _ _ _ E5) as T1.
  pose proof (combine_series_summary _ _ _ _ _ _ _ E6) as T2.
  pose proof (combine_series_summary _ _ _ _ _ _ _ E7) as T3.
  assert (dict_get "cpi" (summary st4) = Some s) as Hk4 by congruence.
  assert (dict_get "cpi" (summary c3) = Some s) as Hk3 by congruence.
  pose proof (eq_trans C4 Hcpi1) as Hc4.
  destruct (plot_cpi_stores _ _ _ s _ Hk4 Hc4 E4)
    as (F & fig & HF & Rf & Hf).
  destruct (combine_series_stores _ _ _ _ _ _ _ _ Hk3 H) as (comb & Rc & Hcb).
  exists fig, comb. rewrite Hfig.
  split; [exact Hf|]. split; [exact Hcb|].
  destruct (cpi_frames_same_points cutoff c0 F i Hwf Hi HF) as (k & Hk & Hrel).
  fold s in Hrel.
  apply (resample_YE_same_point group_mean F (filter_date_ge cutoff s) k 1)
    in Hrel; [|eapply index_of_lt; eassumption | cbn; lia].
  apply map_cell_same_point in Hrel as [Hvals Hdates].
  destruct (rebase_column_as_series _ _ _ _ (resample_YE_wf _ _) Rf)
    as (k' & Hk' & Hd1 & G1).
  destruct (rebase_column_as_series _ _ _ _ (resample_YE_wf _ _) Rc)
    as (j' & Hj' & Hd2 & G2).
  rewrite resample_YE_columns in Hk', Hj'.
  assert (k' = k) as -> by congruence.
  assert (j' = 1%nat) as -> by (cbn in Hj'; congruence).
  rewrite Hd1, Hd2, G1, G2, Hvals. split; [exact Hdates | reflexivity].
Qed.

Lemma cpi_chart_matches_combined_witness :
  let st := ok_or sample_state (run CUTOFF sample_loaded) in
  exists fig comb,
    dict_get "inverted_cpi_percentage_1995.png" (figures st) = Some fig
    /\ dict_get "Inverted CPI" (combined_data st) = Some comb
    /\ map date (rows fig) = map date (rows comb)
    /\ get_col "inverted_pct" fig = get_col "pct" comb.
Proof.
  apply (cpi_chart_matches_combined CUTOFF sample_loaded
           (ok_or sample_state (run CUTOFF sample_loaded)) cpi_scenario).
  - vm_compute. reflexivity.
  - reflexivity.
  - repeat constructor.
Defined.

(* ================================================================= *)
(** ** How a run can fail *)

Lemma add_ratio_cases (num : float) (src dst : string) (df : DataFrame) :
  add_ratio num src dst df
  = match index_of src (columns df) with
    | Some i => Ok (set_col dst (map (fun r => (num / cell i r)%float)
                                     (rows df)) df)
    | None => Raise (KeyError src)
    end.
Proof.
  unfold add_ratio, get_col. destruct (index_of src (columns df)); cbn [bind].
  - now rewrite map_map.
  - reflexivity.
Qed.

Lemma select_after_set_ok (src dst : string) (vals : list float)
      (df : DataFrame) :
  has_column src df -> src <> dst ->
  exists s, select [src; dst] (set_col dst vals df) = Ok s
            /\ columns s = [src; dst].
Proof.
  intros [i Hi] Hne. unfold select. cbn [indices_of].
  rewrite set_col_index_other, Hi, set_col_index by assumption.
  cbn [bind]. eexists. split; reflexivity.
Qed.

Lemma select_columns (names : list string) (df s : DataFrame) :
  select names df = Ok s -> columns s = names.
Proof.
  unfold select. intros H. inv_bind H. injection H as <-. reflexivity.
Qed.

Lemma set_col_has_column (n dst : string) (vals : list float)
      (df : DataFrame) :
  has_column n df -> has_column n (set_col dst vals df).
Proof.
  intros [i Hi]. destruct (String.eqb_spec n dst) as [->|Hne].
  - eexists. apply set_col_index.
  - exists i. now rewrite set_col_index_other.
Qed.

(** One optional series of lines 131-140, as the script runs it. *)
Lemma opt_series_cases (num : float) (src dst key : string)
      (o : option DataFrame) (d : dict) :
  src <> dst ->
  ((forall f, o = Some f -> has_column src f)
   /\ exists r,
        match o with
        | Some g =>
            g' <- add_ratio num src dst g ;;
            sel <- select [src; dst] g' ;;
            Ok (Some g', dict_set key sel d)
        | None => Ok (None, d)
        end = Ok r)
  \/ ((exists f, o = Some f /\ ~ has_column src f)
      /\ match o with
         | Some g =>
             g' <- add_ratio num src dst g ;;
             sel <- select [src; dst] g' ;;
             Ok (Some g', dict_set key sel d)
         | None => Ok (None, d)
         end = Raise (KeyError src)).
Proof.
  intros Hne. destruct o as [f|].
  - rewrite add_ratio_cases.
    destruct (index_of src (columns f)) as [i|] eqn:Hi; cbn [bind].
    + left. split; [intros ? [= <-]; now exists i|].
      destruct (select_after_set_ok src dst
                  (map (fun r => (num / cell i r)%float) (rows f)) f)
        as (s & -> & _); [now exists i | exact Hne |].
      cbn [bind]. eauto.
    + right. split; [|reflexivity]. exists f. split; [reflexivity|].
      intros [j Hj]. congruence.
  - left. split; [intros ? H; discriminate H | eauto].
Qed.

(** X15: over frames with numeric columns (a column read as text makes
    the division raise [TypeError], which lies outside the embedding),
    lines 127-140 succeed exactly when every frame that was loaded has the
    column its transform divides by ([price], or [value]); otherwise they
    raise [KeyError] for that column. *)
Theorem build_summary_succeeds_iff (st : State) :
  ((exists st', build_summary st = Ok st') <-> has_source_columns st)
  /\ (forall e, build_summary st = Raise e ->
                e = KeyError "price" \/ e = KeyError "value").
Proof.
  unfold build_summary, has_source_columns.
  rewrite add_ratio_cases.
  destruct (index_of "price" (columns (bigmac st))) as [i|] eqn:Hi; cbn [bind].
  2:{ split; [|intros e [= <-]; now left].
      split; [intros [st' H]; discriminate H|].
      intros [[j Hj] _]. congruence. }
  assert (has_column "price" (bigmac st)) as Hb by now exists i.
  destruct (select_after_set_ok "price" "bigmac_per_10k"
              (map (fun r => (10000 / cell i r)%float) (rows (bigmac st)))
              (bigmac st)) as (bsel & -> & _);
    [exact Hb | string_neq |]. cbn [bind]. cbv zeta.
  destruct (opt_series_cases 10000%float "price" "gallon_per_10k" "gasoline"
              (gasoline st)
              (dict_set "bigmac" (dropna bsel) (summary st)))
    as [[Hg [rg ->]]|[(g & Hg & Hn) ->]]; [string_neq| |]; cbn [bind].
  2:{ split; [|intros e [= <-]; now left].
      split; [intros [st' H]; discriminate H|].
      intros (_ & Hg' & _). exfalso. apply Hn. now apply Hg'. }
  destruct (opt_series_cases 10000%float "value" "homes_per_10k" "median_home"
              (msp st) (snd rg))
    as [[Hm [rm ->]]|[(m & Hm & Hn) ->]]; [string_neq| |]; cbn [bind].
  2:{ split; [|intros e [= <-]; now right].
      split; [intros [st' H]; discriminate H|].
      intros (_ & _ & Hm' & _). exfalso. apply Hn. now apply Hm'. }
  destruct (opt_series_cases 1%float "value" "inverted_pct" "cpi"
              (cpi st) (snd rm))
    as [[Hc [rc ->]]|[(c & Hc & Hn) ->]]; [string_neq| |]; cbn [bind].
  2:{ split; [|intros e [= <-]; now right].
      split; [intros [st' H]; discriminate H|].
      intros (_ & _ & _ & Hc'). exfalso. apply Hn. now apply Hc'. }
  split; [|intros e H; discriminate H].
  split; [intros _; tauto | eauto].
Qed.

Lemma build_summary_raises (st : State) (e : exn) :
  build_summary st = Raise e ->
  e = KeyError "price" \/ e = KeyError "value".
Proof.
  unfold build_summary. rewrite add_ratio_cases.
  destruct (index_of "price" (columns (bigmac st))) as [i|] eqn:Hi; cbn [bind];
    [|intros [= <-]; now left].
  destruct (select_after_set_ok "price" "bigmac_per_10k"
              (map (fun r => (10000 / cell i r)%float) (rows (bigmac st)))
              (bigmac st)) as (bsel & -> & _);
    [now exists i | string_neq |]. cbn [bind]. cbv zeta.
  destruct (opt_series_cases 10000%float "price" "gallon_per_10k" "gasoline"
              (gasoline st)
              (dict_set "bigmac" (dropna bsel) (summary st)))
    as [[_ [rg ->]]|[_ ->]]; [string_neq| |intros [= <-]; now left].
  cbn [bind].
  destruct (opt_series_cases 10000%float "value" "homes_per_10k" "median_home"
              (msp st) (snd rg))
    as [[_ [rm ->]]|[_ ->]]; [string_neq| |intros [= <-]; now right].
  cbn [bind].
  destruct (opt_series_cases 1%float "value" "inverted_pct" "cpi"
              (cpi st) (snd rm))
    as [[_ [rc ->]]|[_ ->]]; [string_neq| |intros [= <-]; now right].
  cbn [bind]. intros H. discriminate H.
Qed.

Lemma rebase_raises (src dst : string) (df : DataFrame) (e : exn) :
  has_column src df -> rebase src dst df = Raise e -> e = IndexError.
Proof.
  intros [i Hi]. unfold rebase, get_col. rewrite Hi. cbn [bind].
  destruct (rows df); cbn [map iloc0 bind]; [|discriminate].
  now intros [= <-].
Qed.

Lemma resample_YE_has_column (agg : list float -> float) (n : string)
      (df : DataFrame) :
  has_column n df -> has_column n (resample_YE agg df).
Proof. unfold has_column. now rewrite resample_YE_columns. Qed.

Lemma plot_bigmac_raises cutoff (st : State) (e : exn) :
  (forall df, dict_get "bigmac" (summary st) = Some df ->
              has_column "bigmac_per_10k" df) ->
  plot_bigmac cutoff st = Raise e -> e = IndexError.
Proof.
  intros Hcol. unfold plot_bigmac.
  destruct (dict_get "bigmac" (summary st)) as [df|]; [|discriminate].
  destruct (rebase "bigmac_per_10k" "bigmac_pct" (filter_date_ge cutoff df))
    eqn:E; cbn [bind]; [discriminate|].
  intros [= <-]. eapply rebase_raises; [|exact E].
  exact (Hcol df eq_refl).
Qed.

Lemma plot_gasoline_raises cutoff (st : State) (e : exn) :
  (forall df, dict_get "gasoline" (summary st) = Some df ->
              has_column "gallon_per_10k" df) ->
  plot_gasoline cutoff st = Raise e -> e = IndexError.
Proof.
  intros Hcol. unfold plot_gasoline.
  destruct (dict_get "gasoline" (summary st)) as [df|]; [|discriminate].
  destruct (rebase "gallon_per_10k" "gallon_pct" _) eqn:E; cbn [bind];
    [discriminate|].
  intros [= <-]. eapply rebase_raises; [|exact E].
  apply resample_YE_has_column. exact (Hcol df eq_refl).
Qed.

Lemma plot_median_home_raises cutoff (st : State) (e : exn) :
  (forall df, dict_get "median_home" (summary st) = Some df ->
              has_column "homes_per_10k" df) ->
  plot_median_home cutoff st = Raise e -> e = IndexError.
Proof.
  intros Hcol. unfold plot_median_home.
  destruct (dict_get "median_home" (summary st)) as [df|]; [|discriminate].
  destruct (rebase "homes_per_10k" "homes_pct" _) eqn:E; cbn [bind];
    [discriminate|].
  intros [= <-]. eapply rebase_raises; [|exact E].
  apply resample_YE_has_column. exact (Hcol df eq_refl).
Qed.

Lemma plot_cpi_raises cutoff (st : State) (e : exn) :
  (forall s, dict_get "cpi" (summary st) = Some s ->
             exists c, cpi st = Some c /\ has_column "value" c) ->
  plot_cpi cutoff st = Raise e -> e = IndexError.
Proof.
  intros Hcol. unfold plot_cpi.
  destruct (dict_get "cpi" (summary st)) as [s|]; [|discriminate].
  destruct (Hcol s eq_refl) as (c & -> & [i Hi]).
  rewrite add_ratio_cases. cbn [columns filter_date_ge]. rewrite Hi.
  cbn [bind].
  destruct (rebase "inverted" "inverted_pct" _) eqn:E; cbn [bind];
    [discriminate|].
  intros [= <-]. eapply rebase_raises; [|exact E].
  apply resample_YE_has_column. eexists. apply set_col_index.
Qed.

Lemma combine_series_raises_IndexError cutoff key label src agg (st : State)
      (e : exn) :
  (forall df, dict_get key (summary st) = Some df -> has_column src df) ->
  combine_series cutoff key label src agg st = Raise e -> e = IndexError.
Proof.
  intros Hcol. unfold combine_series.
  destruct (dict_get key (summary st)) as [df|]; [|discriminate].
  destruct (rebase src "pct" _) eqn:E; cbn [bind]; [discriminate|].
  intros [= <-]. eapply rebase_raises; [|exact E].
  apply resample_YE_has_column. exact (Hcol df eq_refl).
Qed.

Lemma series_summary_selected (num : float) (src dst key : string)
      (before after sel : option DataFrame) (d : dict) (df : DataFrame) :
  series_summary num src dst before after sel ->
  dict_get key d = None ->
  dict_get key (set_opt key sel d) = Some df ->
  columns df = [src; dst]
  /\ exists f', after = Some f' /\ has_column src f'.
Proof.
  intros Hs Hd Hk. destruct before as [f|]; cbn [series_summary] in Hs.
  - destruct Hs as (f' & s & Hadd & Hsel & -> & ->).
    cbn [set_opt] in Hk. rewrite dict_get_set_eq in Hk. injection Hk as <-.
    split; [eapply select_columns; eassumption|].
    exists f'. split; [reflexivity|].
    rewrite add_ratio_cases in Hadd.
    destruct (index_of src (columns f)) as [i|] eqn:Hi; [|discriminate Hadd].
    injection Hadd as <-. apply set_col_has_column. now exists i.
  - destruct Hs as [_ ->]. cbn [set_opt] in Hk. congruence.
Qed.

(** The columns of the frames in [summary] after lines 127-140. *)
Lemma summary_frames_columns (st st' : State) :
  summary st = [] -> build_summary st = Ok st' ->
  (forall df, dict_get "bigmac" (summary st') = Some df ->
              has_column "bigmac_per_10k" df)
  /\ (forall df, dict_get "gasoline" (summary st') = Some df ->
                 has_column "gallon_per_10k" df)
  /\ (forall df, dict_get "median_home" (summary st') = Some df ->
                 has_column "homes_per_10k" df)
  /\ (forall df, dict_get "cpi" (summary st') = Some df ->
                 has_column "inverted_pct" df
                 /\ exists c, cpi st' = Some c /\ has_column "value" c).
Proof.
  intros Hempty H.
  destruct (build_summary_ok _ _ H)
    as (bm & bsel & gsel & msel & csel & _ & Hbsel & _ & Hg & Hm & Hc
        & Hsum & _).
  rewrite Hsum, Hempty.
  split; [|split; [|split]].
  - intros df Hk. rewrite !dict_get_set_opt_neq, dict_get_set_eq in Hk
      by string_neq.
    injection Hk as <-. unfold has_column. cbn [columns dropna].
    rewrite (select_columns _ _ _ Hbsel). now exists 1%nat.
  - intros df Hk. rewrite !dict_get_set_opt_neq in Hk by string_neq.
    assert (Hx := fun Hd => series_summary_selected _ _ _ _ _ _ _ _ _ Hg Hd Hk).
    destruct (Hx eq_refl) as [Hcols _].
    unfold has_column. rewrite Hcols. now exists 1%nat.
  - intros df Hk. rewrite !dict_get_set_opt_neq in Hk by string_neq.
    assert (Hx := fun Hd => series_summary_selected _ _ _ _ _ _ _ _ _ Hm Hd Hk).
    destruct (Hx ltac:(destruct gsel; reflexivity)) as [Hcols _].
    unfold has_column. rewrite Hcols. now exists 1%nat.
  - intros df Hk.
    assert (Hx := fun Hd => series_summary_selected _ _ _ _ _ _ _ _ _ Hc Hd Hk).
    destruct (Hx ltac:(destruct gsel, msel; reflexivity)) as [Hcols Hafter].
    split; [|exact Hafter].
    unfold has_column. rewrite Hcols. now exists 1%nat.
Qed.

(* ================================================================= *)
(** ** The outcome of a run *)

(* ----------------------------------------------------------------- *)
(** *** Lines 127-140 *)

Lemma lacks_has_column (name : string) (df : DataFrame) :
  lacks name (Some df) = false <-> has_column name df.
Proof.
  unfold lacks, has_column.
  destruct (index_of name (columns df)) as [i|]; cbn [present negb].
  - split; eauto.
  - split; [discriminate | intros [i Hi]; discriminate Hi].
Qed.

Lemma opt_series_outcome (num : float) (src dst key : string)
      (o : option DataFrame) (d : dict) :
  src <> dst ->
  if lacks src o
  then match o with
       | Some g =>
           g' <- add_ratio num src dst g ;;
           sel <- select [src; dst] g' ;;
           Ok (Some g', dict_set key sel d)
       | None => Ok (None, d)
       end = Raise (KeyError src)
  else exists r,
         match o with
         | Some g =>
             g' <- add_ratio num src dst g ;;
             sel <- select [src; dst] g' ;;
             Ok (Some g', dict_set key sel d)
         | None => Ok (None, d)
         end = Ok r.
Proof.
  intros Hne.
  destruct (opt_series_cases num src dst key o d Hne)
    as [[Hc [r Hr]]|[(f & -> & Hn) Hr]].
  - destruct o as [f|]; cbn [lacks]; [|eauto].
    destruct (proj2 (lacks_has_column src f) (Hc f eq_refl)).
    replace (negb (present (index_of src (columns f)))) with false
      by (symmetry; apply (proj2 (lacks_has_column src f)), Hc; reflexivity).
    eauto.
  - destruct (lacks src (Some f)) eqn:E; [exact Hr|].
    apply lacks_has_column in E. contradiction.
Qed.

(** Lines 127-140 raise [KeyError] for the first column they do not find,
    and go through when there is none. *)
Lemma build_summary_outcome (st : State) :
  match missing_column st with
  | Some c => build_summary st = Raise (KeyError c)
  | None => exists st', build_summary st = Ok st'
  end.
Proof.
  unfold missing_column, build_summary. rewrite add_ratio_cases.
  cbn [lacks].
  destruct (index_of "price" (columns (bigmac st))) as [i|] eqn:Hi;
    cbn [present negb bind]; [|reflexivity].
  destruct (select_after_set_ok "price" "bigmac_per_10k"
              (map (fun r => (10000 / cell i r)%float) (rows (bigmac st)))
              (bigmac st)) as (bsel & -> & _);
    [now exists i | string_neq |]. cbn [bind]. cbv zeta.
  pose proof (opt_series_outcome 10000%float "price" "gallon_per_10k"
                "gasoline" (gasoline st)
                (dict_set "bigmac" (dropna bsel) (summary st))
                ltac:(string_neq)) as Hg.
  destruct (lacks "price" (gasoline st)); [now rewrite Hg|].
  destruct Hg as [rg ->]. cbn [bind].
  pose proof (opt_series_outcome 10000%float "value" "homes_per_10k"
                "median_home" (msp st) (snd rg) ltac:(string_neq)) as Hm.
  destruct (lacks "value" (msp st)); [now rewrite Hm|].
  destruct Hm as [rm ->]. cbn [bind].
  pose proof (opt_series_outcome 1%float "value" "inverted_pct"
                "cpi" (cpi st) (snd rm) ltac:(string_neq)) as Hc.
  destruct (lacks "value" (cpi st)); [now rewrite Hc|].
  destruct Hc as [rc ->]. cbn [bind]. eauto.
Qed.

Lemma select_dates (names : list string) (df s : DataFrame) :
  select names df = Ok s -> map date (rows s) = map date (rows df).
Proof.
  unfold select. intros H. inv_bind H. injection H as <-.
  cbn [rows]. rewrite map_map. reflexivity.
Qed.

Lemma indices_of_length (names cols : list string) (idxs : list nat) :
  indices_of names cols = Ok idxs -> List.length idxs = List.length names.
Proof.
  revert idxs. induction names as [|n ns IH]; intros idxs H; cbn in H.
  - now injection H as <-.
  - destruct (index_of n cols); [|discriminate H].
    inv_bind H. injection H as <-. cbn [List.length]. f_equal. now apply IH.
Qed.

Lemma select_wf (names : list string) (df s : DataFrame) :
  select names df = Ok s -> wf_frame s.
Proof.
  unfold select. intros H. inv_bind H. injection H as <-.
  unfold wf_frame. cbn [rows columns]. apply Forall_map, Forall_forall.
  intros r _. cbn [cells]. rewrite length_map.
  eapply indices_of_length; eassumption.
Qed.

Lemma dropna_wf (df : DataFrame) : wf_frame df -> wf_frame (dropna df).
Proof.
  unfold wf_frame, dropna. cbn [rows columns]. rewrite !Forall_forall.
  intros H r Hr. apply filter_In in Hr. apply H. tauto.
Qed.

Lemma summary_bigmac_wf (st st' : State) (df : DataFrame) :
  build_summary st = Ok st' ->
  dict_get "bigmac" (summary st') = Some df -> wf_frame df.
Proof.
  intros H Hk.
  destruct (build_summary_ok _ _ H)
    as (bm & bsel & gsel & msel & csel & _ & Hbsel & _ & _ & _ & _
        & Hsum & _).
  rewrite Hsum, !dict_get_set_opt_neq, dict_get_set_eq in Hk by string_neq.
  injection Hk as <-. apply dropna_wf. eapply select_wf; eassumption.
Qed.

Lemma series_summary_dates (num : float) (src dst key : string)
      (before after sel : option DataFrame) (d : dict) (df : DataFrame) :
  series_summary num src dst before after sel ->
  dict_get key d = None ->
  dict_get key (set_opt key sel d) = Some df ->
  exists f', after = Some f' /\ map date (rows f') = map date (rows df).
Proof.
  intros Hs Hd Hk. destruct before as [f|]; cbn [series_summary] in Hs.
  - destruct Hs as (f' & s & _ & Hsel & -> & ->).
    cbn [set_opt] in Hk. rewrite dict_get_set_eq in Hk. injection Hk as <-.
    exists f'. split; [reflexivity|]. symmetry. eapply select_dates.
    eassumption.
  - destruct Hs as [_ ->]. cbn [set_opt] in Hk. congruence.
Qed.

(** The frame [cpi] and the frame stored under [summary['cpi']] hold the
    same dates. *)
Lemma summary_cpi_dates (st st' : State) (s : DataFrame) :
  summary st = [] -> build_summary st = Ok st' ->
  dict_get "cpi" (summary st') = Some s ->
  exists c, cpi st' = Some c /\ map date (rows c) = map date (rows s).
Proof.
  intros Hempty H Hk.
  destruct (build_summary_ok _ _ H)
    as (bm & bsel & gsel & msel & csel & _ & _ & _ & _ & _ & Hc & Hsum & _).
  rewrite Hsum, Hempty in Hk.
  assert (Hx := fun Hd => series_summary_dates _ _ _ _ _ _ _ _ _ Hc Hd Hk).
  apply Hx. destruct gsel, msel; reflexivity.
Qed.

Lemma filter_date_ge_dates (cutoff : Timestamp) (df : DataFrame) :
  map date (rows (filter_date_ge cutoff df))
  = filter (date_leb cutoff) (map date (rows df)).
Proof. cbn [rows filter_date_ge]. now rewrite filter_map_comm. Qed.

Lemma filter_date_ge_same_dates (cutoff : Timestamp) (a b : DataFrame) :
  map date (rows a) = map date (rows b) ->
  rows (filter_date_ge cutoff a) = [] ->
  rows (filter_date_ge cutoff b) = [].
Proof.
  intros E Ha. apply (f_equal (map date)) in Ha.
  rewrite filter_date_ge_dates, E, <- filter_date_ge_dates in Ha.
  now apply map_eq_nil in Ha.
Qed.

(* ----------------------------------------------------------------- *)
(** *** The blocks after line 140 *)

Lemma rebase_goes_through (src dst : string) (df : DataFrame) :
  has_column src df -> rows df <> [] ->
  exists out, rebase src dst df = Ok out.
Proof.
  intros [i Hi] Hne. unfold rebase, get_col. rewrite Hi. cbn [bind].
  destruct (rows df); [congruence|]. cbn [map iloc0 bind]. eauto.
Qed.

Lemma resample_YE_nonempty (agg : list float -> float) (df : DataFrame) :
  rows df <> [] -> rows (resample_YE agg df) <> [].
Proof.
  intros Hne.
  destruct (resample_YE_rows agg df Hne) as (ymin & ymax & Hspan & ->).
  pose proof (annual_rows_In agg (List.length (columns df))
                (sort_rows (rows df)) ymin ymax ymin) as Hin.
  intros E. rewrite E in Hin. apply Hin.
  destruct Hspan as ([r [Hr <-]] & _ & Hb). now apply Hb.
Qed.

Lemma plot_bigmac_goes_through cutoff (st : State) :
  (forall df, dict_get "bigmac" (summary st) = Some df ->
              has_column "bigmac_per_10k" df
              /\ rows (filter_date_ge cutoff df) <> []) ->
  exists st', plot_bigmac cutoff st = Ok st'.
Proof.
  intros H. unfold plot_bigmac.
  destruct (dict_get "bigmac" (summary st)) as [df|]; [|eauto].
  destruct (H df eq_refl) as [Hc Hne].
  destruct (rebase_goes_through "bigmac_per_10k" "bigmac_pct"
              (filter_date_ge cutoff df) Hc Hne) as [out ->].
  cbn [bind]. eauto.
Qed.

Lemma plot_gasoline_goes_through cutoff (st : State) :
  (forall df, dict_get "gasoline" (summary st) = Some df ->
              has_column "gallon_per_10k" df
              /\ rows (filter_date_ge cutoff df) <> []) ->
  exists st', plot_gasoline cutoff st = Ok st'.
Proof.
  intros H. unfold plot_gasoline.
  destruct (dict_get "gasoline" (summary st)) as [df|]; [|eauto].
  destruct (H df eq_refl) as [Hc Hne].
  destruct (rebase_goes_through "gallon_per_10k" "gallon_pct"
              (resample_YE group_mean (filter_date_ge cutoff df)))
    as [out ->];
    [now apply resample_YE_has_column | now apply resample_YE_nonempty |].
  cbn [bind]. eauto.
Qed.

Lemma plot_median_home_goes_through cutoff (st : State) :
  (forall df, dict_get "median_home" (summary st) = Some df ->
              has_column "homes_per_10k" df
              /\ rows (filter_date_ge cutoff df) <> []) ->
  exists st', plot_median_home cutoff st = Ok st'.
Proof.
  intros H. unfold plot_median_home.
  destruct (dict_get "median_home" (summary st)) as [df|]; [|eauto].
  destruct (H df eq_refl) as [Hc Hne].
  destruct (rebase_goes_through "homes_per_10k" "homes_pct"
              (resample_YE group_last (filter_date_ge cutoff df)))
    as [out ->];
    [now apply resample_YE_has_column | now apply resample_YE_nonempty |].
  cbn [bind]. eauto.
Qed.

Lemma plot_cpi_goes_through cutoff (st : State) :
  (forall s, dict_get "cpi" (summary st) = Some s ->
             exists c, cpi st = Some c /\ has_column "value" c
                       /\ rows (filter_date_ge cutoff c) <> []) ->
  exists st', plot_cpi cutoff st = Ok st'.
Proof.
  intros H. unfold plot_cpi.
  destruct (dict_get "cpi" (summary st)) as [s|]; [|eauto].
  destruct (H s eq_refl) as (c & -> & [i Hi] & Hne).
  rewrite add_ratio_cases. cbn [columns filter_date_ge]. rewrite Hi.
  cbn [bind].
  match goal with
  | |- exists st', bind (rebase _ _ (resample_YE _ ?F)) _ = _ =>
      destruct (rebase_goes_through "inverted" "inverted_pct"
                  (resample_YE group_mean F)) as [out ->]
  end.
  - apply resample_YE_has_column. eexists. apply set_col_index.
  - apply resample_YE_nonempty. intros E.
    apply (f_equal (map date)) in E. rewrite set_col_dates in E.
    apply map_eq_nil in E. contradiction.
  - cbn [bind]. eauto.
Qed.

Lemma combine_series_goes_through cutoff key label src agg (st : State) :
  (forall df, dict_get key (summary st) = Some df ->
              has_column src df /\ rows (filter_date_ge cutoff df) <> []) ->
  exists st', combine_series cutoff key label src agg st = Ok st'.
Proof.
  intros H. unfold combine_series.
  destruct (dict_get key (summary st)) as [df|]; [|eauto].
  destruct (H df eq_refl) as [Hc Hne].
  destruct (rebase_goes_through src "pct"
              (resample_YE agg (filter_date_ge cutoff df)))
    as [out ->];
    [now apply resample_YE_has_column | now apply resample_YE_nonempty |].
  cbn [bind]. eauto.
Qed.

Lemma plot_bigmac_stores cutoff (st st' : State) (df : DataFrame) :
  dict_get "bigmac" (summary st) = Some df ->
  plot_bigmac cutoff st = Ok st' ->
  exists fig,
    rebase "bigmac_per_10k" "bigmac_pct" (filter_date_ge cutoff df) = Ok fig
    /\ dict_get "bigmac_cost_percentage_1995.png" (figures st') = Some fig.
Proof.
  intros Hk H. unfold plot_bigmac in H. rewrite Hk in H.
  inv_bind H. injection H as <-. exists a. split; [reflexivity|].
  cbn. apply dict_get_set_eq.
Qed.

Lemma plot_gasoline_keeps cutoff (st st' : State) (name : string) :
  name <> "gas_gallons_cost_percentage_1995.png" ->
  plot_gasoline cutoff st = Ok st' ->
  dict_get name (figures st') = dict_get name (figures st).
Proof.
  intros Hne. unfold plot_gasoline.
  destruct (dict_get "gasoline" (summary st)).
  - intros H. inv_bind H. injection H as <-. cbn.
    now apply dict_get_set_neq.
  - intros [= <-]. reflexivity.
Qed.

(** Once it has gone through, the rebase step has kept every point. *)
Lemma rebase_kept (src dst : string) (df out : DataFrame) :
  wf_frame df -> rebase src dst df = Ok out ->
  kept_after_rebase src dst df out.
Proof.
  intros Hwf H.
  destruct (rebase_ok _ _ _ _ H) as (i & r0 & t & Hi & Hrows & _).
  destruct (rebase_keeps src dst df Hwf) as [out' Hk];
    [eauto | rewrite Hrows; discriminate |].
  destruct Hk as (H' & Hrest). rewrite H in H'. injection H' as <-.
  split; [exact H | exact Hrest].
Qed.

(* ----------------------------------------------------------------- *)
(** *** The run *)

Lemma run_after_merge cutoff (inp : Loaded) (bm : DataFrame) :
  bigmac_merge (historical inp) (current inp) = Ok bm ->
  run cutoff inp
  = (st1 <- build_summary (after_merge inp bm) ;;
     st2 <- plot_bigmac cutoff st1 ;;
     st3 <- plot_gasoline cutoff st2 ;;
     st4 <- plot_median_home cutoff st3 ;;
     st5 <- plot_cpi cutoff st4 ;;
     build_combined cutoff st5).
Proof. intros Hm. unfold run. rewrite Hm. reflexivity. Qed.

Lemma bigmac_merge_outcome (h c : option DataFrame) :
  (h = None /\ c = None /\ bigmac_merge h c = Raise (KeyError "date"))
  \/ exists bm, bigmac_merge h c = Ok bm.
Proof.
  unfold bigmac_merge. destruct h, c; cbn [pd_concat]; eauto.
Qed.

(** After lines 127-140 the only exception left is that of [.iloc[0]]. *)
Lemma run_raise_after_summary cutoff (inp : Loaded) (bm : DataFrame)
      (st1 : State) (e : exn) :
  bigmac_merge (historical inp) (current inp) = Ok bm ->
  build_summary (after_merge inp bm) = Ok st1 ->
  run cutoff inp = Raise e -> e = IndexError.
Proof.
  intros Hm E0 H. rewrite (run_after_merge _ _ _ Hm), E0 in H.
  cbn [bind] in H.
  assert (Hp := fun H0 => summary_frames_columns _ _ H0 E0).
  destruct (Hp eq_refl) as (Cb & Cg & Cm & Cc). clear Hp.
  destruct (plot_bigmac cutoff st1) as [st2|e0] eqn:E1; cbn [bind] in H.
  2:{ injection H as <-. eapply plot_bigmac_raises; eassumption. }
  pose proof (plot_bigmac_summary _ _ _ E1) as S2.
  pose proof (plot_bigmac_cpi _ _ _ E1) as K2.
  destruct (plot_gasoline cutoff st2) as [st3|e0] eqn:E2; cbn [bind] in H.
  2:{ injection H as <-. eapply plot_gasoline_raises; [|exact E2].
      rewrite S2. exact Cg. }
  pose proof (plot_gasoline_summary _ _ _ E2) as S3.
  pose proof (plot_gasoline_cpi _ _ _ E2) as K3.
  destruct (plot_median_home cutoff st3) as [st4|e0] eqn:E3; cbn [bind] in H.
  2:{ injection H as <-. eapply plot_median_home_raises; [|exact E3].
      rewrite S3, S2. exact Cm. }
  pose proof (plot_median_home_summary _ _ _ E3) as S4.
  pose proof (plot_median_home_cpi _ _ _ E3) as K4.
  destruct (plot_cpi cutoff st4) as [st5|e0] eqn:E4; cbn [bind] in H.
  2:{ injection H as <-. eapply plot_cpi_raises; [|exact E4].
      rewrite S4, S3, S2, K4, K3, K2. intros s Hs. now apply Cc in Hs. }
  pose proof (plot_cpi_summary _ _ _ E4) as S5.
  assert (summary st5 = summary st1) as S by congruence.
  unfold build_combined in H.
  destruct (combine_series cutoff "bigmac" _ _ _ st5) as [c1|e0] eqn:E5;
    cbn [bind] in H.
  2:{ injection H as <-. eapply combine_series_raises_IndexError; [|exact E5].
      rewrite S. exact Cb. }
  pose proof (combine_series_summary _ _ _ _ _ _ _ E5) as T1.
  destruct (combine_series cutoff "gasoline" _ _ _ c1) as [c2|e0] eqn:E6;
    cbn [bind] in H.
  2:{ injection H as <-. eapply combine_series_raises_IndexError; [|exact E6].
      rewrite T1, S. exact Cg. }
  pose proof (combine_series_summary _ _ _ _ _ _ _ E6) as T2.
  destruct (combine_series cutoff "median_home" _ _ _ c2) as [c3|e0] eqn:E7;
    cbn [bind] in H.
  2:{ injection H as <-. eapply combine_series_raises_IndexError; [|exact E7].
      rewrite T2, T1, S. exact Cm. }
  pose proof (combine_series_summary _ _ _ _ _ _ _ E7) as T3.
  eapply combine_series_raises_IndexError; [|exact H].
  rewrite T3, T2, T1, S. intros df Hk. now apply Cc in Hk.
Qed.

(** A series without a point on or after the cutoff ends the run with
    [IndexError]. *)
Lemma run_ends_with_IndexError cutoff (inp : Loaded) (bm : DataFrame)
      (st1 : State) (key : string) (df : DataFrame) :
  bigmac_merge (historical inp) (current inp) = Ok bm ->
  build_summary (after_merge inp bm) = Ok st1 ->
  In key summary_keys ->
  dict_get key (summary st1) = Some df ->
  rows (filter_date_ge cutoff df) = [] ->
  run cutoff inp = Raise IndexError.
Proof.
  intros Hm Hs Hkey Hk He.
  destruct (run_raises_after_summary cutoff inp bm st1 key df Hm Hs Hkey Hk He)
    as [e H].
  now rewrite H, (run_raise_after_summary cutoff inp bm st1 e Hm Hs H).
Qed.

(** When every series stored in [summary] has a point on or after the
    cutoff, the run goes through. *)
Lemma run_goes_through cutoff (inp : Loaded) (bm : DataFrame) (st1 : State) :
  bigmac_merge (historical inp) (current inp) = Ok bm ->
  build_summary (after_merge inp bm) = Ok st1 ->
  (forall key df, In key summary_keys ->
                  dict_get key (summary st1) = Some df ->
                  rows (filter_date_ge cutoff df) <> []) ->
  exists st, run cutoff inp = Ok st.
Proof.
  intros Hm E0 Hpts. rewrite (run_after_merge _ _ _ Hm), E0. cbn [bind].
  assert (Hp := fun H0 => summary_frames_columns _ _ H0 E0).
  destruct (Hp eq_refl) as (Cb & Cg & Cm & Cc). clear Hp.
  assert (Hd := fun s H0 => summary_cpi_dates _ _ s H0 E0).
  destruct (plot_bigmac_goes_through cutoff st1) as [st2 E1].
  { intros df Hk. split; [now apply Cb|].
    apply (Hpts "bigmac"); [simpl; tauto | exact Hk]. }
  rewrite E1. cbn [bind].
  pose proof (plot_bigmac_summary _ _ _ E1) as S2.
  pose proof (plot_bigmac_cpi _ _ _ E1) as K2.
  destruct (plot_gasoline_goes_through cutoff st2) as [st3 E2].
  { rewrite S2. intros df Hk. split; [now apply Cg|].
    apply (Hpts "gasoline"); [simpl; tauto | exact Hk]. }
  rewrite E2. cbn [bind].
  pose proof (plot_gasoline_summary _ _ _ E2) as S3.
  pose proof (plot_gasoline_cpi _ _ _ E2) as K3.
  destruct (plot_median_home_goes_through cutoff st3) as [st4 E3].
  { rewrite S3, S2. intros df Hk. split; [now apply Cm|].
    apply (Hpts "median_home"); [simpl; tauto | exact Hk]. }
  rewrite E3. cbn [bind].
  pose proof (plot_median_home_summary _ _ _ E3) as S4.
  pose proof (plot_median_home_cpi _ _ _ E3) as K4.
  destruct (plot_cpi_goes_through cutoff st4) as [st5 E4].
  { rewrite S4, S3, S2, K4, K3, K2. intros s Hk.
    destruct (Cc s Hk) as (_ & c & Hc & Hv).
    exists c. split; [exact Hc|]. split; [exact Hv|].
    destruct (Hd s eq_refl Hk) as (c' & Hc' & Hdates).
    assert (c' = c) as -> by congruence.
    intros E. apply (Hpts "cpi" s); [simpl; tauto | exact Hk |].
    now apply (filter_date_ge_same_dates cutoff c s). }
  rewrite E4. cbn [bind].
  pose proof (plot_cpi_summary _ _ _ E4) as S5.
  assert (summary st5 = summary st1) as S by congruence.
  unfold build_combined.
  destruct (combine_series_goes_through cutoff "bigmac" "Big Mac"
              "bigmac_per_10k" group_mean st5) as [c1 E5].
  { rewrite S. intros df Hk. split; [now apply Cb|].
    apply (Hpts "bigmac"); [simpl; tauto | exact Hk]. }
  rewrite E5. cbn [bind].
  pose proof (combine_series_summary _ _ _ _ _ _ _ E5) as T1.
  destruct (combine_series_goes_through cutoff "gasoline" "Gasoline"
              "gallon_per_10k" group_mean c1) as [c2 E6].
  { rewrite T1, S. intros df Hk. split; [now apply Cg|].
    apply (Hpts "gasoline"); [simpl; tauto | exact Hk]. }
  rewrite E6. cbn [bind].
  pose proof (combine_series_summary _ _ _ _ _ _ _ E6) as T2.
  destruct (combine_series_goes_through cutoff "median_home" "Median Home"
              "homes_per_10k" group_last c2) as [c3 E7].
  { rewrite T2, T1, S. intros df Hk. split; [now apply Cm|].
    apply (Hpts "median_home"); [simpl; tauto | exact Hk]. }
  rewrite E7. cbn [bind].
  pose proof (combine_series_summary _ _ _ _ _ _ _ E7) as T3.
  apply combine_series_goes_through.
  rewrite T3, T2, T1, S. intros df Hk. split; [now apply Cc|].
  apply (Hpts "cpi"); [simpl; tauto | exact Hk].
Qed.

(** What a completed run has stored for the Big Mac chart and for every
    series of the combined table. *)
Lemma run_entries cutoff (inp : Loaded) (bm : DataFrame) (st1 st : State) :
  bigmac_merge (historical inp) (current inp) = Ok bm ->
  build_summary (after_merge inp bm) = Ok st1 ->
  run cutoff inp = Ok st ->
  (forall df, dict_get "bigmac" (summary st1) = Some df ->
     exists fig,
       rebase "bigmac_per_10k" "bigmac_pct" (filter_date_ge cutoff df) = Ok fig
       /\ dict_get "bigmac_cost_percentage_1995.png" (figures st) = Some fig)
  /\ (forall key label src agg df,
        In (key, label, src, agg) combined_series ->
        dict_get key (summary st1) = Some df ->
        exists out,
          rebase src "pct" (resample_YE agg (filter_date_ge cutoff df)) = Ok out
          /\ dict_get label (combined_data st) = Some out).
Proof.
  intros Hm E0 H. rewrite (run_after_merge _ _ _ Hm), E0 in H.
  cbn [bind] in H.
  inv_bind H. rename a into st2.
  inv_bind H. rename a into st3.
  inv_bind H. rename a into st4.
  inv_bind H. rename a into st5.
  pose proof (plot_bigmac_summary _ _ _ E) as S2.
  pose proof (plot_gasoline_summary _ _ _ E1) as S3.
  pose proof (plot_median_home_summary _ _ _ E2) as S4.
  pose proof (plot_cpi_summary _ _ _ E3) as S5.
  pose proof (build_combined_figures _ _ _ H) as [Hfig _].
  unfold build_combined in H.
  inv_bind H. rename a into c1.
  inv_bind H. rename a into c2.
  inv_bind H. rename a into c3.
  pose proof (combine_series_summary _ _ _ _ _ _ _ E4) as T1.
  pose proof (combine_series_summary _ _ _ _ _ _ _ E5) as T2.
  pose proof (combine_series_summary _ _ _ _ _ _ _ E6) as T3.
  split.
  - intros df Hk.
    destruct (plot_bigmac_stores _ _ _ _ Hk E) as (fig & Rf & Hf).
    exists fig. split; [exact Rf|]. rewrite Hfig.
    rewrite (fun Hne => plot_cpi_keeps _ _ _
               "bigmac_cost_percentage_1995.png" Hne E3) by string_neq.
    rewrite (fun Hne => plot_median_home_keeps _ _ _
               "bigmac_cost_percentage_1995.png" Hne E2) by string_neq.
    rewrite (fun Hne => plot_gasoline_keeps _ _ _
               "bigmac_cost_percentage_1995.png" Hne E1) by string_neq.
    exact Hf.
  - intros key label src agg df Hin Hk.
    destruct Hin as [Hin|[Hin|[Hin|[Hin|[]]]]];
      injection Hin as <- <- <- <-.
    + assert (dict_get "bigmac" (summary st5) = Some df) as Hk5 by congruence.
      destruct (combine_series_stores _ _ _ _ _ _ _ _ Hk5 E4)
        as (out & Ro & Ho).
      exists out. split; [exact Ro|].
      rewrite (fun Hne => combine_series_keeps _ _ _ _ _ _ _ "Big Mac" Hne H)
        by string_neq.
      rewrite (fun Hne => combine_series_keeps _ _ _ _ _ _ _ "Big Mac" Hne E6)
        by string_neq.
      rewrite (fun Hne => combine_series_keeps _ _ _ _ _ _ _ "Big Mac" Hne E5)
        by string_neq.
      exact Ho.
    + assert (dict_get "gasoline" (summary c1) = Some df) as Hk1 by congruence.
      destruct (combine_series_stores _ _ _ _ _ _ _ _ Hk1 E5)
        as (out & Ro & Ho).
      exists out. split; [exact Ro|].
      rewrite (fun Hne => combine_series_keeps _ _ _ _ _ _ _ "Gasoline" Hne H)
        by string_neq.
      rewrite (fun Hne => combine_series_keeps _ _ _ _ _ _ _ "Gasoline" Hne E6)
        by string_neq.
      exact Ho.
    + assert (dict_get "median_home" (summary c2) = Some df) as Hk2
          by congruence.
      destruct (combine_series_stores _ _ _ _ _ _ _ _ Hk2 E6)
        as (out & Ro & Ho).
      exists out. split; [exact Ro|].
      rewrite (fun Hne => combine_series_keeps _ _ _ _ _ _ _ "Median Home"
                                               Hne H)
        by string_neq.
      exact Ho.
    + assert (dict_get "cpi" (summary c3) = Some df) as Hk3 by congruence.
      destruct (combine_series_stores _ _ _ _ _ _ _ _ Hk3 H)
        as (out & Ro & Ho).
      exists out. split; [exact Ro | exact Ho].
Qed.

(** C3, amended: when no point has date >= the cutoff, the rebase step
    raises [IndexError] (from [.iloc[0]], at the data's frequency and after
    resampling alike) and, nothing catching it, the whole run ends with
    that exception.  A zero baseline raises nothing: as long as every
    series has a point on or after the cutoff the run completes whatever
    the values are, the Big Mac chart and every entry of the combined table
    keep all their points, and where the baseline is zero the rebased value
    at the baseline is NaN. *)
Theorem rebase_failure_modes :
  (forall cutoff src dst agg df i,
      index_of src (columns df) = Some i ->
      rows (filter_date_ge cutoff df) = [] ->
      rebase src dst (filter_date_ge cutoff df) = Raise IndexError
      /\ rebase src dst (resample_YE agg (filter_date_ge cutoff df))
         = Raise IndexError)
  /\ (forall cutoff inp bm st1 key df,
        bigmac_merge (historical inp) (current inp) = Ok bm ->
        build_summary (after_merge inp bm) = Ok st1 ->
        In key summary_keys ->
        dict_get key (summary st1) = Some df ->
        rows (filter_date_ge cutoff df) = [] ->
        run cutoff inp = Raise IndexError)
  /\ (forall cutoff inp bm st1,
        bigmac_merge (historical inp) (current inp) = Ok bm ->
        build_summary (after_merge inp bm) = Ok st1 ->
        (forall key df, In key summary_keys ->
                        dict_get key (summary st1) = Some df ->
                        rows (filter_date_ge cutoff df) <> []) ->
        exists st,
          run cutoff inp = Ok st
          /\ (forall df, dict_get "bigmac" (summary st1) = Some df ->
                exists fig,
                  dict_get "bigmac_cost_percentage_1995.png" (figures st)
                  = Some fig
                  /\ kept_after_rebase "bigmac_per_10k" "bigmac_pct"
                                       (filter_date_ge cutoff df) fig)
          /\ (forall key label src agg df,
                In (key, label, src, agg) combined_series ->
                dict_get key (summary st1) = Some df ->
                exists out,
                  dict_get label (combined_data st) = Some out
                  /\ kept_after_rebase
                       src "pct"
                       (resample_YE agg (filter_date_ge cutoff df)) out)).
Proof.
  split; [|split].
  - intros cutoff src dst agg df i Hi He. split.
    + rewrite rebase_empty by assumption. cbn [columns filter_date_ge].
      now rewrite Hi.
    + rewrite rebase_empty by (now apply resample_YE_empty).
      unfold resample_YE. rewrite He. cbn [sort_rows fold_right columns].
      cbn [columns filter_date_ge]. now rewrite Hi.
  - intros cutoff inp bm st1 key df. apply run_ends_with_IndexError.
  - intros cutoff inp bm st1 Hm Hs Hpts.
    destruct (run_goes_through cutoff inp bm st1 Hm Hs Hpts) as [st Hrun].
    destruct (run_entries cutoff inp bm st1 st Hm Hs Hrun) as [Hfig Hcomb].
    exists st. split; [exact Hrun|]. split.
    + intros df Hk. destruct (Hfig df Hk) as (fig & Rf & Hf).
      exists fig. split; [exact Hf|].
      apply rebase_kept; [|exact Rf].
      apply filter_date_ge_wf. eapply summary_bigmac_wf; eassumption.
    + intros key label src agg df Hin Hk.
      destruct (Hcomb key label src agg df Hin Hk) as (out & Ro & Ho).
      exists out. split; [exact Ho|].
      apply rebase_kept; [apply resample_YE_wf | exact Ro].
Qed.

Lemma rebase_failure_modes_witness :
  run CUTOFF old_gasoline_loaded = Raise IndexError
  /\ exists st out r0 p,
       run CUTOFF zero_baseline_loaded = Ok st
       /\ dict_get "Big Mac" (combined_data st) = Some out
       /\ hd_error (rows out) = Some r0
       /\ get_cell "pct" out r0 = Some p
       /\ is_nan p = true.
Proof.
  split.
  - eapply (proj1 (proj2 rebase_failure_modes) CUTOFF old_gasoline_loaded
              _ _ "gasoline").
    + vm_compute. reflexivity.
    + vm_compute. reflexivity.
    + simpl. tauto.
    + vm_compute. reflexivity.
    + vm_compute. reflexivity.
  - edestruct (proj2 (proj2 rebase_failure_modes) CUTOFF zero_baseline_loaded)
      as (st & Hrun & _ & Hcomb).
    + vm_compute. reflexivity.
    + vm_compute. reflexivity.
    + intros key df [<-|[<-|[<-|[<-|[]]]]] Hk; vm_compute in Hk;
        try discriminate Hk.
      injection Hk as <-. vm_compute. discriminate.
    + edestruct (Hcomb "bigmac" "Big Mac" "bigmac_per_10k" group_mean)
        as (out & Hout & _ & _ & Hz).
      * left. reflexivity.
      * vm_compute. reflexivity.
      * edestruct Hz as (r0 & p & H1 & H2 & H3).
        -- vm_compute. reflexivity.
        -- vm_compute. reflexivity.
        -- vm_compute. reflexivity.
        -- exists st, out, r0, p. repeat split; assumption.
Defined.

Lemma empty_series_dec (cutoff : Timestamp) (d : dict) (ks : list string) :
  (exists key df, In key ks /\ dict_get key d = Some df
                  /\ rows (filter_date_ge cutoff df) = [])
  \/ (forall key df, In key ks -> dict_get key d = Some df ->
                     rows (filter_date_ge cutoff df) <> []).
Proof.
  induction ks as [|k ks IH].
  - right. intros key df [].
  - destruct IH as [(key & df & Hin & Hk & He)|IH].
    { left. exists key, df. split; [now right | tauto]. }
    destruct (dict_get k d) as [df|] eqn:Hk.
    + destruct (rows (filter_date_ge cutoff df)) as [|r t] eqn:He.
      * left. exists k, df. split; [now left | tauto].
      * right. intros key df' [<-|Hin] Hk'; [|now apply (IH key)].
        assert (df' = df) as -> by congruence. rewrite He. discriminate.
    + right. intros key df' [<-|Hin] Hk'; [congruence | now apply (IH key)].
Qed.

Lemma missing_column_names (st : State) (c : string) :
  missing_column st = Some c -> c = "price" \/ c = "value".
Proof.
  unfold missing_column.
  destruct (lacks "price" (Some (bigmac st))); [intros [= <-]; now left|].
  destruct (lacks "price" (gasoline st)); [intros [= <-]; now left|].
  destruct (lacks "value" (msp st)); [intros [= <-]; now right|].
  destruct (lacks "value" (cpi st)); [intros [= <-]; now right|].
  discriminate.
Qed.

(** X16: over frames with numeric columns and parsed dates, a run fails in
    exactly these cases: with [KeyError 'date'] when neither Big Mac file
    exists; with [KeyError] for the first column that lines 127-140 do not
    find ([price] or [value]); and, every column being there, with
    [IndexError] when a series stored in [summary] has no point on or after
    the cutoff.  Hence the exception is one of these four. *)
Theorem run_failures (cutoff : Timestamp) (inp : Loaded) (e : exn) :
  (run cutoff inp = Raise e <->
   (historical inp = None /\ current inp = None /\ e = KeyError "date")
   \/ (exists bm,
         bigmac_merge (historical inp) (current inp) = Ok bm
         /\ ((exists c, missing_column (after_merge inp bm) = Some c
                        /\ e = KeyError c)
             \/ (exists st1 key df,
                   build_summary (after_merge inp bm) = Ok st1
                   /\ In key summary_keys
                   /\ dict_get key (summary st1) = Some df
                   /\ rows (filter_date_ge cutoff df) = []
                   /\ e = IndexError))))
  /\ (run cutoff inp = Raise e ->
      e = KeyError "date" \/ e = KeyError "price" \/ e = KeyError "value"
      \/ e = IndexError).
Proof.
  assert (run cutoff inp = Raise e ->
          (historical inp = None /\ current inp = None /\ e = KeyError "date")
          \/ (exists bm,
                bigmac_merge (historical inp) (current inp) = Ok bm
                /\ ((exists c, missing_column (after_merge inp bm) = Some c
                               /\ e = KeyError c)
                    \/ (exists st1 key df,
                          build_summary (after_merge inp bm) = Ok st1
                          /\ In key summary_keys
                          /\ dict_get key (summary st1) = Some df
                          /\ rows (filter_date_ge cutoff df) = []
                          /\ e = IndexError)))) as Hto.
  { intros H.
    destruct (bigmac_merge_outcome (historical inp) (current inp))
      as [(Hh & Hc & Hm)|[bm Hm]].
    - left. split; [exact Hh|]. split; [exact Hc|].
      unfold run in H. rewrite Hm in H. cbn [bind] in H. congruence.
    - right. exists bm. split; [exact Hm|].
      pose proof (build_summary_outcome (after_merge inp bm)) as Hs.
      destruct (missing_column (after_merge inp bm)) as [c|].
      + left. exists c. split; [reflexivity|].
        rewrite (run_after_merge _ _ _ Hm), Hs in H. cbn [bind] in H.
        congruence.
      + right. destruct Hs as [st1 Hs].
        pose proof (run_raise_after_summary cutoff inp bm st1 e Hm Hs H) as ->.
        destruct (empty_series_dec cutoff (summary st1) summary_keys)
          as [(key & df & Hin & Hk & He)|Hall].
        * exists st1, key, df. tauto.
        * destruct (run_goes_through cutoff inp bm st1 Hm Hs Hall) as [st Hr].
          congruence. }
  split; [split; [exact Hto|]|].
  - intros [(Hh & Hc & ->)|(bm & Hm & [(c & Hc & ->)|Hidx])].
    + unfold run, bigmac_merge. now rewrite Hh, Hc.
    + pose proof (build_summary_outcome (after_merge inp bm)) as Hs.
      rewrite Hc in Hs. now rewrite (run_after_merge _ _ _ Hm), Hs.
    + destruct Hidx as (st1 & key & df & Hs & Hin & Hk & He & ->).
      exact (run_ends_with_IndexError cutoff inp bm st1 key df Hm Hs Hin Hk He).
  - intros H.
    destruct (Hto H) as [(_ & _ & ->)|(bm & _ & [(c & Hc & ->)|Hidx])].
    + now left.
    + destruct (missing_column_names _ _ Hc) as [-> | ->]; tauto.
    + destruct Hidx as (_ & _ & _ & _ & _ & _ & _ & ->). tauto.
Qed.

Lemma run_failures_witness :
  run CUTOFF cpi_unrenamed_loaded = Raise (KeyError "value")
  /\ run CUTOFF old_gasoline_loaded = Raise IndexError.
Proof.
  split.
  - apply (proj2 (proj1 (run_failures CUTOFF cpi_unrenamed_loaded
                                      (KeyError "value")))).
    right. eexists. split; [vm_compute; reflexivity|].
    left. exists "value". split; [vm_compute; reflexivity | reflexivity].
  - apply (proj2 (proj1 (run_failures CUTOFF old_gasoline_loaded IndexError))).
    right. eexists. split; [vm_compute; reflexivity|].
    right. do 3 eexists.
    split; [vm_compute; reflexivity|].
    split; [|split; [|split; [|reflexivity]]].
    + right. left. reflexivity.
    + vm_compute. reflexivity.
    + vm_compute. reflexivity.
Defined.
